(** * model_navigator: the perf_analyzer execution controller and the
      offline-performance driver

    A shallow embedding of

    - [model_navigator/perf_analyzer/perf_analyzer.py] (class [PerfAnalyzer]:
      the adaptive-retry loop around one external [perf_analyzer] process), and
    - [model_navigator/cli/run_offline_performance_test_on_triton.py]
      (the batch-size sweep that calls it and folds the CSV metrics),

    followed by the properties of the two that the specification states.

    Python objects are modelled by explicit state passing: a computation is a
    function from a state to a result (a value or a raised exception) and the
    state it leaves behind, so that what an exception leaves mutated can be
    observed.  The operating system is an oracle that says, for the n-th
    process started and its command line, what the tool prints, how it ends and
    which files it writes. *)

From Stdlib Require Import ZArith String Ascii List Lia.
From stdpp Require Import base strings gmap list pretty.

Local Open Scope Z_scope.
Local Open Scope string_scope.

(** ** Python values, exceptions and results *)

Module Py.

(** The values that flow through the two modules: parameter values are
    strings, integers, booleans or lists of strings, and [None] is what an
    unset parameter reads as. *)
Inductive pyval : Type :=
  | PNone
  | PBool (b : bool)
  | PInt (n : Z)
  | PStr (s : string)
  | PList (l : list string).

(** The message of a [ModelNavigatorException].  The source builds it with an
    f-string; the fields interpolated there are kept apart here. *)
Inductive mn_message : Type :=
  | ProcessFailed (cmd : list string) (returncode : Z) (output : option string)
      (* "Running perf_analyzer with {cmd} failed with exit status
         {returncode} : {output}" *)
  | NoValidRequests (times : Z)
      (* "Ran perf_analyzer {times} times, but no valid requests recorded." *)
  | OutputWithoutRun.
      (* "Attempted to get perf_analyzer outputwithout calling run first." *)

Inductive exn : Type :=
  | TypeError
  | ValueError
  | FileNotFoundError
  | AttributeError
  | CalledProcessError (returncode : Z) (cmd : list string) (output : option string)
  | TimeoutExpired (cmd : list string) (timeout : Z)
  | ModelNavigatorException (m : mn_message)
  | SystemExit (code : Z)
  | Hangs.
      (* not an exception: a loop that never ends (a pipe read on a process
         that nothing stops) *)

Inductive result (A : Type) : Type :=
  | Ok (a : A)
  | Raise (e : exn).
Arguments Ok {A} a.
Arguments Raise {A} e.

(** State-and-exception computations. *)
Definition M (S A : Type) : Type := S -> result A * S.

Definition ret {S A} (a : A) : M S A := fun s => (Ok a, s).
Definition raise {S A} (e : exn) : M S A := fun s => (Raise e, s).
Definition bind {S A B} (c : M S A) (k : A -> M S B) : M S B :=
  fun s => match c s with
           | (Ok a, s') => k a s'
           | (Raise e, s') => (Raise e, s')
           end.
Definition get {S} : M S S := fun s => (Ok s, s).
Definition gets {S A} (f : S -> A) : M S A := fun s => (Ok (f s), s).
Definition modify {S} (f : S -> S) : M S unit := fun s => (Ok tt, f s).
Definition lift_result {S A} (r : result A) : M S A := fun s => (r, s).

(** [try: c  except <those e with h e = Some k>: k] *)
Definition try_except {S A} (c : M S A) (h : exn -> option (M S A)) : M S A :=
  fun s => match c s with
           | (Ok a, s') => (Ok a, s')
           | (Raise e, s') =>
               match h e with
               | Some k => k s'
               | None => (Raise e, s')
               end
           end.

(** [for x in l: body x] *)
Fixpoint for_each {S A} (l : list A) (body : A -> M S unit) : M S unit :=
  match l with
  | [] => ret tt
  | x :: l' => bind (body x) (fun _ => for_each l' body)
  end.

(** *** Strings *)

(** [str.isspace] on the ASCII range: TAB..CR, FS..US and the space. *)
Definition is_space (c : ascii) : bool :=
  let n := Z.of_nat (nat_of_ascii c) in
  ((9 <=? n)%Z && (n <=? 13)%Z) || ((28 <=? n)%Z && (n <=? 31)%Z) || (n =? 32)%Z.

(** [s.startswith(sub)] *)
Fixpoint startswith (s sub : string) {struct sub} : bool :=
  match sub with
  | EmptyString => true
  | String a sub' =>
      match s with
      | EmptyString => false
      | String b s' => Ascii.eqb a b && startswith s' sub'
      end
  end.

Fixpoint find_from (s sub : string) (i : Z) : Z :=
  if startswith s sub then i
  else match s with
       | EmptyString => -1
       | String _ s' => find_from s' sub (i + 1)
       end.

(** [s.find(sub)]: the lowest index at which [sub] occurs in [s], -1 when it
    does not occur. *)
Definition find (s sub : string) : Z := find_from s sub 0.

(** [sub in s]: [sub] occurs somewhere in [s]. *)
Definition contains (s sub : string) : Prop :=
  exists pre post, s = pre +:+ sub +:+ post.

(** [s.replace(a, b)] for one-character [a] and [b]. *)
Fixpoint replace_char (a b : ascii) (s : string) : string :=
  match s with
  | EmptyString => EmptyString
  | String c s' => String (if Ascii.eqb c a then b else c) (replace_char a b s')
  end.

Fixpoint split_go (s : string) (cur : option string) : list string :=
  match s with
  | EmptyString => match cur with Some w => [w] | None => [] end
  | String c s' =>
      if is_space c then
        match cur with
        | Some w => w :: split_go s' None
        | None => split_go s' None
        end
      else
        split_go s' (Some (match cur with
                           | Some w => w +:+ String c EmptyString
                           | None => String c EmptyString
                           end))
  end.

(** [s.split()]: the maximal runs of non-space characters. *)
Definition split (s : string) : list string := split_go s None.

Fixpoint split_on_go (sep : ascii) (s cur : string) : list string :=
  match s with
  | EmptyString => [cur]
  | String c s' =>
      if Ascii.eqb c sep then cur :: split_on_go sep s' EmptyString
      else split_on_go sep s' (cur +:+ String c EmptyString)
  end.

(** [s.split(sep=sep)] for a one-character separator: the pieces between the
    separators, empty pieces included. *)
Definition split_on (sep : ascii) (s : string) : list string :=
  split_on_go sep s EmptyString.

(** Every character of [s] passes the test [p]. *)
Fixpoint all_chars (p : ascii -> bool) (s : string) : bool :=
  match s with
  | EmptyString => true
  | String c s' => p c && all_chars p s'
  end.

Fixpoint lstrip (s : string) : string :=
  match s with
  | EmptyString => EmptyString
  | String c s' => if is_space c then lstrip s' else s
  end.

Definition rstrip (s : string) : string :=
  String.rev (lstrip (String.rev s)).

Definition strip (s : string) : string := rstrip (lstrip s).

(** *** [int(...)] *)

Definition digit_of (c : ascii) : option Z :=
  let n := Z.of_nat (nat_of_ascii c) in
  if (48 <=? n)%Z && (n <=? 57)%Z then Some (n - 48) else None.

(** Decimal digits, where one underscore may sit between two digits. *)
Fixpoint parse_digits (s : string) (acc : Z) (after_digit : bool) : option Z :=
  match s with
  | EmptyString => if after_digit then Some acc else None
  | String c s' =>
      match digit_of c with
      | Some d => parse_digits s' (10 * acc + d) true
      | None =>
          if Ascii.eqb c "_"%char && after_digit then parse_digits s' acc false
          else None
      end
  end.

(** The white space [int] skips around the number in an ASCII text, that of
    C's [isspace]: TAB..CR and the space.  The separators FS..US, which
    [str.strip] removes, are not among it. *)
Definition is_int_space (c : ascii) : bool :=
  let n := Z.of_nat (nat_of_ascii c) in
  ((9 <=? n)%Z && (n <=? 13)%Z) || (n =? 32)%Z.

Fixpoint lstrip_int (s : string) : string :=
  match s with
  | EmptyString => EmptyString
  | String c s' => if is_int_space c then lstrip_int s' else s
  end.

Definition strip_int (s : string) : string :=
  String.rev (lstrip_int (String.rev (lstrip_int s))).

(** [int(s)] for a string: surrounding white space, an optional sign, then
    decimal digits; anything else is a [ValueError]. *)
Definition int_of_string (s : string) : result Z :=
  let body := strip_int s in
  let signed :=
    match body with
    | String "-"%char r => (-1, r)
    | String "+"%char r => (1, r)
    | _ => (1, body)
    end in
  match parse_digits (snd signed) 0 false with
  | Some n => Ok (fst signed * n)
  | None => Raise ValueError
  end.

(** [int(v)] *)
Definition int (v : pyval) : result Z :=
  match v with
  | PInt n => Ok n
  | PBool b => Ok (if b then 1 else 0)
  | PStr s => int_of_string s
  | PNone | PList _ => Raise TypeError
  end.

(** [v + d] (and so [v += d]) for an integer [d]. *)
Definition add_int (v : pyval) (d : Z) : result pyval :=
  match v with
  | PInt n => Ok (PInt (n + d))
  | PBool b => Ok (PInt ((if b then 1 else 0) + d))
  | PNone | PStr _ | PList _ => Raise TypeError
  end.

(** [str(n)] for an integer. *)
Definition str_int (n : Z) : string := pretty n.

(** Truth value of a Python object, as [if] and [or] test it. *)
Definition truthy (v : pyval) : bool :=
  match v with
  | PNone => false
  | PBool b => b
  | PInt n => negb (n =? 0)%Z
  | PStr s => negb (String.eqb s "")
  | PList l => match l with [] => false | _ => true end
  end.

(** [a or b] *)
Definition py_or (a b : pyval) : pyval := if truthy a then a else b.

(** [v == s] for a string literal [s] *)
Definition eq_str (v : pyval) (s : string) : bool :=
  match v with
  | PStr s' => String.eqb s' s
  | _ => false
  end.

Definition is_None (v : pyval) : bool :=
  match v with PNone => true | _ => false end.

End Py.
Export Py.

Notation "x <- c ;; k" := (bind c (fun x => k))
  (at level 100, c at next level, right associativity, only parsing).
Notation "c ;;; k" := (bind c (fun _ => k))
  (at level 100, right associativity, only parsing).

(** ** The world outside the interpreter *)

Module OS.

(** How a started tool ends: with an exit status, or not within the time it
    is allowed. *)
Inductive ending : Type :=
  | Exited (code : Z)
  | Overran.

Inductive channel : Type := Stdout | Stderr.

(** What one process does: the text it writes, in order and per channel, how
    it ends, and the CSV files it leaves behind (a file is kept as the rows
    [csv.DictReader] yields for it: one dictionary per sample row, keyed by
    the header's column names).  The executables exist: starting a process
    never fails. *)
Record behaviour : Type := {
  b_lines : list (channel * string);
  b_ending : ending;
  b_writes : gmap string (list (gmap string pyval))
}.

Record world : Type := {
  w_spawned : list (list string);        (* every command line started, oldest first *)
  w_stdout : list string;                (* what [print] wrote *)
  w_files : gmap string (list (gmap string pyval));
  w_errors : list mn_message;            (* LOGGER.error *)
  w_saved : list (string * list (gmap string pyval));   (* save_results *)
  w_shown : list (list (gmap string pyval))             (* show_results *)
}.

Definition spawned_since (w w' : world) : list (list string) :=
  drop (length (w_spawned w)) (w_spawned w').

(** The world after a process was started with [argv] and left [files]. *)
Definition started (argv : list string) (files : gmap string (list (gmap string pyval)))
    (w : world) : world :=
  {| w_spawned := w_spawned w ++ [argv];
     w_stdout := w_stdout w;
     w_files := files ∪ w_files w;
     w_errors := w_errors w;
     w_saved := w_saved w;
     w_shown := w_shown w |}.

(** The world after [lines] were printed. *)
Definition printed (lines : list string) (w : world) : world :=
  {| w_spawned := w_spawned w;
     w_stdout := w_stdout w ++ lines;
     w_files := w_files w;
     w_errors := w_errors w;
     w_saved := w_saved w;
     w_shown := w_shown w |}.

(** A handle on a started process whose standard output is piped. *)
Record process : Type := {
  p_lines : list string;     (* what successive [readline] calls return *)
  p_poll : option Z          (* the exit status once the pipe is drained; [None]: still running *)
}.

Definition newline : ascii := ascii_of_nat 10.

Fixpoint readlines_go (s cur : string) : list string :=
  match s with
  | EmptyString => match cur with EmptyString => [] | _ => [cur] end
  | String c s' =>
      if Ascii.eqb c newline then (cur +:+ String c EmptyString) :: readlines_go s' EmptyString
      else readlines_go s' (cur +:+ String c EmptyString)
  end.

(** The text of a pipe cut into the lines [readline] hands out, each with its
    newline. *)
Definition readlines (s : string) : list string := readlines_go s EmptyString.

Definition text_of (keep : channel -> bool) (b : behaviour) : string :=
  String.concat "" (map snd (filter (fun l => keep (fst l) = true) (b_lines b))).

Definition combined_text : behaviour -> string := text_of (fun _ => true).
Definition stdout_text : behaviour -> string :=
  text_of (fun c => match c with Stdout => true | Stderr => false end).

(** Exit status of coreutils [timeout] when it had to stop the command. *)
Definition TIMEOUT_EXIT : Z := 124.

Section Processes.

(** The tool: what the [n]-th process started does when it is run with the
    command line [argv]. *)
Variable tool : nat -> list string -> behaviour.

(** Running [argv]: [timeout <duration> command...] runs the command, passes
    its exit status on, and stops it with status 124 when it overruns;
    any other command line is the tool itself. *)
Definition exec (n : nat) (argv : list string) : behaviour :=
  match argv with
  | "timeout" :: _ :: command =>
      let b := tool n command in
      {| b_lines := b_lines b;
         b_ending := match b_ending b with
                     | Overran => Exited TIMEOUT_EXIT
                     | Exited c => Exited c
                     end;
         b_writes := b_writes b |}
  | _ => tool n argv
  end.

Definition start (argv : list string) : M world behaviour :=
  fun w =>
    let b := exec (length (w_spawned w)) argv in
    (Ok b, started argv (b_writes b) w).

(** [subprocess.check_output(command, stderr=STDOUT, encoding="utf-8",
    timeout=timeout)] *)
Definition check_output (command : list string) (timeout : Z) : M world string :=
  b <- start command ;;
  match b_ending b with
  | Exited 0 => ret (combined_text b)
  | Exited c => raise (CalledProcessError c command (Some (combined_text b)))
  | Overran => raise (TimeoutExpired command timeout)
  end.

(** [subprocess.Popen(argv, stdout=PIPE, encoding="utf-8")] *)
Definition Popen (argv : list string) : M world process :=
  b <- start argv ;;
  ret {| p_lines := readlines (stdout_text b);
         p_poll := match b_ending b with
                   | Exited c => Some c
                   | Overran => None
                   end |}.

End Processes.

Definition print (s : string) : M world unit := modify (printed [s]).

End OS.
Export OS.

(** ** perf_analyzer/perf_analyzer.py *)

Module PerfAnalyzerPy.

Definition MAX_INTERVAL_CHANGES : Z := 10.
Definition COUNT_INTERVAL_DELTA : Z := 50.
Definition TIME_INTERVAL_DELTA : Z := 2000.

(** Modelled from the spec: the class [PerfAnalyzerConfig] is not among the
    sources.  The specification describes it as a mutable mapping from
    parameter names to values; [run] compares [config["measurement-mode"]]
    with [None], so a parameter that was never set reads as [None]. *)
Definition getitem (config : gmap string pyval) (key : string) : pyval :=
  default PNone (config !! key).

(** Modelled from the spec: [config[key] = v] on the same mapping. *)
Definition setitem (config : gmap string pyval) (key : string) (v : pyval)
  : gmap string pyval :=
  <[key := v]> config.

Record PerfAnalyzer : Type := {
  bin_path : string;
  _config : gmap string pyval;
  _output : option string;
  _stream_output : bool;
  _timeout : Z
}.

(** [PerfAnalyzer(config, timeout, stream_output=False)].  An argument the
    call does not supply is [None] here: [config] and [timeout] have no
    default, so a call without one of them raises [TypeError]. *)
Definition __init__ (config : option (gmap string pyval)) (timeout : option Z)
    (stream_output : option bool) : result PerfAnalyzer :=
  match config, timeout with
  | Some config, Some timeout =>
      Ok {| bin_path := "perf_analyzer";
            _config := config;
            _output := None;
            _stream_output := default false stream_output;
            _timeout := timeout |}
  | _, _ => Raise TypeError
  end.

(** The object a method runs on, and the world around it. *)
Record ctl : Type := { self : PerfAnalyzer; env : world }.

Definition in_env {A} (c : M world A) : M ctl A :=
  fun s => let (r, w) := c (env s) in (r, {| self := self s; env := w |}).

Definition with_output (o : option string) (pa : PerfAnalyzer) : PerfAnalyzer :=
  {| bin_path := bin_path pa;
     _config := _config pa;
     _output := o;
     _stream_output := _stream_output pa;
     _timeout := _timeout pa |}.

Definition with_config (c : gmap string pyval) (pa : PerfAnalyzer) : PerfAnalyzer :=
  {| bin_path := bin_path pa;
     _config := c;
     _output := _output pa;
     _stream_output := _stream_output pa;
     _timeout := _timeout pa |}.

(** [self._output = o] *)
Definition set_output (o : option string) : M ctl unit :=
  modify (fun s => {| self := with_output o (self s); env := env s |}).

(** [self._config = c] (the configuration object is updated in place) *)
Definition set_config (c : gmap string pyval) : M ctl unit :=
  modify (fun s => {| self := with_config c (self s); env := env s |}).

(** [self._config[key] += delta] *)
Definition iadd_config (key : string) (delta : Z) : M ctl unit :=
  c <- gets (fun s => _config (self s)) ;;
  v <- lift_result (add_int (getitem c key) delta) ;;
  set_config (setitem c key v).

(** [self._output += text] *)
Definition iadd_output (text : string) : M ctl unit :=
  o <- gets (fun s => _output (self s)) ;;
  match o with
  | Some acc => set_output (Some (acc +:+ text))
  | None => raise TypeError
  end.

(** Where a pass through the body of the [for] loop leaves it. *)
Inductive flow : Type := Return | Continue.

Definition _faild_with_measruement_inverval (output : option string) : result pyval :=
  match output with
  | Some output =>
      Ok (py_or (PInt (find output "Failed to obtain stable measurement"))
                (PBool (negb (find output "Please use a larger time window" =? -1)%Z)))
  | None => Raise AttributeError
  end.

Definition _increase_request_count : M ctl unit :=
  iadd_config "measurement-request-count" COUNT_INTERVAL_DELTA.

Definition _increase_time_interval : M ctl unit :=
  iadd_config "measurement-interval" TIME_INTERVAL_DELTA.

(** The body of the read loop of [_run_with_stream], for one [readline]
    result: [if output: self._output += output; print(output.rstrip())]. *)
Definition stream_line (output : string) : M ctl unit :=
  if truthy (PStr output) then
    iadd_output output ;;;
    in_env (print (rstrip output))
  else ret tt.

(** The [except CalledProcessError as e] clause of [run]; it ends by falling
    through to the next pass of the loop, or by raising. *)
Definition except_CalledProcessError (returncode : Z) (cmd : list string)
    (output : option string) : M ctl flow :=
  retryable <- lift_result (_faild_with_measruement_inverval output) ;;
  if truthy retryable then
    mode <- gets (fun s => getitem (_config (self s)) "measurement-mode") ;;
    (if is_None mode || eq_str mode "count_windows"
     then _increase_request_count
     else _increase_time_interval) ;;;
    ret Continue
  else
    raise (ModelNavigatorException (ProcessFailed cmd returncode output)).

Section Controller.

Variable tool : nat -> list string -> behaviour.

(** [PerfAnalyzerConfig.to_cli_string], which is not among the sources. *)
Variable to_cli_string : gmap string pyval -> string.

Definition _run_with_stream (command : list string) : M ctl unit :=
  timeout <- gets (fun s => _timeout (self s)) ;;
  let commands_lst := (["timeout"; str_int timeout] ++ command)%list in
  process <- in_env (Popen tool commands_lst) ;;
  for_each (p_lines process) stream_line ;;;
  match p_poll process with
  | None => raise Hangs
  | Some result =>
      if (result =? 0)%Z then ret tt
      else
        o <- gets (fun s => _output (self s)) ;;
        raise (CalledProcessError result commands_lst o)
  end.

(** The command line [run] builds from the configuration. *)
Definition command_of (pa : PerfAnalyzer) : list string :=
  ([bin_path pa] ++ split (replace_char "="%char " "%char (to_cli_string (_config pa))))%list.

(** One pass through the body of the loop of [run]. *)
Definition attempt : M ctl flow :=
  pa <- gets self ;;
  let command := command_of pa in
  try_except
    ((if _stream_output pa then _run_with_stream command
      else
        out <- in_env (check_output tool command (_timeout pa)) ;;
        set_output (Some out)) ;;;
     ret Return)
    (fun e =>
       match e with
       | CalledProcessError returncode cmd output =>
           Some (except_CalledProcessError returncode cmd output)
       | _ => None
       end).

(** [n] more passes of [for _ in range(...)], then the statement after the
    loop. *)
Fixpoint run_loop (n : nat) : M ctl unit :=
  match n with
  | O => raise (ModelNavigatorException (NoValidRequests MAX_INTERVAL_CHANGES))
  | S n' =>
      f <- attempt ;;
      match f with
      | Return => ret tt
      | Continue => run_loop n'
      end
  end.

Definition run : M ctl unit :=
  stream <- gets (fun s => _stream_output (self s)) ;;
  (if stream then set_output (Some "") else ret tt) ;;;
  run_loop (Z.to_nat MAX_INTERVAL_CHANGES).

Definition output : M ctl string :=
  o <- gets (fun s => _output (self s)) ;;
  match o with
  | Some text =>
      if truthy (PStr text) then ret text
      else raise (ModelNavigatorException OutputWithoutRun)
  | None => raise (ModelNavigatorException OutputWithoutRun)
  end.

End Controller.

End PerfAnalyzerPy.
Export PerfAnalyzerPy.

(** ** cli/run_offline_performance_test_on_triton.py *)

Module OfflinePerformance.

Definition avg_sum_fields : list string :=
  [ "Client Send";
    "Network+Server Send/Recv";
    "Server Queue";
    "Server Compute";
    "Server Compute Input";
    "Server Compute Infer";
    "Server Compute Output";
    "Client Recv" ].

(** [r.get(key, d)] *)
Definition dict_get (r : gmap string pyval) (key : string) (d : pyval) : pyval :=
  default d (r !! key).

(** [[f(x) for x in l]], where [f] may raise. *)
Fixpoint comprehension {A B} (f : A -> result B) (l : list A) : result (list B) :=
  match l with
  | [] => Ok []
  | x :: l' =>
      match f x with
      | Ok y =>
          match comprehension f l' with
          | Ok ys => Ok (y :: ys)
          | Raise e => Raise e
          end
      | Raise e => Raise e
      end
  end.

(** [sum(l)] *)
Definition sum (l : list Z) : Z := fold_left Z.add l 0.

Definition calculate_average_latency (r : gmap string pyval) : result Z :=
  match comprehension (fun f => int (dict_get r f (PInt 0))) avg_sum_fields with
  | Ok terms => Ok (sum terms)
  | Raise e => Raise e
  end.

(** The loop over the rows of the reader: each row replaces [row] by
    [{**row, **r, "avg latency": avg_latency}]. *)
Fixpoint fold_rows (reader : list (gmap string pyval)) (row : gmap string pyval)
  : result (gmap string pyval) :=
  match reader with
  | [] => Ok row
  | r :: reader' =>
      match calculate_average_latency r with
      | Ok avg_latency => fold_rows reader' (<["avg latency" := PInt avg_latency]> (r ∪ row))
      | Raise e => Raise e
      end
  end.

(** [open(path, "r")] followed by [csv.DictReader]. *)
Definition open_csv (path : string) : M world (list (gmap string pyval)) :=
  fun w => match w_files w !! path with
           | Some rows => (Ok rows, w)
           | None => (Raise FileNotFoundError, w)
           end.

(** [results] is the list the caller holds; the list with the new row
    appended is handed back. *)
Definition update_performance_data (results : list (gmap string pyval))
    (batch_size : Z) (performance_partial_file : string)
  : M world (list (gmap string pyval)) :=
  let row := {[ "batch_size" := PInt batch_size ]} in
  reader <- open_csv performance_partial_file ;;
  row <- lift_result (fold_rows reader row) ;;
  ret (results ++ [row])%list.

(** [list(map(lambda x: int(x.strip()), batch_sizes.split(sep=",")))] *)
Definition _parse_batch_sizes (batch_sizes : string) : result (list Z) :=
  let batches := split_on ","%char batch_sizes in
  comprehension (fun x => int (PStr (strip x))) batches.

(** [os.remove(path)] *)
Definition os_remove (path : string) : M world unit :=
  fun w => match w_files w !! path with
           | Some _ => (Ok tt, {| w_spawned := w_spawned w;
                                  w_stdout := w_stdout w;
                                  w_files := delete path (w_files w);
                                  w_errors := w_errors w;
                                  w_saved := w_saved w;
                                  w_shown := w_shown w |})
           | None => (Raise FileNotFoundError, w)
           end.

Definition LOGGER_error (m : mn_message) : M world unit :=
  modify (fun w => {| w_spawned := w_spawned w;
                      w_stdout := w_stdout w;
                      w_files := w_files w;
                      w_errors := (w_errors w ++ [m])%list;
                      w_saved := w_saved w;
                      w_shown := w_shown w |}).

Definition save_results (filename : string) (data : list (gmap string pyval)) : M world unit :=
  modify (fun w => {| w_spawned := w_spawned w;
                      w_stdout := w_stdout w;
                      w_files := w_files w;
                      w_errors := w_errors w;
                      w_saved := (w_saved w ++ [(filename, data)])%list;
                      w_shown := w_shown w |}).

Definition show_results (results : list (gmap string pyval)) : M world unit :=
  modify (fun w => {| w_spawned := w_spawned w;
                      w_stdout := w_stdout w;
                      w_files := w_files w;
                      w_errors := w_errors w;
                      w_saved := w_saved w;
                      w_shown := (w_shown w ++ [results])%list |}).

(** [if v:] for an optional list of strings *)
Definition nonempty (l : option (list string)) : bool :=
  match l with
  | Some (_ :: _) => true
  | _ => false
  end.

Section Driver.

Variable tool : nat -> list string -> behaviour.
Variable to_cli_string : gmap string pyval -> string.

(** [triton.client.parse_server_url] and [toolkit.report.sort_results] are
    not among the sources.  The first yields protocol, host and port.  The
    two modules import [ModelNavigatorException] from different module paths;
    it is one class here, so that the driver's [except] clause catches what
    [run] raises. *)
Variable parse_server_url : string -> pyval * string * Z.
Variable sort_results : list (gmap string pyval) -> list (gmap string pyval).

(** [perf_analyzer.run()] on a fresh object, inside the driver's world. *)
Definition call_run (perf_analyzer : PerfAnalyzer) : M world unit :=
  fun w =>
    let (r, s) := run tool to_cli_string {| self := perf_analyzer; env := w |} in
    (r, env s).

(** The body of [for batch_size in batch_sizes]. *)
Definition sweep_step (model_name : string) (input_shapes : option (list string))
    (profiling_data : string) (triton_instances : Z)
    (measurement_window : pyval) (shared_memory : bool)
    (protocol : pyval) (host : string) (port : Z)
    (results : list (gmap string pyval)) (batch_size : Z)
  : M world (list (gmap string pyval)) :=
  let performance_partial_file :=
    "triton_performance_partial_" +:+ str_int batch_size +:+ ".csv" in
  let params : list (string * pyval) :=
    ([ ("model-name", PStr model_name);
       ("model-version", PInt 1);
       ("batch-size", PInt batch_size);
       ("max-threads", PInt triton_instances);
       ("concurrency", PInt triton_instances);
       ("threads", PInt triton_instances);
       ("url", PStr (host +:+ ":" +:+ str_int port));
       ("protocol", protocol);
       ("input-data", PStr profiling_data);
       ("measurement-interval", measurement_window);
       ("latency-report-file", PStr performance_partial_file);
       ("verbose", PBool true) ]
     ++ (if nonempty input_shapes
         then [("shapes", PList (default [] input_shapes))] else [])
     ++ (if shared_memory then [("shared-memory", PStr "cuda")] else []))%list in
  let perf_config :=
    fold_left (fun c kv => setitem c (fst kv) (snd kv)) params ∅ in
  (* PerfAnalyzer(perf_config, stream_output=True): no timeout is passed *)
  perf_analyzer <- lift_result (__init__ (Some perf_config) None (Some true)) ;;
  try_except (call_run perf_analyzer)
    (fun e =>
       match e with
       | ModelNavigatorException m =>
           Some (LOGGER_error m ;;; raise (SystemExit 1))
       | _ => None
       end) ;;;
  results <- update_performance_data results batch_size performance_partial_file ;;
  os_remove performance_partial_file ;;;
  ret results.

Fixpoint sweep (step : list (gmap string pyval) -> Z -> M world (list (gmap string pyval)))
    (batch_sizes : list Z) (results : list (gmap string pyval))
  : M world (list (gmap string pyval)) :=
  match batch_sizes with
  | [] => ret results
  | batch_size :: rest =>
      results <- step results batch_size ;;
      sweep step rest results
  end.

Definition offline_performance (model_name : string) (batch_sizes : list Z)
    (result_path : string) (input_shapes : option (list string))
    (profiling_data : string) (triton_instances : Z) (server_url : string)
    (measurement_window : pyval) (shared_memory : bool) : M world unit :=
  let '(protocol, host, port) := parse_server_url server_url in
  results <- sweep (sweep_step model_name input_shapes profiling_data
                      triton_instances measurement_window shared_memory
                      protocol host port)
                   batch_sizes [] ;;
  let results := sort_results results in
  save_results result_path results ;;;
  show_results results.

End Driver.

End OfflinePerformance.
Export OfflinePerformance.

(** ** Vocabulary of the specification

    The notions the statements below are phrased in.  They follow the words of
    the specification, and are compared with the code by the lemmas. *)

Module Spec.

Definition UNSTABLE : string := "Failed to obtain stable measurement".
Definition LARGER_WINDOW : string := "Please use a larger time window".

(** The captured text reports an unstable measurement. *)
Definition reports_instability (text : string) : Prop :=
  contains text UNSTABLE \/ contains text LARGER_WINDOW.

(** The measurement mode is unset or counts requests. *)
Definition count_based (config : gmap string pyval) : bool :=
  is_None (getitem config "measurement-mode")
  || eq_str (getitem config "measurement-mode") "count_windows".

(** The one parameter a retry adapts, and by how much. *)
Definition adapted_key (config : gmap string pyval) : string :=
  if count_based config then "measurement-request-count" else "measurement-interval".

Definition adapted_delta (config : gmap string pyval) : Z :=
  if count_based config then 50 else 2000.

(** The parameter to adapt holds an integer. *)
Definition adaptable (config : gmap string pyval) : Prop :=
  exists n, getitem config (adapted_key config) = PInt n.

(** The configuration of the next attempt. *)
Definition adapt (config : gmap string pyval) : gmap string pyval :=
  match getitem config (adapted_key config) with
  | PInt n => <[adapted_key config := PInt (n + adapted_delta config)]> config
  | _ => config
  end.

(** The code takes the failure with this captured text for a retryable one. *)
Definition classified_retryable (text : string) : Prop :=
  exists r, _faild_with_measruement_inverval (Some text) = Ok r /\ truthy r = true.

(** The attempt ends in a [CalledProcessError]: a non-zero exit status, or, in
    streamed mode where [timeout] watches the tool, an overrun. *)
Definition fails (stream : bool) (b : behaviour) : Prop :=
  match b_ending b with
  | Exited c => c <> 0
  | Overran => stream = true
  end.

Definition succeeds (b : behaviour) : Prop := b_ending b = Exited 0.

(** The exit status [run] sees. *)
Definition exit_status (b : behaviour) : Z :=
  match b_ending b with
  | Exited c => c
  | Overran => TIMEOUT_EXIT
  end.

(** The text an attempt captures: everything the tool wrote in buffered mode,
    its standard output in streamed mode. *)
Definition captured (stream : bool) (b : behaviour) : string :=
  if stream then stdout_text b else combined_text b.

(** The text an attempt hands to the classification: in streamed mode the
    stored output, which already holds [acc], with the attempt's own text
    appended. *)
Definition gathered (stream : bool) (acc : string) (b : behaviour) : string :=
  if stream then acc +:+ stdout_text b else combined_text b.

(** The command line an attempt starts. *)
Definition argv_of (to_cli_string : gmap string pyval -> string) (pa : PerfAnalyzer)
  : list string :=
  if _stream_output pa
  then "timeout" :: str_int (_timeout pa) :: command_of to_cli_string pa
  else command_of to_cli_string pa.

(** The lines streamed mode echoes for a tool's standard output. *)
Definition echo (b : behaviour) : list string :=
  map rstrip (readlines (stdout_text b)).

(** The world after an attempt that started [argv] and saw the tool do [b]. *)
Definition world_after (stream : bool) (argv : list string) (b : behaviour)
    (w : world) : world :=
  if stream then printed (echo b) (started argv (b_writes b) w)
  else started argv (b_writes b) w.

(** The metrics row [r] holds the duration [n] in the field [field], an absent
    field counting as zero. *)
Definition holds (r : gmap string pyval) (field : string) (n : Z) : Prop :=
  match r !! field with
  | Some v => int v = Ok n
  | None => n = 0
  end.

(** The object the loop works on, at configuration [c] and stored output [o]:
    nothing else of it ever changes. *)
Definition at_state (pa : PerfAnalyzer) (c : gmap string pyval) (o : option string)
    (w : world) : ctl :=
  {| self := with_output o (with_config c pa); env := w |}.

(** What a failed attempt leaves stored: streamed mode has appended the
    attempt's text, buffered mode stores nothing. *)
Definition output_after_failure (stream : bool) (o : option string) (acc : string)
    (b : behaviour) : option string :=
  if stream then Some (acc +:+ stdout_text b) else o.

(** The standard-output texts of the processes started between two worlds,
    oldest first. *)
Definition texts_from (tool : nat -> list string -> behaviour) (n : nat)
    (started : list (list string)) : list string :=
  imap (fun i argv => stdout_text (exec tool (n + i) argv)) started.

Definition outputs_since (tool : nat -> list string -> behaviour) (w w' : world)
  : list string :=
  texts_from tool (length (w_spawned w)) (spawned_since w w').

Section Replay.

Variable tool : nat -> list string -> behaviour.
Variable to_cli_string : gmap string pyval -> string.
Variable pa : PerfAnalyzer.

(** The next [m] attempts all fail in the way the code retries: the first of
    them is process number [n], runs with configuration [c] and, in streamed
    mode, adds to the text [acc] gathered so far; each later one runs with
    the configuration adapted once more. *)
Fixpoint all_fail_retryably (m : nat) (c : gmap string pyval) (n : nat)
    (acc : string) : Prop :=
  match m with
  | O => True
  | S m' =>
      let b := exec tool n (argv_of to_cli_string (with_config c pa)) in
      let text := gathered (_stream_output pa) acc b in
      fails (_stream_output pa) b
      /\ classified_retryable text
      /\ adaptable c
      /\ all_fail_retryably m' (adapt c) (S n) text
  end.

End Replay.

(** A decimal digit. *)
Definition is_digit (c : ascii) : bool :=
  match digit_of c with Some _ => true | None => false end.

(** Nothing but white space. *)
Definition blank (s : string) : Prop := all_chars is_space s = true.

(** An argument of a command line that is not empty and holds neither white
    space nor an equals sign. *)
Definition plain_token (t : string) : Prop :=
  t <> ""
  /\ all_chars (fun c => negb (is_space c) && negb (Ascii.eqb c "="%char)) t = true.

(** One batch size as it may stand between two commas: the number written
    by [str], with white space [before] and [after] it. *)
Record padded_number : Type := {
  before : string;
  number : Z;
  after : string
}.

Definition written (x : padded_number) : string :=
  before x +:+ str_int (number x) +:+ after x.

Definition well_padded (x : padded_number) : Prop :=
  blank (before x) /\ blank (after x).

(** Two configurations differ at most in the parameter the measurement mode
    selects. *)
Definition same_but_adapted (c c' : gmap string pyval) : Prop :=
  count_based c' = count_based c
  /\ forall key, key <> adapted_key c -> c' !! key = c !! key.

(** Two objects differ at most in that parameter and in the stored output. *)
Definition same_setup (pa pa' : PerfAnalyzer) : Prop :=
  bin_path pa' = bin_path pa
  /\ _timeout pa' = _timeout pa
  /\ _stream_output pa' = _stream_output pa
  /\ same_but_adapted (_config pa) (_config pa').

(** The value is none of the numbers [+=] can add to. *)
Definition not_a_number (v : pyval) : Prop :=
  match v with
  | PNone | PStr _ | PList _ => True
  | PInt _ | PBool _ => False
  end.

(** The lines streamed mode echoes for the processes started, oldest first. *)
Definition echoes_from (tool : nat -> list string -> behaviour) (n : nat)
    (started : list (list string)) : list string :=
  List.concat (imap (fun i argv => echo (exec tool (n + i) argv)) started).

Section Retries.

Variable tool : nat -> list string -> behaviour.
Variable to_cli_string : gmap string pyval -> string.
Variable pa : PerfAnalyzer.

(** The next [k] attempts fail in the way the code retries and the one after
    them succeeds; the first is process number [n], runs with configuration
    [c] and, in streamed mode, adds to the text [acc] gathered so far. *)
Fixpoint fail_then_succeed (k : nat) (c : gmap string pyval) (n : nat)
    (acc : string) : Prop :=
  let b := exec tool n (argv_of to_cli_string (with_config c pa)) in
  match k with
  | O => succeeds b
  | S k' =>
      let text := gathered (_stream_output pa) acc b in
      fails (_stream_output pa) b
      /\ classified_retryable text
      /\ adaptable c
      /\ fail_then_succeed k' (adapt c) (S n) text
  end.

End Retries.

End Spec.
Import Spec.

(** ** Concrete inputs

    A configuration renderer, tools and objects on which the definitions
    above are run in the examples and instances below. *)

Module Fixtures.

(** One flag of a command line, [--key=value]; a parameter that is unset is
    left out and a true switch is bare. *)
Definition flag (c : gmap string pyval) (key : string) : string :=
  match getitem c key with
  | PInt n => " --" +:+ key +:+ "=" +:+ str_int n
  | PStr v => " --" +:+ key +:+ "=" +:+ v
  | PBool true => " --" +:+ key
  | _ => ""
  end.

Definition cli (c : gmap string pyval) : string :=
  "-m resnet" +:+ flag c "measurement-mode" +:+ flag c "measurement-interval"
  +:+ flag c "measurement-request-count".

(** A tool that does the same thing whenever it is started. *)
Definition always (b : behaviour) : nat -> list string -> behaviour := fun _ _ => b.

(** A tool that follows a script, one entry per process started, and then
    keeps doing [b]. *)
Definition scripted (script : list behaviour) (b : behaviour)
  : nat -> list string -> behaviour :=
  fun n _ => nth n script b.

Definition says (text : string) (e : ending) : behaviour :=
  {| b_lines := [(Stdout, text)]; b_ending := e; b_writes := ∅ |}.

Definition fresh_world : world :=
  {| w_spawned := []; w_stdout := []; w_files := ∅; w_errors := [];
     w_saved := []; w_shown := [] |}.

(** A metrics row as the CSV reader yields it, and as a dictionary of
    numbers. *)
Definition two_fields_csv : gmap string pyval :=
  <[ "Client Send" := PStr "10" ]> {[ "Server Queue" := PStr "5" ]}.

Definition two_fields : gmap string pyval :=
  <[ "Client Send" := PInt 10 ]> {[ "Server Queue" := PInt 5 ]}.

(** A scratch file of two sample rows. *)
Definition sample_rows : list (gmap string pyval) :=
  [ <[ "Client Send" := PStr "12" ]> {[ "Server Queue" := PStr "7" ]};
    two_fields_csv ].

Definition sample_world : world :=
  {| w_spawned := []; w_stdout := [];
     w_files := {[ "triton_performance_partial_4.csv" := sample_rows ]};
     w_errors := []; w_saved := []; w_shown := [] |}.

Definition count_config : gmap string pyval :=
  {[ "measurement-request-count" := PInt 50 ]}.

Definition window_config : gmap string pyval :=
  <[ "measurement-mode" := PStr "time_windows" ]>
    {[ "measurement-interval" := PInt 10000 ]}.

(** [PerfAnalyzer(config, 600, stream_output)] *)
Definition analyzer (config : gmap string pyval) (stream : bool) : PerfAnalyzer :=
  {| bin_path := "perf_analyzer"; _config := config; _output := None;
     _stream_output := stream; _timeout := 600 |}.

Definition fresh (config : gmap string pyval) (stream : bool) : ctl :=
  {| self := analyzer config stream; env := fresh_world |}.

End Fixtures.
Import Fixtures.

(** * Properties *)

(** ** Substring search *)

Module StringFacts.

Lemma append_cons c (s t : string) : String c s +:+ t = String c (s +:+ t).
Proof. reflexivity. Qed.

Lemma append_empty_r (s : string) : s +:+ "" = s.
Proof. induction s as [|c s IH]; [reflexivity|]. now rewrite append_cons, IH. Qed.

Lemma append_assoc (a b c : string) : (a +:+ b) +:+ c = a +:+ b +:+ c.
Proof.
  induction a as [|x a IH]; [reflexivity|].
  now rewrite !append_cons, IH.
Qed.

Lemma startswith_append (sub post : string) : startswith (sub +:+ post) sub = true.
Proof.
  induction sub as [|c sub IH]; [reflexivity|].
  rewrite append_cons. cbn [startswith]. now rewrite Ascii.eqb_refl, IH.
Qed.

Lemma startswith_inv (s sub : string) :
  startswith s sub = true -> exists post, s = sub +:+ post.
Proof.
  revert s. induction sub as [|c sub IH]; intros s H.
  - now exists s.
  - destruct s as [|b s]; cbn [startswith] in H; [discriminate|].
    apply andb_true_iff in H as [Hc Hs].
    apply Ascii.eqb_eq in Hc. subst b.
    destruct (IH _ Hs) as [post ->]. now exists post.
Qed.

Lemma find_from_eq (s sub : string) (i : Z) :
  find_from s sub i =
  if startswith s sub then i
  else match s with
       | EmptyString => -1
       | String _ s' => find_from s' sub (i + 1)
       end.
Proof. destruct s; reflexivity. Qed.

Lemma find_from_lower (s sub : string) (i : Z) :
  find_from s sub i = -1 \/ i <= find_from s sub i.
Proof.
  revert i. induction s as [|c s IH]; intros i; rewrite find_from_eq.
  - destruct (startswith "" sub); [right; lia | now left].
  - destruct (startswith (String c s) sub); [right; lia|].
    destruct (IH (i + 1)) as [->| ?]; [now left | right; lia].
Qed.

Lemma find_from_contains (s sub : string) (i : Z) :
  0 <= i -> contains s sub -> find_from s sub i <> -1.
Proof.
  intros Hi (pre & post & ->). revert i Hi.
  induction pre as [|c pre IH]; intros i Hi; rewrite find_from_eq.
  - change ("" +:+ sub +:+ post) with (sub +:+ post).
    rewrite startswith_append. lia.
  - destruct (startswith _ sub); [lia|].
    rewrite append_cons. apply IH. lia.
Qed.

Lemma find_from_found (s sub : string) (i : Z) :
  find_from s sub i <> -1 -> contains s sub.
Proof.
  revert i. induction s as [|c s IH]; intros i; rewrite find_from_eq.
  - destruct (startswith "" sub) eqn:E; [|congruence].
    intros _. apply startswith_inv in E as [post E]. now exists "", post.
  - destruct (startswith (String c s) sub) eqn:E.
    + intros _. apply startswith_inv in E as [post E]. now exists "", post.
    + intros H. destruct (IH _ H) as (pre & post & ->).
      now exists (String c pre), post.
Qed.

(** [find] answers -1 exactly when there is no occurrence. *)
Lemma find_contains (s sub : string) : find s sub <> -1 <-> contains s sub.
Proof.
  split; [apply find_from_found | apply find_from_contains; lia].
Qed.

(** [find] answers 0 exactly when the string starts with the pattern. *)
Lemma find_zero (s sub : string) : find s sub = 0 <-> startswith s sub = true.
Proof.
  unfold find. rewrite find_from_eq. destruct (startswith s sub); [tauto|].
  split; [|discriminate]. destruct s as [|c s]; [lia|].
  destruct (find_from_lower s sub (0 + 1)); lia.
Qed.

Lemma contains_append_l (acc s sub : string) : contains s sub -> contains (acc +:+ s) sub.
Proof.
  intros (pre & post & ->). exists (acc +:+ pre), post. now rewrite append_assoc.
Qed.

Lemma contains_append_r (s tail sub : string) : contains s sub -> contains (s +:+ tail) sub.
Proof.
  intros (pre & post & ->). exists pre, (post +:+ tail).
  now rewrite !append_assoc.
Qed.

End StringFacts.
Import StringFacts.

Example find_examples :
  find "abc Please" "Please" = 4 /\ find "abc" "x" = -1 /\ find "abc" "" = 0
  /\ find "" "" = 0 /\ find "" "a" = -1.
Proof. repeat split; reflexivity. Qed.

Example split_example :
  split (replace_char "="%char " "%char "-m  x --batch-size=8 ") = ["-m"; "x"; "--batch-size"; "8"].
Proof. reflexivity. Qed.

Example int_examples :
  int (PStr " 12 ") = Ok 12 /\ int (PStr "-7") = Ok (-7) /\ int (PStr "1_0") = Ok 10
  /\ int (PStr "12.5") = Raise ValueError /\ int (PStr "") = Raise ValueError
  /\ int PNone = Raise TypeError /\ str_int 124 = "124" /\ str_int (-5) = "-5".
Proof. repeat split; reflexivity. Qed.

(** [str.strip] removes a file separator (code 28), [int] does not skip it. *)
Example int_keeps_separators :
  int (PStr (String (ascii_of_nat 28) "7")) = Raise ValueError
  /\ int (PStr (strip (String (ascii_of_nat 28) "7"))) = Ok 7
  /\ int (PStr (String (ascii_of_nat 9) "7 ")) = Ok 7.
Proof. repeat split; reflexivity. Qed.

(** ** The controller, one attempt at a time *)

Module ControllerFacts.

Lemma concat_cons (x : string) (l : list string) :
  String.concat "" (x :: l) = x +:+ String.concat "" l.
Proof.
  destruct l as [|y l]; cbn [String.concat].
  - now rewrite append_empty_r.
  - reflexivity.
Qed.

Lemma readlines_go_concat (s cur : string) :
  String.concat "" (readlines_go s cur) = cur +:+ s.
Proof.
  revert cur. induction s as [|c s IH]; intros cur; cbn [readlines_go].
  - destruct cur; [reflexivity|]. cbn [String.concat]. now rewrite append_empty_r.
  - destruct (Ascii.eqb c newline).
    + rewrite concat_cons, IH. rewrite append_assoc. reflexivity.
    + rewrite IH, append_assoc. reflexivity.
Qed.

(** Cutting a text into lines loses nothing. *)
Lemma readlines_concat (s : string) : String.concat "" (readlines s) = s.
Proof. apply readlines_go_concat. Qed.

Lemma readlines_go_nonempty (s cur : string) :
  Forall (fun l => l <> "") (readlines_go s cur).
Proof.
  revert cur. induction s as [|c s IH]; intros cur; cbn [readlines_go].
  - destruct cur; constructor; [discriminate | constructor].
  - destruct (Ascii.eqb c newline); [|apply IH].
    constructor; [|apply IH]. destruct cur; discriminate.
Qed.

Lemma readlines_nonempty (s : string) : Forall (fun l => l <> "") (readlines s).
Proof. apply readlines_go_nonempty. Qed.

Lemma truthy_PStr (s : string) : truthy (PStr s) = true <-> s <> "".
Proof.
  cbn [truthy]. destruct s; cbn; split; congruence.
Qed.

Section Attempt.

Variable tool : nat -> list string -> behaviour.
Variable to_cli_string : gmap string pyval -> string.

Lemma exec_timeout (n : nat) (t : string) (command : list string) :
  exec tool n ("timeout" :: t :: command) =
  {| b_lines := b_lines (tool n command);
     b_ending := Exited (exit_status (tool n command));
     b_writes := b_writes (tool n command) |}.
Proof.
  cbn [exec]. unfold exit_status. now destruct (b_ending (tool n command)).
Qed.

Lemma exec_perf_analyzer (n : nat) (args : list string) :
  exec tool n ("perf_analyzer" :: args) = tool n ("perf_analyzer" :: args).
Proof. destruct args; reflexivity. Qed.

Lemma with_output_same (pa : PerfAnalyzer) : with_output (_output pa) pa = pa.
Proof. now destruct pa. Qed.

Lemma printed_nil (w : world) : printed [] w = w.
Proof. destruct w. unfold printed. cbn. now rewrite app_nil_r. Qed.

Lemma printed_printed (l1 l2 : list string) (w : world) :
  printed l2 (printed l1 w) = printed (l1 ++ l2) w.
Proof. unfold printed. cbn. now rewrite app_assoc. Qed.

(** The read loop of [_run_with_stream] appends every line to the stored
    output and echoes it. *)
Lemma stream_line_eq (l : string) (pa : PerfAnalyzer) (w : world) (acc : string) :
  l <> "" -> _output pa = Some acc ->
  stream_line l {| self := pa; env := w |}
  = (Ok tt, {| self := with_output (Some (acc +:+ l)) pa;
               env := printed [rstrip l] w |}).
Proof.
  intros Hl Hacc. apply truthy_PStr in Hl.
  unfold stream_line. rewrite Hl.
  unfold bind, iadd_output, bind, gets. cbn [self]. rewrite Hacc.
  reflexivity.
Qed.

(** The read loop of [_run_with_stream] appends every line to the stored
    output and echoes it. *)
Lemma stream_loop (lines : list string) :
  Forall (fun l => l <> "") lines ->
  forall (pa : PerfAnalyzer) (w : world) (acc : string),
    _output pa = Some acc ->
    for_each lines stream_line {| self := pa; env := w |}
    = (Ok tt, {| self := with_output (Some (acc +:+ String.concat "" lines)) pa;
                 env := printed (map rstrip lines) w |}).
Proof.
  induction 1 as [|l lines Hl _ IH]; intros pa w acc Hacc.
  - cbn [for_each String.concat map]. unfold ret.
    now rewrite append_empty_r, <- Hacc, with_output_same, printed_nil.
  - cbn [for_each]. unfold bind.
    rewrite (stream_line_eq l pa w acc Hl Hacc).
    rewrite (IH _ _ (acc +:+ l)); [|reflexivity].
    rewrite concat_cons, append_assoc, printed_printed. reflexivity.
Qed.

Lemma run_with_stream_eq (command : list string) (pa : PerfAnalyzer) (w : world)
    (acc : string) :
  _output pa = Some acc ->
  let b := tool (length (w_spawned w)) command in
  let argv := "timeout" :: str_int (_timeout pa) :: command in
  let text := acc +:+ stdout_text b in
  let s' := {| self := with_output (Some text) pa;
               env := printed (echo b) (started argv (b_writes b) w) |} in
  _run_with_stream tool command {| self := pa; env := w |} =
  if (exit_status b =? 0)%Z then (Ok tt, s')
  else (Raise (CalledProcessError (exit_status b) argv (Some text)), s').
Proof.
  intros Hacc b argv text s'.
  unfold _run_with_stream.
  unfold bind at 1. unfold gets at 1. cbn [self].
  unfold bind at 1. unfold in_env at 1. cbn [env].
  unfold Popen. unfold bind at 1. unfold start at 1.
  cbn [app]. rewrite exec_timeout. unfold ret at 1. cbn [b_ending b_writes p_lines p_poll].
  unfold bind at 1. cbn [self env].
  replace (stdout_text _) with (stdout_text b) by reflexivity.
  rewrite (stream_loop _ (readlines_nonempty _) _ _ acc Hacc).
  rewrite readlines_concat. fold b. fold text. fold (echo b). fold argv. fold s'.
  destruct (exit_status b =? 0)%Z; [reflexivity|].
  reflexivity.
Qed.

(** A pass of the loop in streamed mode. *)
Lemma attempt_stream (pa : PerfAnalyzer) (w : world) (acc : string) :
  _stream_output pa = true -> _output pa = Some acc ->
  let b := tool (length (w_spawned w)) (command_of to_cli_string pa) in
  let argv := argv_of to_cli_string pa in
  let text := acc +:+ stdout_text b in
  let s' := {| self := with_output (Some text) pa;
               env := printed (echo b) (started argv (b_writes b) w) |} in
  attempt tool to_cli_string {| self := pa; env := w |} =
  if (exit_status b =? 0)%Z then (Ok Return, s')
  else except_CalledProcessError (exit_status b) argv (Some text) s'.
Proof.
  intros Hs Hacc b argv text s'. subst b argv text s'.
  unfold attempt. unfold bind at 1. unfold gets at 1. cbn [self].
  unfold try_except. rewrite Hs. unfold bind at 1.
  rewrite (run_with_stream_eq _ _ _ _ Hacc).
  unfold argv_of. rewrite Hs.
  destruct (exit_status _ =? 0)%Z; reflexivity.
Qed.

(** A pass of the loop in buffered mode. *)
Lemma attempt_buffered (pa : PerfAnalyzer) (w : world) :
  _stream_output pa = false ->
  let argv := argv_of to_cli_string pa in
  let b := exec tool (length (w_spawned w)) argv in
  let w' := started argv (b_writes b) w in
  attempt tool to_cli_string {| self := pa; env := w |} =
  match b_ending b with
  | Exited c =>
      if (c =? 0)%Z
      then (Ok Return, {| self := with_output (Some (combined_text b)) pa; env := w' |})
      else except_CalledProcessError c argv (Some (combined_text b))
             {| self := pa; env := w' |}
  | Overran => (Raise (TimeoutExpired argv (_timeout pa)), {| self := pa; env := w' |})
  end.
Proof.
  intros Hs argv b w'. subst argv b w'.
  unfold attempt. unfold bind at 1. unfold gets at 1. cbn [self].
  unfold try_except. rewrite Hs. unfold bind at 1. unfold bind at 1.
  unfold in_env at 1. cbn [env]. unfold check_output. unfold bind at 1.
  unfold start at 1.
  unfold argv_of. rewrite Hs.
  destruct (b_ending _) as [c|]; [|reflexivity].
  destruct c; reflexivity.
Qed.

End Attempt.

(** *** The [except] clause *)

Lemma iadd_config_int (key : string) (delta n : Z) (pa : PerfAnalyzer) (w : world) :
  getitem (_config pa) key = PInt n ->
  iadd_config key delta {| self := pa; env := w |} =
  (Ok tt, {| self := with_config (<[key := PInt (n + delta)]> (_config pa)) pa; env := w |}).
Proof.
  intros H. unfold iadd_config, bind, gets. cbn [self]. rewrite H. reflexivity.
Qed.

(** A failure the code takes for retryable adapts exactly the parameter the
    measurement mode selects and goes on to the next pass. *)
Lemma except_retry (rc : Z) (cmd : list string) (text : string)
    (pa : PerfAnalyzer) (w : world) :
  classified_retryable text -> adaptable (_config pa) ->
  except_CalledProcessError rc cmd (Some text) {| self := pa; env := w |} =
  (Ok Continue, {| self := with_config (adapt (_config pa)) pa; env := w |}).
Proof.
  intros (r & Hr & Ht) (n & Hn).
  unfold except_CalledProcessError. unfold bind at 1. unfold lift_result.
  rewrite Hr, Ht. unfold bind at 1. unfold gets at 1. cbn [self].
  unfold adapt. rewrite Hn.
  unfold adapted_key, adapted_delta, count_based in *.
  unfold bind at 1.
  destruct (is_None _ || eq_str _ _).
  - unfold _increase_request_count. now rewrite (iadd_config_int _ _ n).
  - unfold _increase_time_interval. now rewrite (iadd_config_int _ _ n).
Qed.

(** A failure the code does not take for retryable ends [run] at once and
    leaves object and world as they are. *)
Lemma except_fatal (rc : Z) (cmd : list string) (text : string) (s : ctl) :
  ~ classified_retryable text ->
  except_CalledProcessError rc cmd (Some text) s =
  (Raise (ModelNavigatorException (ProcessFailed cmd rc (Some text))), s).
Proof.
  intros Hn. unfold except_CalledProcessError, bind, lift_result.
  cbn [_faild_with_measruement_inverval].
  destruct (truthy _) eqn:E; [|reflexivity].
  exfalso. apply Hn. eexists. split; [reflexivity | exact E].
Qed.

(** Whatever the clause does, it starts no process, prints nothing and
    leaves the stored output alone. *)
Lemma except_env (rc : Z) (cmd : list string) (o : option string) (s : ctl) :
  env (snd (except_CalledProcessError rc cmd o s)) = env s
  /\ _output (self (snd (except_CalledProcessError rc cmd o s))) = _output (self s)
  /\ _stream_output (self (snd (except_CalledProcessError rc cmd o s))) = _stream_output (self s).
Proof.
  unfold except_CalledProcessError, bind, lift_result.
  destruct (_faild_with_measruement_inverval o) as [r|e]; [|now cbn].
  destruct (truthy r); [|now cbn].
  unfold gets. cbn [self].
  destruct (is_None _ || eq_str _ _);
    unfold _increase_request_count, _increase_time_interval, iadd_config, bind, gets,
      lift_result; cbn [self];
    destruct (add_int _ _); now cbn.
Qed.

(** *** The classification of a failure *)

(** What [_faild_with_measruement_inverval] answers, as a truth value: the
    first [find] is tested for being non-zero, not for being found. *)
Lemma classifier_truth (text : string) :
  exists r, _faild_with_measruement_inverval (Some text) = Ok r
       /\ truthy r = negb (startswith text UNSTABLE)
                     || negb (find text LARGER_WINDOW =? -1)%Z.
Proof.
  eexists. split; [reflexivity|].
  unfold py_or. fold UNSTABLE LARGER_WINDOW.
  destruct (startswith text UNSTABLE) eqn:E.
  - apply find_zero in E. rewrite E. reflexivity.
  - cbn [truthy]. destruct (find text UNSTABLE =? 0)%Z eqn:E0.
    + apply Z.eqb_eq, find_zero in E0. congruence.
    + cbn [negb truthy orb]. now rewrite E0.
Qed.

Lemma classified_retryable_iff (text : string) :
  classified_retryable text <->
  startswith text UNSTABLE = false \/ contains text LARGER_WINDOW.
Proof.
  destruct (classifier_truth text) as (r & Hr & Ht).
  unfold classified_retryable. split.
  - intros (r' & Hr' & Ht'). rewrite Hr in Hr'. injection Hr' as <-.
    rewrite Ht in Ht'. apply orb_true_iff in Ht' as [H|H].
    + left. now apply negb_true_iff.
    + right. apply find_contains. apply negb_true_iff, Z.eqb_neq in H. exact H.
  - intros H. exists r. split; [exact Hr|]. rewrite Ht. apply orb_true_iff.
    destruct H as [H|H].
    + left. now rewrite H.
    + right. apply negb_true_iff, Z.eqb_neq. now apply find_contains.
Qed.

Lemma larger_window_retryable (text : string) :
  contains text LARGER_WINDOW -> classified_retryable text.
Proof. intros H. apply classified_retryable_iff. now right. Qed.

End ControllerFacts.


Import ControllerFacts.

(** ** The retry loop *)

Module LoopFacts.

Section Loop.

Variable tool : nat -> list string -> behaviour.
Variable to_cli_string : gmap string pyval -> string.

Local Abbreviation attempt := (attempt tool to_cli_string).
Local Abbreviation run_loop := (run_loop tool to_cli_string).
Local Abbreviation run := (run tool to_cli_string).
Local Abbreviation argv_of := (argv_of to_cli_string).

(** A pass of the loop in streamed mode, in terms of the process started. *)
Lemma attempt_stream_exec (pa : PerfAnalyzer) (w : world) (acc : string) :
  _stream_output pa = true -> _output pa = Some acc ->
  let b := exec tool (length (w_spawned w)) (argv_of pa) in
  let text := acc +:+ stdout_text b in
  let s' := {| self := with_output (Some text) pa;
               env := printed (echo b) (started (argv_of pa) (b_writes b) w) |} in
  attempt {| self := pa; env := w |} =
  if (exit_status b =? 0)%Z then (Ok Return, s')
  else except_CalledProcessError (exit_status b) (argv_of pa) (Some text) s'.
Proof.
  intros Hs Hacc. rewrite (attempt_stream _ _ _ _ acc Hs Hacc).
  unfold Spec.argv_of. rewrite Hs. rewrite exec_timeout. reflexivity.
Qed.

Lemma with_config_same (pa : PerfAnalyzer) : with_config (_config pa) pa = pa.
Proof. now destruct pa. Qed.

(** Every pass of the loop starts exactly one process, the command line of
    the current configuration. *)
Lemma attempt_spawns (pa : PerfAnalyzer) (w : world) :
  (_stream_output pa = true -> is_Some (_output pa)) ->
  let s' := snd (attempt {| self := pa; env := w |}) in
  w_spawned (env s') = (w_spawned w ++ [argv_of pa])%list
  /\ _stream_output (self s') = _stream_output pa
  /\ (_stream_output pa = true -> is_Some (_output (self s'))).
Proof.
  intros Hready. destruct (_stream_output pa) eqn:Hs.
  - destruct (Hready eq_refl) as [acc Hacc].
    cbv zeta. rewrite (attempt_stream_exec _ _ acc Hs Hacc).
    destruct (exit_status _ =? 0)%Z.
    + cbn. rewrite Hs. eauto.
    + match goal with |- context [except_CalledProcessError ?rc ?cmd ?o ?s] =>
        destruct (except_env rc cmd o s) as (-> & -> & ->) end.
      cbn. rewrite Hs. eauto.
  - cbv zeta. rewrite (attempt_buffered _ _ _ _ Hs).
    destruct (b_ending _) as [c|].
    + destruct (c =? 0)%Z.
      * cbn. rewrite Hs. repeat split; congruence.
      * match goal with |- context [except_CalledProcessError ?rc ?cmd ?o ?s] =>
          destruct (except_env rc cmd o s) as (-> & -> & ->) end.
        cbn. rewrite Hs. repeat split; congruence.
    + cbn. rewrite Hs. repeat split; congruence.
Qed.

(** [m] passes of the loop start at most [m] processes. *)
Lemma run_loop_spawns (m : nat) (s : ctl) :
  (_stream_output (self s) = true -> is_Some (_output (self s))) ->
  exists new, w_spawned (env (snd (run_loop m s))) = (w_spawned (env s) ++ new)%list
         /\ (length new <= m)%nat.
Proof.
  revert s. induction m as [|m IH]; intros [pa w] Hready.
  - exists []. cbn. now rewrite app_nil_r.
  - cbn [PerfAnalyzerPy.run_loop]. unfold bind.
    destruct (attempt_spawns pa w Hready) as (Hsp & Hst & Hout).
    cbn [self env] in *.
    destruct (attempt {| self := pa; env := w |}) as [[[|]|e] s'] eqn:E;
      cbn [snd] in *.
    + exists [argv_of pa]. cbn. split; [exact Hsp | lia].
    + destruct (IH s') as (new & Hnew & Hlen).
      { rewrite Hst. exact Hout. }
      exists (argv_of pa :: new). rewrite Hnew, Hsp, <- app_assoc. cbn.
      split; [reflexivity | lia].
    + exists [argv_of pa]. cbn. split; [exact Hsp | lia].
Qed.

(** [run] is the loop, entered with the stored output reset in streamed
    mode. *)
Lemma run_eq (pa : PerfAnalyzer) (w : world) :
  run {| self := pa; env := w |} =
  run_loop (Z.to_nat MAX_INTERVAL_CHANGES)
    {| self := if _stream_output pa then with_output (Some "") pa else pa; env := w |}.
Proof.
  unfold PerfAnalyzerPy.run, bind, gets. cbn [self].
  destruct (_stream_output pa); reflexivity.
Qed.

Lemma run_spawns (s : ctl) :
  exists new, w_spawned (env (snd (run s))) = (w_spawned (env s) ++ new)%list
         /\ (length new <= 10)%nat.
Proof.
  destruct s as [pa w]. rewrite run_eq.
  change (Z.to_nat MAX_INTERVAL_CHANGES) with 10%nat.
  apply (run_loop_spawns 10
           {| self := if _stream_output pa then with_output (Some "") pa else pa;
              env := w |}).
  cbn [self]. destruct (_stream_output pa) eqn:E; cbn; [eauto | congruence].
Qed.

Lemma fails_exit_status (stream : bool) (b : behaviour) :
  fails stream b -> stream = true -> exit_status b <> 0.
Proof.
  unfold fails, exit_status. destruct (b_ending b); [tauto|].
  intros _ _. discriminate.
Qed.

Lemma spawned_after_attempt (argv : list string) (lines : list string)
    (files : gmap string (list (gmap string pyval))) (w : world) :
  length (w_spawned (printed lines (started argv files w))) = S (length (w_spawned w))
  /\ length (w_spawned (started argv files w)) = S (length (w_spawned w)).
Proof. cbn. rewrite length_app. cbn. lia. Qed.

(** When the next [m] attempts all fail retryably, [m] passes of the loop
    start [m] processes and end in the statement after the loop. *)
Lemma run_loop_exhausts (pa : PerfAnalyzer) (m : nat) :
  forall (c : gmap string pyval) (o : option string) (w : world) (acc : string),
    (_stream_output pa = true -> o = Some acc) ->
    all_fail_retryably tool to_cli_string pa m c (length (w_spawned w)) acc ->
    exists s',
      run_loop m {| self := with_output o (with_config c pa); env := w |}
      = (Raise (ModelNavigatorException (NoValidRequests MAX_INTERVAL_CHANGES)), s')
      /\ length (w_spawned (env s')) = (length (w_spawned w) + m)%nat.
Proof.
  induction m as [|m IH]; intros c o w acc Ho Hall.
  - eexists. split; [reflexivity|]. cbn. lia.
  - cbn [all_fail_retryably] in Hall. unfold gathered in Hall.
    destruct Hall as (Hfail & Hcls & Hadapt & Hrest).
    cbn [PerfAnalyzerPy.run_loop]. unfold bind.
    set (b := exec tool (length (w_spawned w)) (argv_of (with_config c pa))) in *.
    destruct (_stream_output pa) eqn:Hs.
    + rewrite (Ho eq_refl).
      rewrite (attempt_stream_exec (with_output (Some acc) (with_config c pa)) w acc Hs eq_refl).
      change (argv_of (with_output (Some acc) (with_config c pa)))
        with (argv_of (with_config c pa)).
      fold b.
      apply fails_exit_status in Hfail; [|reflexivity].
      apply Z.eqb_neq in Hfail. rewrite Hfail.
      rewrite (except_retry _ _ _
                 (with_output (Some (acc +:+ stdout_text b)) (with_config c pa))
                 _ Hcls Hadapt).
      destruct (IH (adapt c) (Some (acc +:+ stdout_text b))
                 (printed (echo b) (started (argv_of (with_config c pa)) (b_writes b) w))
                 (acc +:+ stdout_text b))
        as (s' & Hrun & Hlen).
      { reflexivity. }
      { rewrite (proj1 (spawned_after_attempt _ _ _ _)). exact Hrest. }
      exists s'. split; [exact Hrun|].
      rewrite Hlen, (proj1 (spawned_after_attempt _ _ _ _)). lia.
    + rewrite (attempt_buffered tool to_cli_string (with_output o (with_config c pa)) w Hs).
      change (Spec.argv_of to_cli_string (with_output o (with_config c pa)))
        with (argv_of (with_config c pa)).
      fold b.
      unfold fails in Hfail.
      destruct (b_ending b) as [code|]; [|discriminate].
      apply Z.eqb_neq in Hfail. rewrite Hfail.
      rewrite (except_retry _ _ _ (with_output o (with_config c pa)) _ Hcls Hadapt).
      destruct (IH (adapt c) o
                 (started (argv_of (with_config c pa)) (b_writes b) w)
                 (combined_text b))
        as (s' & Hrun & Hlen).
      { intros [=]. }
      { rewrite (proj2 (spawned_after_attempt _ [] _ _)). exact Hrest. }
      exists s'. split; [exact Hrun|].
      rewrite Hlen, (proj2 (spawned_after_attempt _ [] _ _)). lia.
Qed.

End Loop.

End LoopFacts.

Import LoopFacts.

(** ** The retry ceiling *)

(** C3.  A call of [run] starts at most ten processes, whatever the tool does
    and whatever the configuration holds.  When all ten attempts fail in the
    way the code retries (each time with an integer in the parameter that is
    adapted), the call starts exactly ten processes and ends in the exception
    of the statement after the loop, "Ran perf_analyzer 10 times, but no valid
    requests recorded", which is not the exception of a failed process. *)
Theorem run_attempts_at_most_ten
    (tool : nat -> list string -> behaviour)
    (to_cli_string : gmap string pyval -> string) (s : ctl) :
  let out := run tool to_cli_string s in
  (exists new,
      w_spawned (env (snd out)) = (w_spawned (env s) ++ new)%list
      /\ (length new <= 10)%nat)
  /\ (all_fail_retryably tool to_cli_string (self s) 10 (_config (self s))
        (length (w_spawned (env s))) "" ->
      fst out = Raise (ModelNavigatorException (NoValidRequests 10))
      /\ length (spawned_since (env s) (env (snd out))) = 10%nat).
Proof.
  cbv zeta. split; [apply run_spawns|].
  intros Hall. destruct s as [pa w]. cbn [self env] in *.
  destruct (run_spawns tool to_cli_string {| self := pa; env := w |})
    as (new & Hnew & _).
  unfold spawned_since. rewrite Hnew. cbn [env].
  rewrite drop_app_length.
  assert (Hlen : length (w_spawned (env (snd (run tool to_cli_string
                   {| self := pa; env := w |})))) = (length (w_spawned w) + 10)%nat
                 /\ fst (run tool to_cli_string {| self := pa; env := w |})
                    = Raise (ModelNavigatorException (NoValidRequests 10))).
  { rewrite run_eq. change (Z.to_nat MAX_INTERVAL_CHANGES) with 10%nat.
    destruct (run_loop_exhausts tool to_cli_string pa 10 (_config pa)
                (if _stream_output pa then Some "" else _output pa) w ""
                ltac:(intros ->; reflexivity) Hall) as (s' & Hrun & Hlen).
    replace (if _stream_output pa then with_output (Some "") pa else pa)
      with (with_output (if _stream_output pa then Some "" else _output pa)
              (with_config (_config pa) pa)).
    - rewrite Hrun. cbn [fst snd]. split; [exact Hlen | reflexivity].
    - destruct pa as [bp cf ou [|] tm]; reflexivity. }
  destruct Hlen as [Hlen Hres]. split; [exact Hres|].
  rewrite Hnew in Hlen. cbn [env] in Hlen. rewrite length_app in Hlen. lia.
Qed.

(** Ten failures that ask for a larger time window, in buffered mode. *)
Lemma run_attempts_at_most_ten_witness :
  let s := fresh window_config false in
  let tool := always (says "Please use a larger time window" (Exited 1)) in
  fst (run tool cli s) = Raise (ModelNavigatorException (NoValidRequests 10))
  /\ length (spawned_since (env s) (env (snd (run tool cli s)))) = 10%nat.
Proof.
  cbv zeta.
  apply (proj2 (run_attempts_at_most_ten
                  (always (says "Please use a larger time window" (Exited 1))) cli
                  (fresh window_config false))).
  cbn [all_fail_retryably].
  repeat (split; [vm_compute; discriminate|];
          split; [eexists; split; vm_compute; reflexivity|];
          split; [eexists; vm_compute; reflexivity|]).
  exact I.
Defined.

(** ** One pass of the loop, in terms of what the tool does *)

Module StepFacts.

Section Step.

Variable tool : nat -> list string -> behaviour.
Variable to_cli_string : gmap string pyval -> string.
Variable pa : PerfAnalyzer.
Hypothesis bin_path_init : bin_path pa = "perf_analyzer".

Local Abbreviation run_loop := (run_loop tool to_cli_string).
Local Abbreviation argv_of := (argv_of to_cli_string).
Local Abbreviation command_of := (command_of to_cli_string).
Local Abbreviation stream := (_stream_output pa).

Local Abbreviation at_state := (at_state pa).
Local Abbreviation output_after_failure := (output_after_failure stream).

Lemma exec_buffered (n : nat) (c : gmap string pyval) :
  stream = false ->
  exec tool n (argv_of (with_config c pa)) = tool n (command_of (with_config c pa)).
Proof.
  intros Hs. unfold Spec.argv_of, PerfAnalyzerPy.command_of.
  cbn [_stream_output with_config bin_path _config]. rewrite Hs, bin_path_init.
  apply exec_perf_analyzer.
Qed.

(** The tool succeeds: [run] returns, with the captured text stored. *)
Lemma step_success (m : nat) (c : gmap string pyval) (o : option string)
    (w : world) (acc : string) :
  (stream = true -> o = Some acc) ->
  let b := tool (length (w_spawned w)) (command_of (with_config c pa)) in
  succeeds b ->
  run_loop (S m) (at_state c o w) =
  (Ok tt, at_state c (Some (gathered stream acc b))
            (world_after stream (argv_of (with_config c pa)) b w)).
Proof.
  intros Ho b Hb. unfold Spec.at_state, gathered, world_after.
  cbn [PerfAnalyzerPy.run_loop]. unfold bind.
  destruct stream eqn:Hs.
  - rewrite (Ho eq_refl).
    rewrite (attempt_stream tool to_cli_string
               (with_output (Some acc) (with_config c pa)) w acc Hs eq_refl).
    change (PerfAnalyzerPy.command_of to_cli_string
              (with_output (Some acc) (with_config c pa)))
      with (command_of (with_config c pa)).
    fold b. unfold exit_status. rewrite Hb. reflexivity.
  - rewrite (attempt_buffered tool to_cli_string (with_output o (with_config c pa)) w Hs).
    change (Spec.argv_of to_cli_string (with_output o (with_config c pa)))
      with (argv_of (with_config c pa)).
    rewrite (exec_buffered _ _ Hs). fold b. rewrite Hb. reflexivity.
Qed.

(** The tool fails: the [except] clause takes over, on the same
    configuration. *)
Lemma step_failure (m : nat) (c : gmap string pyval) (o : option string)
    (w : world) (acc : string) :
  (stream = true -> o = Some acc) ->
  let b := tool (length (w_spawned w)) (command_of (with_config c pa)) in
  fails stream b ->
  run_loop (S m) (at_state c o w) =
  let '(r, s') :=
    except_CalledProcessError (exit_status b) (argv_of (with_config c pa))
      (Some (gathered stream acc b))
      (at_state c (output_after_failure o acc b)
         (world_after stream (argv_of (with_config c pa)) b w)) in
  match r with
  | Ok Return => (Ok tt, s')
  | Ok Continue => run_loop m s'
  | Raise e => (Raise e, s')
  end.
Proof.
  intros Ho b Hb. unfold Spec.at_state, gathered, world_after, Spec.output_after_failure.
  cbn [PerfAnalyzerPy.run_loop]. unfold bind.
  destruct stream eqn:Hs.
  - rewrite (Ho eq_refl).
    rewrite (attempt_stream tool to_cli_string
               (with_output (Some acc) (with_config c pa)) w acc Hs eq_refl).
    change (PerfAnalyzerPy.command_of to_cli_string
              (with_output (Some acc) (with_config c pa)))
      with (command_of (with_config c pa)).
    fold b.
    apply fails_exit_status in Hb; [|reflexivity].
    apply Z.eqb_neq in Hb. rewrite Hb.
    set (r := except_CalledProcessError _ _ _ _) at 1.
    change (except_CalledProcessError _ _ _ _) with r.
    now destruct r as [[[|]|e] s'].
  - rewrite (attempt_buffered tool to_cli_string (with_output o (with_config c pa)) w Hs).
    change (Spec.argv_of to_cli_string (with_output o (with_config c pa)))
      with (argv_of (with_config c pa)).
    rewrite (exec_buffered _ _ Hs). fold b.
    unfold fails in Hb. unfold exit_status.
    destruct (b_ending b) as [code|]; [|discriminate].
    apply Z.eqb_neq in Hb. rewrite Hb.
    set (r := except_CalledProcessError _ _ _ _) at 1.
    change (except_CalledProcessError _ _ _ _) with r.
    now destruct r as [[[|]|e] s'].
Qed.

(** A failure the code takes for retryable: the next pass runs on the
    adapted configuration. *)
Lemma step_retry (m : nat) (c : gmap string pyval) (o : option string)
    (w : world) (acc : string) :
  (stream = true -> o = Some acc) ->
  let b := tool (length (w_spawned w)) (command_of (with_config c pa)) in
  fails stream b ->
  classified_retryable (gathered stream acc b) ->
  adaptable c ->
  run_loop (S m) (at_state c o w) =
  run_loop m (at_state (adapt c) (output_after_failure o acc b)
                (world_after stream (argv_of (with_config c pa)) b w)).
Proof.
  intros Ho b Hb Hcls Hadapt.
  rewrite (step_failure m c o w acc Ho Hb). fold b.
  unfold Spec.at_state.
  rewrite (except_retry _ _ _
             (with_output (output_after_failure o acc b) (with_config c pa))
             _ Hcls Hadapt).
  reflexivity.
Qed.

(** A failure the code does not take for retryable ends the call. *)
Lemma step_fatal (m : nat) (c : gmap string pyval) (o : option string)
    (w : world) (acc : string) :
  (stream = true -> o = Some acc) ->
  let b := tool (length (w_spawned w)) (command_of (with_config c pa)) in
  fails stream b ->
  ~ classified_retryable (gathered stream acc b) ->
  run_loop (S m) (at_state c o w) =
  (Raise (ModelNavigatorException
            (ProcessFailed (argv_of (with_config c pa)) (exit_status b)
               (Some (gathered stream acc b)))),
   at_state c (output_after_failure o acc b)
     (world_after stream (argv_of (with_config c pa)) b w)).
Proof.
  intros Ho b Hb Hcls.
  rewrite (step_failure m c o w acc Ho Hb). fold b.
  now rewrite (except_fatal _ _ _ _ Hcls).
Qed.

(** In buffered mode an overrun ends the call with [TimeoutExpired]. *)
Lemma step_timeout (m : nat) (c : gmap string pyval) (o : option string) (w : world) :
  stream = false ->
  b_ending (tool (length (w_spawned w)) (command_of (with_config c pa))) = Overran ->
  run_loop (S m) (at_state c o w) =
  (Raise (TimeoutExpired (command_of (with_config c pa)) (_timeout pa)),
   at_state c o
     (started (command_of (with_config c pa))
        (b_writes (tool (length (w_spawned w)) (command_of (with_config c pa)))) w)).
Proof.
  intros Hs Hb. unfold Spec.at_state.
  cbn [PerfAnalyzerPy.run_loop]. unfold bind.
  rewrite (attempt_buffered tool to_cli_string (with_output o (with_config c pa)) w Hs).
  change (Spec.argv_of to_cli_string (with_output o (with_config c pa)))
    with (argv_of (with_config c pa)).
  rewrite (exec_buffered _ _ Hs), Hb.
  unfold Spec.argv_of. cbn [_stream_output with_config]. rewrite Hs.
  reflexivity.
Qed.

(** [run] enters the loop at the object's configuration. *)
Lemma run_at_state (w : world) :
  run tool to_cli_string {| self := pa; env := w |} =
  run_loop 10 (at_state (_config pa) (if stream then Some "" else _output pa) w).
Proof.
  rewrite run_eq. change (Z.to_nat MAX_INTERVAL_CHANGES) with 10%nat.
  unfold Spec.at_state. f_equal. f_equal.
  destruct pa as [bp cf ou [|] tm]; reflexivity.
Qed.

End Step.

End StepFacts.
Import StepFacts.

(** ** Which failures are retried *)

Lemma spawned_world_after (stream : bool) (argv : list string) (b : behaviour) (w : world) :
  w_spawned (world_after stream argv b w) = (w_spawned w ++ [argv])%list.
Proof. now destruct stream. Qed.

Lemma getitem_insert (c : gmap string pyval) (k : string) (v : pyval) :
  getitem (<[k := v]> c) k = v.
Proof. unfold getitem. now rewrite lookup_insert_eq. Qed.

Lemma getitem_insert_ne (c : gmap string pyval) (k k' : string) (v : pyval) :
  k <> k' -> getitem (<[k := v]> c) k' = getitem c k'.
Proof. intros H. unfold getitem. now rewrite lookup_insert_ne. Qed.

(** Under a time-window mode a retry widens the window by 2000 ms and leaves
    the mode alone. *)
Lemma adapt_window (c : gmap string pyval) (i : Z) :
  count_based c = false ->
  getitem c "measurement-interval" = PInt i ->
  adapt c = <["measurement-interval" := PInt (i + 2000)]> c
  /\ count_based (adapt c) = false
  /\ adaptable c.
Proof.
  intros Hmode Hi.
  assert (Hkey : adapted_key c = "measurement-interval")
    by (unfold adapted_key; now rewrite Hmode).
  assert (Heq : adapt c = <["measurement-interval" := PInt (i + 2000)]> c).
  { unfold adapt, adapted_delta. now rewrite Hkey, Hi, Hmode. }
  split; [exact Heq|]. split.
  - rewrite Heq. unfold count_based in *.
    now rewrite getitem_insert_ne by discriminate.
  - exists i. now rewrite Hkey.
Qed.

(** Under a count-based or unset mode a retry asks for 50 more requests. *)
Lemma adapt_count (c : gmap string pyval) (n : Z) :
  count_based c = true ->
  getitem c "measurement-request-count" = PInt n ->
  adapt c = <["measurement-request-count" := PInt (n + 50)]> c /\ adaptable c.
Proof.
  intros Hmode Hn.
  assert (Hkey : adapted_key c = "measurement-request-count")
    by (unfold adapted_key; now rewrite Hmode).
  split.
  - unfold adapt, adapted_delta. now rewrite Hkey, Hn, Hmode.
  - exists n. now rewrite Hkey.
Qed.

(** A text that starts with the first message and lacks the second one is not
    taken for retryable: [find] answers 0 for it, which [or] reads as false. *)
Lemma unstable_prefix_not_retryable (text : string) :
  startswith text UNSTABLE = true -> ~ contains text LARGER_WINDOW ->
  ~ classified_retryable text.
Proof.
  intros Hp Hn H. apply classified_retryable_iff in H as [H|H]; [congruence | tauto].
Qed.

(** A text without the first message is taken for retryable whatever it says:
    [find] answers -1 for it, which [or] reads as true. *)
Lemma no_unstable_is_retryable (text : string) :
  ~ contains text UNSTABLE -> classified_retryable text.
Proof.
  intros Hn. apply classified_retryable_iff. left.
  destruct (startswith text UNSTABLE) eqn:E; [|reflexivity].
  exfalso. apply Hn. apply startswith_inv in E as [post ->]. now exists "", post.
Qed.

(** C1 (the code departs from it).  The tool exits with status 1 and writes
    "Failed to obtain stable measurement.", a text that contains the first of
    the two messages.  [run] does not retry: the one process it started is the
    only one, the configuration is untouched (the request count stays 50) and
    the call ends in the exception of a failed process. *)
Theorem unstable_message_at_start_is_fatal :
  let text := "Failed to obtain stable measurement." in
  let tool := always (says text (Exited 1)) in
  let command :=
    ["perf_analyzer"; "-m"; "resnet"; "--measurement-request-count"; "50"] in
  let out := run tool cli (fresh count_config false) in
  reports_instability text
  /\ getitem count_config "measurement-mode" = PNone
  /\ fst out = Raise (ModelNavigatorException (ProcessFailed command 1 (Some text)))
  /\ w_spawned (env (snd out)) = [command]
  /\ getitem (_config (self (snd out))) "measurement-request-count" = PInt 50.
Proof.
  cbv zeta. split.
  - left. exists "", ".". reflexivity.
  - repeat split; vm_compute; reflexivity.
Qed.

(** C2 (the code departs from it).  The tool exits with status 1 and writes
    "connection refused", which contains neither message.  [run] does not stop:
    it takes the failure for retryable, raises the request count by 50 and
    starts the tool again, ten times in all, and ends in the exception of the
    statement after the loop with the count at 550. *)
Theorem other_failure_is_retried :
  let text := "connection refused" in
  let tool := always (says text (Exited 1)) in
  let out := run tool cli (fresh count_config false) in
  ~ reports_instability text
  /\ fst out = Raise (ModelNavigatorException (NoValidRequests 10))
  /\ length (w_spawned (env (snd out))) = 10%nat
  /\ nth 1 (w_spawned (env (snd out))) [] =
       ["perf_analyzer"; "-m"; "resnet"; "--measurement-request-count"; "100"]
  /\ getitem (_config (self (snd out))) "measurement-request-count" = PInt 550.
Proof.
  cbv zeta. split.
  - intros [H|H]; apply find_contains in H; apply H; reflexivity.
  - repeat split; vm_compute; reflexivity.
Qed.

(** ** Timeouts *)

(** C4, as the code has it.  At any pass of the loop (any configuration [c],
    stored output [o] and world [w], with at least one pass left), let the
    tool overrun the time it is allowed.

    - In buffered mode [check_output] raises [TimeoutExpired], which no
      [except] clause of [run] catches: the call ends at once, with the
      configuration as it was and no further process started.
    - In streamed mode the tool runs under [timeout], the overrun arrives as
      exit status 124 and the [except] clause treats it as it treats any
      non-zero status: when the gathered output is taken for retryable the
      parameter is adapted and the next pass runs, otherwise the call ends in
      the exception of a failed process with status 124. *)
Theorem timeout_by_capture_mode
    (tool : nat -> list string -> behaviour)
    (to_cli_string : gmap string pyval -> string)
    (pa : PerfAnalyzer) (m : nat) (c : gmap string pyval) (o : option string)
    (w : world) (acc : string) :
  bin_path pa = "perf_analyzer" ->
  (_stream_output pa = true -> o = Some acc) ->
  let command := command_of to_cli_string (with_config c pa) in
  let argv := argv_of to_cli_string (with_config c pa) in
  let b := tool (length (w_spawned w)) command in
  b_ending b = Overran ->
  if _stream_output pa then
    let text := acc +:+ stdout_text b in
    let w' := world_after true argv b w in
    (classified_retryable text -> adaptable c ->
     run_loop tool to_cli_string (S m) (at_state pa c o w) =
     run_loop tool to_cli_string m (at_state pa (adapt c) (Some text) w'))
    /\ (~ classified_retryable text ->
        run_loop tool to_cli_string (S m) (at_state pa c o w) =
        (Raise (ModelNavigatorException (ProcessFailed argv TIMEOUT_EXIT (Some text))),
         at_state pa c (Some text) w'))
  else
    run_loop tool to_cli_string (S m) (at_state pa c o w) =
    (Raise (TimeoutExpired command (_timeout pa)),
     at_state pa c o (started command (b_writes b) w)).
Proof.
  intros Hbin Ho command argv b Hb.
  destruct (_stream_output pa) eqn:Hs.
  - assert (Hf : fails (_stream_output pa) b).
    { unfold fails. now rewrite Hb, Hs. }
    assert (He : exit_status b = TIMEOUT_EXIT).
    { unfold exit_status. now rewrite Hb. }
    cbv zeta. split.
    + intros Hcls Hadapt.
      rewrite (step_retry tool to_cli_string pa Hbin m c o w acc).
      * fold command b argv. unfold output_after_failure. now rewrite Hs.
      * now rewrite Hs.
      * exact Hf.
      * fold command b. unfold gathered. now rewrite Hs.
      * exact Hadapt.
    + intros Hcls.
      rewrite (step_fatal tool to_cli_string pa Hbin m c o w acc).
      * fold command b argv. unfold output_after_failure, gathered.
        now rewrite Hs, He.
      * now rewrite Hs.
      * exact Hf.
      * fold command b. unfold gathered. now rewrite Hs.
  - apply (step_timeout tool to_cli_string pa Hbin m c o w Hs Hb).
Qed.

(** A buffered run whose first process overruns, and a streamed pass whose
    process overruns after asking for a larger window. *)
Lemma timeout_by_capture_mode_witness :
  let tool := always (says "Please use a larger time window" Overran) in
  let command :=
    ["perf_analyzer"; "-m"; "resnet"; "--measurement-mode"; "time_windows";
     "--measurement-interval"; "10000"] in
  run_loop tool cli 10 (at_state (analyzer window_config false) window_config None fresh_world)
  = (Raise (TimeoutExpired command 600),
     at_state (analyzer window_config false) window_config None
       (started command ∅ fresh_world))
  /\ run_loop tool cli 10
       (at_state (analyzer window_config true) window_config (Some "") fresh_world)
     = run_loop tool cli 9
         (at_state (analyzer window_config true) (adapt window_config)
            (Some "Please use a larger time window")
            (world_after true ("timeout" :: "600" :: command)
               (says "Please use a larger time window" Overran) fresh_world)).
Proof.
  cbv zeta. split.
  - exact (timeout_by_capture_mode
             (always (says "Please use a larger time window" Overran)) cli
             (analyzer window_config false) 9 window_config None fresh_world ""
             eq_refl ltac:(discriminate) eq_refl).
  - apply (proj1 (timeout_by_capture_mode
             (always (says "Please use a larger time window" Overran)) cli
             (analyzer window_config true) 9 window_config (Some "") fresh_world ""
             eq_refl ltac:(reflexivity) eq_refl)).
    + eexists. split; vm_compute; reflexivity.
    + eexists. vm_compute. reflexivity.
Defined.

(** C4 does not hold as stated: in streamed mode the first process overruns
    its time limit after asking for a larger window, and [run] goes on: it
    widens the window to 12000 ms, starts a second process and returns
    normally. *)
Lemma streamed_timeout_is_retried :
  let tool := scripted [says "Please use a larger time window" Overran]
                (says "ok" (Exited 0)) in
  let out := run tool cli (fresh window_config true) in
  (forall argv, b_ending (tool 0%nat argv) = Overran)
  /\ fst out = Ok tt
  /\ w_spawned (env (snd out)) =
       [ ["timeout"; "600"; "perf_analyzer"; "-m"; "resnet"; "--measurement-mode";
          "time_windows"; "--measurement-interval"; "10000"];
         ["timeout"; "600"; "perf_analyzer"; "-m"; "resnet"; "--measurement-mode";
          "time_windows"; "--measurement-interval"; "12000"] ]
  /\ getitem (_config (self (snd out))) "measurement-interval" = PInt 12000.
Proof.
  cbv zeta. split; [reflexivity|].
  repeat split; vm_compute; reflexivity.
Qed.

(** ** Two retries under a time-window mode *)

Lemma captured_gathered (stream : bool) (b : behaviour) :
  gathered stream "" b = captured stream b.
Proof. now destruct stream. Qed.

Lemma gathered_contains (stream : bool) (acc : string) (b : behaviour) (sub : string) :
  contains (captured stream b) sub -> contains (gathered stream acc b) sub.
Proof.
  destruct stream; cbn [gathered captured]; [apply contains_append_l | trivial].
Qed.

(** C6.  The measurement mode is neither unset nor count-based, the window
    holds the integer [i0], the first two processes [run] starts fail with a
    text that contains "Please use a larger time window" and the third one
    succeeds.  Then [run] returns normally after exactly three processes, whose
    command lines are rendered from the configuration with the window at
    [i0], [i0 + 2000] and [i0 + 4000]: the third attempt runs with the initial
    window plus 4000 ms, which is also what the configuration holds
    afterwards. *)
Theorem third_attempt_window
    (tool : nat -> list string -> behaviour)
    (to_cli_string : gmap string pyval -> string)
    (pa : PerfAnalyzer) (w : world) (i0 : Z) :
  bin_path pa = "perf_analyzer" ->
  count_based (_config pa) = false ->
  getitem (_config pa) "measurement-interval" = PInt i0 ->
  let stream := _stream_output pa in
  let n := length (w_spawned w) in
  let c1 := <["measurement-interval" := PInt (i0 + 2000)]> (_config pa) in
  let c2 := <["measurement-interval" := PInt (i0 + 4000)]> (_config pa) in
  let b0 := tool n (command_of to_cli_string pa) in
  let b1 := tool (S n) (command_of to_cli_string (with_config c1 pa)) in
  let b2 := tool (S (S n)) (command_of to_cli_string (with_config c2 pa)) in
  fails stream b0 -> contains (captured stream b0) LARGER_WINDOW ->
  fails stream b1 -> contains (captured stream b1) LARGER_WINDOW ->
  succeeds b2 ->
  let out := run tool to_cli_string {| self := pa; env := w |} in
  fst out = Ok tt
  /\ spawned_since w (env (snd out)) =
       [ argv_of to_cli_string pa;
         argv_of to_cli_string (with_config c1 pa);
         argv_of to_cli_string (with_config c2 pa) ]
  /\ getitem c2 "measurement-interval" = PInt (i0 + 4000)
  /\ _config (self (snd out)) = c2.
Proof.
  intros Hbin Hmode Hi stream n c1 c2 b0 b1 b2 Hf0 Hc0 Hf1 Hc1 Hok out.
  subst stream.
  set (c0 := _config pa).
  set (o0 := if _stream_output pa then Some "" else _output pa).
  assert (Hpa : with_config c0 pa = pa) by apply with_config_same.
  destruct (adapt_window c0 i0 Hmode Hi) as (Ha0 & Hm1 & Had0).
  change (adapt c0 = c1) in Ha0.
  assert (Hi1 : getitem (adapt c0) "measurement-interval" = PInt (i0 + 2000))
    by (rewrite Ha0; apply getitem_insert).
  destruct (adapt_window (adapt c0) (i0 + 2000) Hm1 Hi1) as (Ha1 & _ & Had1).
  assert (Ha2 : adapt (adapt c0) = c2).
  { rewrite Ha1, Ha0. unfold c1, c2. rewrite insert_insert_eq.
    do 2 f_equal. lia. }
  (* first pass *)
  assert (Hrun : out = run_loop tool to_cli_string 10 (at_state pa c0 o0 w))
    by (apply run_at_state; exact Hbin).
  rewrite (step_retry tool to_cli_string pa Hbin 9 c0 o0 w "") in Hrun; cycle 1.
  { unfold o0. intros ->. reflexivity. }
  { rewrite Hpa. exact Hf0. }
  { rewrite Hpa. apply larger_window_retryable, gathered_contains. exact Hc0. }
  { exact Had0. }
  rewrite Hpa in Hrun. fold n b0 in Hrun. rewrite Ha0 in Hrun.
  set (o1 := output_after_failure (_stream_output pa) o0 "" b0) in Hrun.
  set (w1 := world_after (_stream_output pa) (argv_of to_cli_string pa) b0 w) in Hrun.
  assert (Hn1 : length (w_spawned w1) = S n).
  { unfold w1. rewrite spawned_world_after, length_app. cbn. lia. }
  (* second pass *)
  rewrite (step_retry tool to_cli_string pa Hbin 8 c1 o1 w1 (stdout_text b0)) in Hrun;
    cycle 1.
  { unfold o1, output_after_failure. intros ->. reflexivity. }
  { rewrite Hn1. exact Hf1. }
  { rewrite Hn1. apply larger_window_retryable, gathered_contains. exact Hc1. }
  { rewrite <- Ha0. exact Had1. }
  rewrite Hn1 in Hrun. fold b1 in Hrun. rewrite <- Ha0, Ha2 in Hrun. rewrite Ha0 in Hrun.
  set (o2 := output_after_failure (_stream_output pa) o1 (stdout_text b0) b1) in Hrun.
  set (w2 := world_after (_stream_output pa)
               (argv_of to_cli_string (with_config c1 pa)) b1 w1) in Hrun.
  assert (Hn2 : length (w_spawned w2) = S (S n)).
  { unfold w2. rewrite spawned_world_after, length_app, Hn1. cbn. lia. }
  (* third pass *)
  rewrite (step_success tool to_cli_string pa Hbin 7 c2 o2 w2
             (stdout_text b0 +:+ stdout_text b1)) in Hrun; cycle 1.
  { unfold o2, output_after_failure. intros ->. reflexivity. }
  { rewrite Hn2. exact Hok. }
  rewrite Hrun. cbn [fst snd env self at_state _config with_output with_config].
  split; [reflexivity|]. split.
  - unfold spawned_since. rewrite spawned_world_after. unfold w2.
    rewrite spawned_world_after. unfold w1. rewrite spawned_world_after.
    rewrite <- !app_assoc. rewrite drop_app_length. reflexivity.
  - split; [apply getitem_insert | reflexivity].
Qed.

(** Batch size 16 under the time-window mode, streamed: two requests for a
    larger window, then success with the window at 14000 ms. *)
Lemma third_attempt_window_witness :
  let ask := says "Please use a larger time window" (Exited 1) in
  let tool := scripted [ask; ask] (says "ok" (Exited 0)) in
  let pa := analyzer window_config true in
  let c1 := <["measurement-interval" := PInt (10000 + 2000)]> window_config in
  let c2 := <["measurement-interval" := PInt (10000 + 4000)]> window_config in
  let out := run tool cli {| self := pa; env := fresh_world |} in
  fst out = Ok tt
  /\ spawned_since fresh_world (env (snd out)) =
       [ argv_of cli pa; argv_of cli (with_config c1 pa); argv_of cli (with_config c2 pa) ]
  /\ getitem c2 "measurement-interval" = PInt (10000 + 4000)
  /\ _config (self (snd out)) = c2.
Proof.
  cbv zeta.
  apply (third_attempt_window
           (scripted [says "Please use a larger time window" (Exited 1);
                      says "Please use a larger time window" (Exited 1)]
              (says "ok" (Exited 0)))
           cli (analyzer window_config true) fresh_world 10000
           eq_refl eq_refl eq_refl).
  - vm_compute. discriminate.
  - exists "", "". reflexivity.
  - vm_compute. discriminate.
  - exists "", "". reflexivity.
  - reflexivity.
Defined.

Example third_attempt_command :
  let ask := says "Please use a larger time window" (Exited 1) in
  let out := run (scripted [ask; ask] (says "ok" (Exited 0))) cli (fresh window_config true) in
  nth 2 (w_spawned (env (snd out))) [] =
    ["timeout"; "600"; "perf_analyzer"; "-m"; "resnet"; "--measurement-mode";
     "time_windows"; "--measurement-interval"; "14000"].
Proof. vm_compute. reflexivity. Qed.

(** ** The stored output *)

Module OutputFacts.

Section Stream.

Variable tool : nat -> list string -> behaviour.
Variable to_cli_string : gmap string pyval -> string.

Lemma texts_from_cons (n : nat) (argv : list string) (rest : list (list string)) :
  texts_from tool n (argv :: rest) =
  stdout_text (exec tool n argv) :: texts_from tool (S n) rest.
Proof.
  unfold texts_from. rewrite imap_cons, Nat.add_0_r. f_equal.
  apply imap_ext. intros i x _. cbn. now rewrite Nat.add_succ_r.
Qed.

(** The only [ProcessFailed] the [except] clause raises carries the output
    it was given. *)
Lemma except_raises (rc : Z) (cmd : list string) (o : option string) (s : ctl)
    (cmd' : list string) (rc' : Z) (o' : option string) :
  fst (except_CalledProcessError rc cmd o s)
    = Raise (ModelNavigatorException (ProcessFailed cmd' rc' o')) ->
  o' = o.
Proof.
  unfold except_CalledProcessError, bind, lift_result.
  destruct (_faild_with_measruement_inverval o) as [r|e] eqn:E.
  - destruct (truthy r).
    + unfold gets. cbn [self].
      destruct (is_None _ || eq_str _ _);
        unfold _increase_request_count, _increase_time_interval, iadd_config, bind,
          gets, lift_result; cbn [self];
        (destruct (getitem _ _); cbn; discriminate).
    + cbn. now intros [= _ _ ->].
  - destruct o; cbn in E; [discriminate|]. injection E as <-. discriminate.
Qed.

(** In streamed mode every pass appends to the stored output and none
    resets it: after [m] passes entered with [acc] stored, the stored output
    is [acc] followed by the standard output of every process started, and
    so is the text a [ProcessFailed] carries. *)
Lemma run_loop_accumulates (m : nat) :
  forall (pa : PerfAnalyzer) (w : world) (acc : string),
    _stream_output pa = true -> _output pa = Some acc ->
    let out := run_loop tool to_cli_string m {| self := pa; env := w |} in
    exists new,
      w_spawned (env (snd out)) = (w_spawned w ++ new)%list
      /\ let text := acc +:+ String.concat "" (texts_from tool (length (w_spawned w)) new) in
         _output (self (snd out)) = Some text
         /\ forall cmd rc o,
             fst out = Raise (ModelNavigatorException (ProcessFailed cmd rc o)) ->
             o = Some text.
Proof.
  induction m as [|m IH]; intros pa w acc Hs Hacc; cbv zeta.
  - exists []. cbn. rewrite app_nil_r, append_empty_r.
    repeat split; [exact Hacc | discriminate].
  - cbn [PerfAnalyzerPy.run_loop]. unfold bind.
    rewrite (attempt_stream_exec tool to_cli_string pa w acc Hs Hacc).
    set (argv := argv_of to_cli_string pa).
    set (b := exec tool (length (w_spawned w)) argv).
    set (text := acc +:+ stdout_text b).
    set (s1 := {| self := with_output (Some text) pa;
                  env := printed (echo b) (started argv (b_writes b) w) |}).
    assert (Hone : acc +:+ String.concat "" (texts_from tool (length (w_spawned w)) [argv])
                   = text).
    { rewrite texts_from_cons. cbn [texts_from imap]. rewrite concat_cons.
      cbn [String.concat]. now rewrite append_empty_r. }
    destruct (exit_status b =? 0)%Z.
    + exists [argv]. cbn [fst snd]. rewrite Hone.
      repeat split; discriminate.
    + destruct (except_env (exit_status b) argv (Some text) s1) as (Henv & Hout & Hst).
      pose proof (except_raises (exit_status b) argv (Some text) s1) as Hraise.
      destruct (except_CalledProcessError (exit_status b) argv (Some text) s1)
        as [[[|]|e] s2]; unfold ret; cbn [fst snd] in *.
      * exists [argv]. rewrite Henv, Hout, Hone.
        repeat split; discriminate.
      * destruct s2 as [pa2 w2]. cbn [self env] in *.
        destruct (IH pa2 w2 text) as (new & Hnew & Htext & Hfail).
        { rewrite Hst. exact Hs. }
        { exact Hout. }
        exists (argv :: new).
        assert (Hlen : length (w_spawned w2) = S (length (w_spawned w))).
        { rewrite Henv. cbn. rewrite length_app. cbn. lia. }
        rewrite Hlen in Htext, Hfail.
        rewrite texts_from_cons, concat_cons, <- append_assoc. fold b. fold text.
        split; [|split; [exact Htext | exact Hfail]].
        rewrite Hnew, Henv. cbn. now rewrite <- app_assoc.
      * exists [argv]. rewrite Henv, Hout, Hone.
        repeat split. intros cmd rc o [= -> ]. eapply Hraise. reflexivity.
Qed.

End Stream.

End OutputFacts.
Import OutputFacts.

(** C9.  In streamed mode [run] empties the stored output once, before the
    loop, and no pass of the loop empties it again.  Whatever was stored
    before the call, after it the stored output is the concatenation of the
    standard output of all processes the call started, first to last; the
    text carried by the exception of a failed process is that concatenation
    up to the failing attempt, and after a call that returned normally
    [output()] returns it (provided it is not empty). *)
Theorem streamed_output_accumulates
    (tool : nat -> list string -> behaviour)
    (to_cli_string : gmap string pyval -> string) (s : ctl) :
  _stream_output (self s) = true ->
  let out := run tool to_cli_string s in
  let text := String.concat "" (outputs_since tool (env s) (env (snd out))) in
  _output (self (snd out)) = Some text
  /\ (forall cmd rc o,
        fst out = Raise (ModelNavigatorException (ProcessFailed cmd rc o)) ->
        o = Some text)
  /\ (fst out = Ok tt -> text <> "" ->
      fst (output (snd out)) = Ok text).
Proof.
  intros Hs. destruct s as [pa w]. cbn [self env] in *. cbv zeta.
  rewrite run_eq, Hs.
  destruct (run_loop_accumulates tool to_cli_string (Z.to_nat MAX_INTERVAL_CHANGES)
              (with_output (Some "") pa) w "" Hs eq_refl)
    as (new & Hnew & Htext & Hfail).
  unfold outputs_since, spawned_since. rewrite Hnew, drop_app_length.
  change ("" +:+ ?x) with x in Htext, Hfail.
  split; [exact Htext|]. split; [exact Hfail|].
  intros _ Hne. unfold output, bind, gets. rewrite Htext.
  apply truthy_PStr in Hne. now rewrite Hne.
Qed.

(** A streamed run of two attempts: the first asks for a larger window, the
    second succeeds; the stored output holds both texts. *)
Lemma streamed_output_accumulates_witness :
  let tool := scripted [says "Please use a larger time window" (Exited 1)]
                (says "ok" (Exited 0)) in
  let out := run tool cli (fresh window_config true) in
  _output (self (snd out)) = Some "Please use a larger time windowok"
  /\ fst (output (snd out)) = Ok "Please use a larger time windowok".
Proof.
  cbv zeta.
  destruct (streamed_output_accumulates
              (scripted [says "Please use a larger time window" (Exited 1)]
                 (says "ok" (Exited 0)))
              cli (fresh window_config true) eq_refl) as (Hout & _ & Hget).
  split.
  - rewrite Hout. vm_compute. reflexivity.
  - rewrite Hget.
    + vm_compute. reflexivity.
    + vm_compute. reflexivity.
    + vm_compute. discriminate.
Defined.

(** C10.  [output()] raises "Attempted to get perf_analyzer output without
    calling run first" whenever nothing or the empty text is stored; this is
    so in particular after a call of [run] that returned normally and
    captured the empty text. *)
Theorem output_raises_on_empty
    (tool : nat -> list string -> behaviour)
    (to_cli_string : gmap string pyval -> string) (s : ctl) :
  (_output (self s) = None \/ _output (self s) = Some "" ->
   output s = (Raise (ModelNavigatorException OutputWithoutRun), s))
  /\ (fst (run tool to_cli_string s) = Ok tt ->
      _output (self (snd (run tool to_cli_string s))) = Some "" ->
      fst (output (snd (run tool to_cli_string s)))
      = Raise (ModelNavigatorException OutputWithoutRun)).
Proof.
  assert (H : forall s', _output (self s') = None \/ _output (self s') = Some "" ->
                    output s' = (Raise (ModelNavigatorException OutputWithoutRun), s')).
  { intros s' [H|H]; unfold output, bind, gets; now rewrite H. }
  split; [apply H|].
  intros _ Hempty. rewrite H; [reflexivity | now right].
Qed.

(** A tool that exits with status 0 and writes nothing, in either mode. *)
Lemma output_raises_on_empty_witness :
  let quiet := {| b_lines := []; b_ending := Exited 0; b_writes := ∅ |} in
  output (fresh count_config false)
    = (Raise (ModelNavigatorException OutputWithoutRun), fresh count_config false)
  /\ fst (run (always quiet) cli (fresh count_config false)) = Ok tt
  /\ fst (output (snd (run (always quiet) cli (fresh count_config false))))
     = Raise (ModelNavigatorException OutputWithoutRun)
  /\ fst (output (snd (run (always quiet) cli (fresh count_config true))))
     = Raise (ModelNavigatorException OutputWithoutRun).
Proof.
  cbv zeta. split; [|split; [|split]].
  - apply (proj1 (output_raises_on_empty
                    (always {| b_lines := []; b_ending := Exited 0; b_writes := ∅ |})
                    cli (fresh count_config false))).
    left. reflexivity.
  - vm_compute. reflexivity.
  - apply (proj2 (output_raises_on_empty
                    (always {| b_lines := []; b_ending := Exited 0; b_writes := ∅ |})
                    cli (fresh count_config false))); vm_compute; reflexivity.
  - apply (proj2 (output_raises_on_empty
                    (always {| b_lines := []; b_ending := Exited 0; b_writes := ∅ |})
                    cli (fresh count_config true))); vm_compute; reflexivity.
Defined.

(** ** The driver *)

(** C5 (the code departs from it).  The driver builds the parameters and then
    calls [PerfAnalyzer(perf_config, stream_output=True)], without the
    [timeout] that [__init__] requires: for the first batch size of any
    non-empty sweep the call raises [TypeError].  [run] is never called, no
    process is started, nothing is logged, and the sweep ends in that
    exception instead of [sys.exit(1)]. *)
Theorem sweep_stops_before_first_run
    (tool : nat -> list string -> behaviour)
    (to_cli_string : gmap string pyval -> string)
    (parse_server_url : string -> pyval * string * Z)
    (sort_results : list (gmap string pyval) -> list (gmap string pyval))
    (model_name : string) (batch_size : Z) (rest : list Z) (result_path : string)
    (input_shapes : option (list string)) (profiling_data : string)
    (triton_instances : Z) (server_url : string) (measurement_window : pyval)
    (shared_memory : bool) (w : world) :
  offline_performance tool to_cli_string parse_server_url sort_results
    model_name (batch_size :: rest) result_path input_shapes profiling_data
    triton_instances server_url measurement_window shared_memory w
  = (Raise TypeError, w).
Proof.
  unfold offline_performance.
  destruct (parse_server_url server_url) as [[protocol host] port].
  reflexivity.
Qed.

(** ** The metrics of a batch size *)

Module MetricsFacts.

Lemma holds_term (r : gmap string pyval) (field : string) (n : Z) :
  holds r field n -> int (dict_get r field (PInt 0)) = Ok n.
Proof.
  unfold holds, dict_get. destruct (r !! field); cbn; [trivial | now intros ->].
Qed.

Lemma fold_rows_app (rows1 rows2 : list (gmap string pyval)) (row : gmap string pyval) :
  fold_rows (rows1 ++ rows2) row =
  match fold_rows rows1 row with
  | Ok row' => fold_rows rows2 row'
  | Raise e => Raise e
  end.
Proof.
  revert row. induction rows1 as [|r rows1 IH]; intros row; cbn [fold_rows app].
  - reflexivity.
  - destruct (calculate_average_latency r); [apply IH | reflexivity].
Qed.

(** While rows with the header's columns are folded in, the row keeps the
    batch size unless a column takes its key, and gathers no key besides the
    header's and the two the driver adds. *)
Lemma fold_rows_invariant (header : gset string) (batch_size : Z)
    (rows : list (gmap string pyval)) :
  (forall r, r ∈ rows -> dom r = header) ->
  (forall r, r ∈ rows -> exists a, calculate_average_latency r = Ok a) ->
  forall row : gmap string pyval,
    "batch_size" ∈ dom row ->
    dom row ⊆ header ∪ {[ "batch_size"; "avg latency" ]} ->
    ("batch_size" ∉ header -> row !! "batch_size" = Some (PInt batch_size)) ->
    exists row',
      fold_rows rows row = Ok row'
      /\ "batch_size" ∈ dom row'
      /\ dom row' ⊆ header ∪ {[ "batch_size"; "avg latency" ]}
      /\ ("batch_size" ∉ header -> row' !! "batch_size" = Some (PInt batch_size)).
Proof.
  induction rows as [|r rows IH]; intros Hdom Havg row Hin Hsub Hbs.
  - exists row. now cbn.
  - cbn [fold_rows].
    destruct (Havg r) as [a Ha]; [left|]. rewrite Ha.
    assert (Hr : dom r = header) by (apply Hdom; left).
    apply IH.
    + intros r' Hr'. apply Hdom. now right.
    + intros r' Hr'. apply Havg. now right.
    + rewrite dom_insert_L, dom_union_L. set_solver.
    + rewrite dom_insert_L, dom_union_L. set_solver.
    + intros Hnot. rewrite lookup_insert_ne by discriminate.
      rewrite lookup_union_r; [now apply Hbs|].
      apply not_elem_of_dom. now rewrite Hr.
Qed.

End MetricsFacts.
Import MetricsFacts.

(** C8.  When the eight latency fields of a metrics row hold the durations
    [n1] to [n8] (an absent field counting as zero), the average latency
    computed for the row is their sum. *)
Theorem average_latency_is_sum (r : gmap string pyval)
    (n1 n2 n3 n4 n5 n6 n7 n8 : Z) :
  holds r "Client Send" n1 ->
  holds r "Network+Server Send/Recv" n2 ->
  holds r "Server Queue" n3 ->
  holds r "Server Compute" n4 ->
  holds r "Server Compute Input" n5 ->
  holds r "Server Compute Infer" n6 ->
  holds r "Server Compute Output" n7 ->
  holds r "Client Recv" n8 ->
  calculate_average_latency r = Ok (n1 + n2 + n3 + n4 + n5 + n6 + n7 + n8).
Proof.
  intros H1 H2 H3 H4 H5 H6 H7 H8.
  unfold calculate_average_latency, avg_sum_fields. cbn [comprehension].
  rewrite (holds_term _ _ _ H1), (holds_term _ _ _ H2), (holds_term _ _ _ H3),
    (holds_term _ _ _ H4), (holds_term _ _ _ H5), (holds_term _ _ _ H6),
    (holds_term _ _ _ H7), (holds_term _ _ _ H8).
  unfold sum. cbn [fold_left]. f_equal; lia.
Qed.

(** The row {"Client Send": 10, "Server Queue": 5}, as numbers and as the CSV
    reader yields it: the average latency is 15. *)
Lemma average_latency_is_sum_witness :
  calculate_average_latency two_fields = Ok 15
  /\ calculate_average_latency two_fields_csv = Ok 15.
Proof.
  split.
  - exact (average_latency_is_sum two_fields 10 0 5 0 0 0 0 0
             eq_refl eq_refl eq_refl eq_refl eq_refl eq_refl eq_refl eq_refl).
  - exact (average_latency_is_sum two_fields_csv 10 0 5 0 0 0 0 0
             eq_refl eq_refl eq_refl eq_refl eq_refl eq_refl eq_refl eq_refl).
Defined.

(** The row [update_performance_data] appends, for any header: the last
    row's values, then the average latency under its key, over the batch
    size. *)
Lemma appended_row_shape
    (results : list (gmap string pyval)) (batch_size : Z) (file : string)
    (w : world) (rows : list (gmap string pyval)) (last : gmap string pyval)
    (header : gset string) :
  w_files w !! file = Some (rows ++ [last])%list ->
  (forall r, r ∈ (rows ++ [last])%list -> dom r = header) ->
  (forall r, r ∈ (rows ++ [last])%list -> exists a, calculate_average_latency r = Ok a) ->
  exists (row : gmap string pyval) (avg : Z),
    update_performance_data results batch_size file w = (Ok (results ++ [row])%list, w)
    /\ calculate_average_latency last = Ok avg
    /\ (forall column, column ∈ header -> column <> "avg latency" ->
        row !! column = last !! column)
    /\ row !! "avg latency" = Some (PInt avg)
    /\ ("batch_size" ∉ header -> row !! "batch_size" = Some (PInt batch_size))
    /\ dom row = header ∪ {[ "batch_size"; "avg latency" ]}.
Proof.
  intros Hfile Hdom Havg.
  destruct (fold_rows_invariant header batch_size rows) with
      (row := ({[ "batch_size" := PInt batch_size ]} : gmap string pyval))
    as (row' & Hfold & Hin & Hsub & Hbs).
  - intros r Hr. apply Hdom. apply elem_of_app. now left.
  - intros r Hr. apply Havg. apply elem_of_app. now left.
  - rewrite dom_singleton_L. set_solver.
  - rewrite dom_singleton_L. set_solver.
  - intros _. apply lookup_singleton_eq.
  - destruct (Havg last) as [avg Hlast]; [apply elem_of_app; right; left|].
    assert (Hl : dom last = header) by (apply Hdom, elem_of_app; right; left).
    exists (<["avg latency" := PInt avg]> (last ∪ row')), avg.
    split; [|split; [exact Hlast|split; [|split; [|split]]]].
    + unfold update_performance_data, bind, open_csv, lift_result, ret.
      rewrite Hfile, fold_rows_app, Hfold. cbn [fold_rows]. now rewrite Hlast.
    + intros column Hc Hne. rewrite lookup_insert_ne by congruence.
      rewrite <- Hl in Hc. apply elem_of_dom in Hc as [v Hv].
      rewrite Hv. now apply lookup_union_Some_l.
    + apply lookup_insert_eq.
    + intros Hnot. rewrite lookup_insert_ne by discriminate.
      rewrite lookup_union_r; [now apply Hbs|].
      apply not_elem_of_dom. now rewrite Hl.
    + rewrite dom_insert_L, dom_union_L, Hl. set_solver.
Qed.

(** C7.  The scratch file holds the sample rows [rows ++ [last]] (so at least
    one), all with the header's columns and with integers in their latency
    fields; the header is one the tool writes, with no column named like the
    two keys the driver adds.  Then [update_performance_data] appends exactly
    one row, which holds the last row's value in every column of the file,
    the batch size under "batch_size" and the average latency of the last row
    under "avg latency", and nothing else: it is the last row with these two
    keys added, whatever the rows before it hold. *)
Theorem appended_row_holds_last_row
    (results : list (gmap string pyval)) (batch_size : Z) (file : string)
    (w : world) (rows : list (gmap string pyval)) (last : gmap string pyval)
    (header : gset string) :
  w_files w !! file = Some (rows ++ [last])%list ->
  (forall r, r ∈ (rows ++ [last])%list -> dom r = header) ->
  (forall r, r ∈ (rows ++ [last])%list -> exists a, calculate_average_latency r = Ok a) ->
  "batch_size" ∉ header ->
  "avg latency" ∉ header ->
  exists (row : gmap string pyval) (avg : Z),
    update_performance_data results batch_size file w = (Ok (results ++ [row])%list, w)
    /\ calculate_average_latency last = Ok avg
    /\ (forall column, column ∈ header -> row !! column = last !! column)
    /\ row !! "batch_size" = Some (PInt batch_size)
    /\ row !! "avg latency" = Some (PInt avg)
    /\ row = <["avg latency" := PInt avg]> (<["batch_size" := PInt batch_size]> last).
Proof.
  intros Hfile Hdom Havg Hbs Hal.
  destruct (appended_row_shape results batch_size file w rows last header
              Hfile Hdom Havg)
    as (row & avg & Hrun & Hlast & Hcols & Havgcol & Hbatch & Hrowdom).
  assert (Hl : dom last = header) by (apply Hdom, elem_of_app; right; left).
  exists row, avg.
  split; [exact Hrun|]. split; [exact Hlast|]. split; [|split; [|split]].
  - intros column Hc. apply Hcols; [exact Hc|]. intros ->. contradiction.
  - now apply Hbatch.
  - exact Havgcol.
  - apply map_eq. intros key.
    destruct (decide (key = "avg latency")) as [->|Hk1].
    { now rewrite Havgcol, lookup_insert_eq. }
    rewrite lookup_insert_ne by congruence.
    destruct (decide (key = "batch_size")) as [->|Hk2].
    { now rewrite (Hbatch Hbs), lookup_insert_eq. }
    rewrite lookup_insert_ne by congruence.
    destruct (decide (key ∈ header)) as [Hin|Hout].
    { now apply Hcols. }
    transitivity (@None pyval).
    + apply not_elem_of_dom. rewrite Hrowdom. set_solver.
    + symmetry. apply not_elem_of_dom. now rewrite Hl.
Qed.

(** A scratch file of two sample rows that differ in every column: the
    appended row has the values of the second. *)
Lemma appended_row_holds_last_row_witness :
  exists (row : gmap string pyval) (avg : Z),
    update_performance_data [] 4 "triton_performance_partial_4.csv" sample_world
      = (Ok [row], sample_world)
    /\ calculate_average_latency two_fields_csv = Ok avg
    /\ (forall column, column ∈ ({[ "Client Send"; "Server Queue" ]} : gset string) ->
        row !! column = two_fields_csv !! column)
    /\ row !! "batch_size" = Some (PInt 4)
    /\ row !! "avg latency" = Some (PInt avg)
    /\ row = <["avg latency" := PInt avg]> (<["batch_size" := PInt 4]> two_fields_csv).
Proof.
  apply (appended_row_holds_last_row [] 4 "triton_performance_partial_4.csv"
           sample_world
           [ <[ "Client Send" := PStr "12" ]> {[ "Server Queue" := PStr "7" ]} ]
           two_fields_csv {[ "Client Send"; "Server Queue" ]}).
  - reflexivity.
  - intros r Hr. cbn in Hr.
    apply elem_of_cons in Hr as [->|Hr];
      [|apply elem_of_cons in Hr as [->|Hr]; [|now apply elem_of_nil in Hr]];
      unfold two_fields_csv; rewrite dom_insert_L, dom_singleton_L; reflexivity.
  - intros r Hr. cbn in Hr.
    apply elem_of_cons in Hr as [->|Hr];
      [|apply elem_of_cons in Hr as [->|Hr]; [|now apply elem_of_nil in Hr]];
      eexists; vm_compute; reflexivity.
  - intros H. apply elem_of_union in H as [H|H]; apply elem_of_singleton in H;
      discriminate.
  - intros H. apply elem_of_union in H as [H|H]; apply elem_of_singleton in H;
      discriminate.
Defined.

Example appended_row_of_two_samples :
  fst (update_performance_data [] 4 "triton_performance_partial_4.csv" sample_world)
  = Ok [ <[ "avg latency" := PInt 15 ]>
           (<[ "batch_size" := PInt 4 ]>
              (<[ "Client Send" := PStr "10" ]> {[ "Server Queue" := PStr "5" ]})) ].
Proof. vm_compute. reflexivity. Qed.

(** * Further properties of the two modules *)

(** ** Characters, tokens and numbers *)

Module TextFacts.

Lemma all_chars_append (p : ascii -> bool) (s t : string) :
  all_chars p (s +:+ t) = all_chars p s && all_chars p t.
Proof.
  induction s as [|c s IH]; [reflexivity|].
  rewrite append_cons. cbn [all_chars]. now rewrite IH, andb_assoc.
Qed.

Lemma all_chars_impl (p q : ascii -> bool) (s : string) :
  (forall c, p c = true -> q c = true) ->
  all_chars p s = true -> all_chars q s = true.
Proof.
  intros Hpq. induction s as [|c s IH]; [trivial|]. cbn [all_chars].
  intros [Hc Hs]%andb_true_iff. now rewrite (Hpq _ Hc), IH.
Qed.

(** *** [replace] and [split] *)

Lemma replace_char_clean (s : string) :
  all_chars (fun c => is_space c || negb (Ascii.eqb c "="%char))
    (replace_char "="%char " "%char s) = true.
Proof.
  induction s as [|c s IH]; [reflexivity|]. cbn [replace_char all_chars].
  rewrite IH, andb_true_r.
  destruct (Ascii.eqb c "="%char) eqn:E; [reflexivity|].
  rewrite E. apply orb_true_r.
Qed.

Lemma split_go_tokens (q : ascii -> bool) (s : string) :
  all_chars (fun c => is_space c || q c) s = true ->
  forall cur : option string,
    match cur with
    | Some w => w <> "" /\ all_chars (fun c => negb (is_space c) && q c) w = true
    | None => True
    end ->
    Forall (fun t => t <> "" /\ all_chars (fun c => negb (is_space c) && q c) t = true)
      (split_go s cur).
Proof.
  induction s as [|c s IH]; cbn [all_chars split_go]; intros Hs cur Hcur.
  - destruct cur; [now repeat constructor | constructor].
  - apply andb_true_iff in Hs as [Hc Hs].
    destruct (is_space c) eqn:Esp.
    + destruct cur; [constructor; [exact Hcur|]|]; now apply IH.
    + apply IH; [exact Hs|]. cbn [orb] in Hc.
      destruct cur as [w|].
      * destruct Hcur as [Hne Hw]. split.
        { destruct w; discriminate. }
        rewrite all_chars_append, Hw. cbn [all_chars]. now rewrite Esp, Hc.
      * split; [discriminate|]. cbn [all_chars]. now rewrite Esp, Hc.
Qed.

(** *** Splitting on a separator *)

Lemma split_on_go_piece (sep : ascii) (a cur : string) :
  all_chars (fun c => negb (Ascii.eqb c sep)) a = true ->
  split_on_go sep a cur = [cur +:+ a]
  /\ forall rest, split_on_go sep (a +:+ String sep rest) cur
                  = (cur +:+ a) :: split_on_go sep rest "".
Proof.
  revert cur. induction a as [|c a IH]; intros cur Ha.
  - rewrite append_empty_r. split; [reflexivity|]. intros rest.
    change ("" +:+ String sep rest) with (String sep rest).
    cbn [split_on_go]. now rewrite Ascii.eqb_refl.
  - cbn [all_chars] in Ha. apply andb_true_iff in Ha as [Hc Ha].
    apply negb_true_iff in Hc.
    destruct (IH (cur +:+ String c "") Ha) as [IH1 IH2].
    rewrite append_assoc in IH1. split.
    + cbn [split_on_go]. now rewrite Hc.
    + intros rest. rewrite append_cons. cbn [split_on_go]. rewrite Hc, IH2.
      now rewrite append_assoc.
Qed.

(** Joining pieces that hold no separator and splitting again gives the
    pieces back. *)
Lemma split_on_join (sep : ascii) (x : string) (l : list string) :
  Forall (fun a => all_chars (fun c => negb (Ascii.eqb c sep)) a = true) (x :: l) ->
  split_on sep (String.concat (String sep "") (x :: l)) = x :: l.
Proof.
  revert x. induction l as [|y l IH]; intros x H.
  - apply Forall_inv in H. cbn [String.concat]. unfold split_on.
    now rewrite (proj1 (split_on_go_piece sep x "" H)).
  - pose proof (Forall_inv H) as Hx. apply Forall_inv_tail in H.
    change (String.concat (String sep "") (x :: y :: l))
      with (x +:+ String sep "" +:+ String.concat (String sep "") (y :: l)).
    change (String sep "" +:+ ?r) with (String sep r).
    unfold split_on. rewrite (proj2 (split_on_go_piece sep x "" Hx)).
    f_equal. now apply IH.
Qed.

(** A separator at the end leaves an empty last piece. *)
Lemma split_on_go_trailing (sep : ascii) (s cur : string) :
  split_on_go sep (s +:+ String sep "") cur = (split_on_go sep s cur ++ [""])%list.
Proof.
  revert cur. induction s as [|c s IH]; intros cur.
  - change ("" +:+ String sep "") with (String sep ""). cbn [split_on_go].
    now rewrite Ascii.eqb_refl.
  - rewrite append_cons. cbn [split_on_go].
    destruct (Ascii.eqb c sep); [cbn; f_equal|]; apply IH.
Qed.

(** *** [strip] *)

Lemma rev_app_rev_app (s t u : string) :
  String.rev_app (String.rev_app s t) u = String.rev_app t (s +:+ u).
Proof.
  revert t u. induction s as [|c s IH]; intros t u; [reflexivity|].
  cbn [String.rev_app]. now rewrite IH.
Qed.

Lemma rev_rev (s : string) : String.rev (String.rev s) = s.
Proof.
  unfold String.rev. rewrite rev_app_rev_app. cbn [String.rev_app].
  apply append_empty_r.
Qed.

Lemma rev_app_append (s t u : string) :
  String.rev_app (s +:+ t) u = String.rev_app t (String.rev_app s u).
Proof.
  revert u. induction s as [|c s IH]; intros u; [reflexivity|].
  rewrite append_cons. cbn [String.rev_app]. apply IH.
Qed.

Lemma rev_app_eq (s t : string) : String.rev_app s t = String.rev s +:+ t.
Proof.
  unfold String.rev. revert t. induction s as [|c s IH]; intros t; [reflexivity|].
  cbn [String.rev_app]. rewrite IH, (IH (String c "")), append_assoc. reflexivity.
Qed.

Lemma rev_append (s t : string) : String.rev (s +:+ t) = String.rev t +:+ String.rev s.
Proof. unfold String.rev at 1. now rewrite rev_app_append, rev_app_eq. Qed.

Lemma all_chars_rev (p : ascii -> bool) (s : string) :
  all_chars p (String.rev s) = all_chars p s.
Proof.
  induction s as [|c s IH]; [reflexivity|].
  change (String c s) with (String c "" +:+ s) at 1.
  rewrite rev_append, all_chars_append, IH. cbn [String.rev String.rev_app all_chars].
  now rewrite andb_true_r, andb_comm.
Qed.

Lemma lstrip_blank (l s : string) : blank l -> lstrip (l +:+ s) = lstrip s.
Proof.
  unfold blank. induction l as [|c l IH]; [reflexivity|]. cbn [all_chars].
  intros [Hc Hl]%andb_true_iff. rewrite append_cons. cbn [lstrip]. rewrite Hc.
  now apply IH.
Qed.

Lemma lstrip_solid_head (c : ascii) (s : string) :
  is_space c = false -> lstrip (String c s) = String c s.
Proof. intros H. cbn [lstrip]. now rewrite H. Qed.

Lemma lstrip_solid (s : string) :
  all_chars (fun c => negb (is_space c)) s = true -> lstrip s = s.
Proof.
  destruct s as [|c s]; [reflexivity|]. cbn [all_chars lstrip].
  intros [Hc _]%andb_true_iff. apply negb_true_iff in Hc. now rewrite Hc.
Qed.

Lemma lstrip_all_blank (r : string) : blank r -> lstrip r = "".
Proof.
  intros Hr. rewrite <- (append_empty_r r). now rewrite (lstrip_blank r "" Hr).
Qed.

Lemma rstrip_padded (d r : string) :
  blank r -> all_chars (fun c => negb (is_space c)) d = true ->
  rstrip (d +:+ r) = d.
Proof.
  intros Hr Hd. unfold rstrip. rewrite rev_append.
  rewrite lstrip_blank by (unfold blank; now rewrite all_chars_rev).
  rewrite lstrip_solid by now rewrite all_chars_rev.
  apply rev_rev.
Qed.

(** White space around a text without white space is stripped, and nothing
    else. *)
Lemma strip_padded (l d r : string) :
  blank l -> blank r -> all_chars (fun c => negb (is_space c)) d = true ->
  strip (l +:+ d +:+ r) = d.
Proof.
  intros Hl Hr Hd. unfold strip. rewrite (lstrip_blank l _ Hl).
  destruct d as [|c d].
  - change ("" +:+ r) with r. now rewrite (lstrip_all_blank r Hr).
  - rewrite append_cons, lstrip_solid_head.
    + rewrite <- append_cons. now apply rstrip_padded.
    + cbn [all_chars] in Hd. apply andb_true_iff in Hd as [Hc _].
      now apply negb_true_iff in Hc.
Qed.

Lemma int_space_is_space (c : ascii) : is_int_space c = true -> is_space c = true.
Proof.
  unfold is_int_space, is_space. cbv zeta.
  intros [H| ->]%orb_true_iff; [rewrite H; reflexivity | apply orb_true_r].
Qed.

(** [int] strips nothing from a text without white space. *)
Lemma strip_int_solid (d : string) :
  all_chars (fun c => negb (is_space c)) d = true -> strip_int d = d.
Proof.
  intros Hd.
  assert (Hint : forall s, all_chars (fun c => negb (is_space c)) s = true ->
                      lstrip_int s = s).
  { intros [|c s]; [reflexivity|]. cbn [all_chars lstrip_int].
    intros [Hc _]%andb_true_iff. apply negb_true_iff in Hc.
    destruct (is_int_space c) eqn:E; [|reflexivity].
    apply int_space_is_space in E. congruence. }
  unfold strip_int. rewrite (Hint d Hd).
  rewrite Hint by now rewrite all_chars_rev.
  apply rev_rev.
Qed.

Lemma strip_solid (d : string) :
  all_chars (fun c => negb (is_space c)) d = true -> strip d = d.
Proof.
  intros Hd. pose proof (strip_padded "" d "" eq_refl eq_refl Hd) as H.
  change ("" +:+ d +:+ "") with (d +:+ "") in H. now rewrite append_empty_r in H.
Qed.

End TextFacts.

(** ** Decimal numbers *)

Module NumberFacts.

Import TextFacts.

Lemma digit_of_pretty_char (m : N) :
  (m < 10)%N ->
  digit_of (pretty_N_char m) = Some (Z.of_N m) /\ is_digit (pretty_N_char m) = true.
Proof.
  intros H.
  assert (m = 0 \/ m = 1 \/ m = 2 \/ m = 3 \/ m = 4 \/ m = 5 \/ m = 6 \/ m = 7
          \/ m = 8 \/ m = 9)%N as Hm by lia.
  repeat (destruct Hm as [->|Hm]; [split; reflexivity|]). subst m. split; reflexivity.
Qed.

(** What a digit is not. *)
Lemma digit_facts (c : ascii) :
  is_digit c = true ->
  is_space c = false /\ Ascii.eqb c ","%char = false
  /\ Ascii.eqb c "-"%char = false /\ Ascii.eqb c "+"%char = false.
Proof.
  destruct c as [[] [] [] [] [] [] [] []]; vm_compute; intros H;
    try discriminate H; repeat split.
Qed.

Lemma digits_solid (ds : string) :
  all_chars is_digit ds = true ->
  all_chars (fun c => negb (is_space c)) ds = true
  /\ all_chars (fun c => negb (Ascii.eqb c ","%char)) ds = true.
Proof.
  intros H. split; (eapply all_chars_impl; [|exact H]); intros c Hc;
    destruct (digit_facts c Hc) as (H1 & H2 & _); now rewrite ?H1, ?H2.
Qed.

(** The digits [pretty] writes for a positive number, read back. *)
Lemma pretty_N_go_digits (x : N) :
  (0 < x)%N ->
  exists (ds : string) (p : Z),
    ds <> "" /\ all_chars is_digit ds = true
    /\ (forall s, pretty_N_go x s = ds +:+ s)
    /\ (forall rest acc f,
          parse_digits (ds +:+ rest) acc f = parse_digits rest (acc * p + Z.of_N x) true).
Proof.
  induction (N.lt_wf_0 x) as [x _ IH]; intros Hx.
  assert (Hm : (x `mod` 10 < 10)%N) by (apply N.mod_lt; lia).
  destruct (digit_of_pretty_char _ Hm) as [Hd Hdig].
  assert (Hdiv : (x = 10 * (x `div` 10) + x `mod` 10)%N) by (apply N.div_mod; lia).
  destruct (decide (x `div` 10 = 0)%N) as [H0|H0].
  - exists (String (pretty_N_char (x `mod` 10)) ""), 10.
    split; [discriminate|]. split; [cbn [all_chars]; now rewrite Hdig|]. split.
    + intros s. rewrite pretty_N_go_step by exact Hx. rewrite H0. reflexivity.
    + intros rest acc f. rewrite append_cons. cbn [parse_digits]. rewrite Hd.
      change ("" +:+ rest) with rest. f_equal. lia.
  - destruct (IH (x `div` 10)%N) as (ds & p & Hne & Hall & Hgo & Hparse).
    { apply N.div_lt; lia. }
    { lia. }
    exists (ds +:+ String (pretty_N_char (x `mod` 10)) ""), (p * 10).
    split; [destruct ds; discriminate|].
    split; [rewrite all_chars_append, Hall; cbn [all_chars]; now rewrite Hdig|]. split.
    + intros s. rewrite pretty_N_go_step by exact Hx. rewrite Hgo.
      now rewrite append_assoc.
    + intros rest acc f. rewrite append_assoc, Hparse, append_cons.
      cbn [parse_digits]. rewrite Hd. change ("" +:+ rest) with rest. f_equal. lia.
Qed.

(** [str] of an integer is an optional minus sign and digits that read back
    as its absolute value. *)
Lemma str_int_shape (n : Z) :
  exists ds : string,
    ds <> "" /\ all_chars is_digit ds = true
    /\ parse_digits ds 0 false = Some (Z.abs n)
    /\ str_int n = if (n <? 0)%Z then "-" +:+ ds else ds.
Proof.
  assert (Hpos : forall q : positive,
             exists ds : string,
               ds <> "" /\ all_chars is_digit ds = true
               /\ parse_digits ds 0 false = Some (Z.pos q)
               /\ pretty (N.pos q) = ds).
  { intros q. destruct (pretty_N_go_digits (N.pos q)) as (ds & p & Hne & Hall & Hgo & Hparse);
      [lia|].
    exists ds. split; [exact Hne|]. split; [exact Hall|]. split.
    - rewrite <- (append_empty_r ds), Hparse. cbn [parse_digits]. f_equal.
    - unfold pretty, pretty_N. destruct (decide (N.pos q = 0)%N); [discriminate|].
      rewrite Hgo. apply append_empty_r. }
  destruct n as [|q|q].
  - exists "0". repeat split; discriminate.
  - destruct (Hpos q) as (ds & ? & ? & ? & ?). exists ds. repeat split; assumption.
  - destruct (Hpos q) as (ds & ? & ? & ? & Hq). exists ds.
    repeat split; try assumption.
    change (str_int (Z.neg q)) with ("-" +:+ pretty (N.pos q)). now rewrite Hq.
Qed.

Lemma int_of_digits (ds : string) (v : Z) :
  ds <> "" -> all_chars is_digit ds = true -> parse_digits ds 0 false = Some v ->
  int_of_string ds = Ok v /\ int_of_string ("-" +:+ ds) = Ok (- v).
Proof.
  intros Hne Hall Hv.
  destruct (digits_solid ds Hall) as [Hsolid _].
  split.
  - unfold int_of_string. rewrite (strip_int_solid ds Hsolid).
    destruct ds as [|c ds]; [congruence|].
    cbn [all_chars] in Hall. apply andb_true_iff in Hall as [Hc _].
    destruct (digit_facts c Hc) as (_ & _ & Hminus & Hplus).
    assert (Hsplit : match String c ds with
                     | String "-"%char r => ((-1)%Z, r)
                     | String "+"%char r => (1%Z, r)
                     | _ => (1%Z, String c ds)
                     end = (1%Z, String c ds)).
    { destruct c as [[] [] [] [] [] [] [] []]; try reflexivity; discriminate. }
    rewrite Hsplit. cbn [fst snd]. rewrite Hv. f_equal. lia.
  - unfold int_of_string.
    change ("-" +:+ ds) with (String "-"%char ds).
    rewrite (strip_int_solid (String "-"%char ds)).
    + cbn [fst snd]. rewrite Hv. f_equal; lia.
    + cbn [all_chars]. now rewrite Hsolid.
Qed.

(** An integer written by [str], with any white space around it, is read back
    by [int(x.strip())]. *)
Lemma int_strip_str_int (l r : string) (n : Z) :
  blank l -> blank r ->
  int (PStr (strip (l +:+ str_int n +:+ r))) = Ok n.
Proof.
  intros Hl Hr. destruct (str_int_shape n) as (ds & Hne & Hall & Hparse & Hstr).
  destruct (digits_solid ds Hall) as [Hsolid _].
  destruct (int_of_digits ds _ Hne Hall Hparse) as [Hplus Hminus].
  rewrite Hstr. cbn [int].
  destruct (n <? 0)%Z eqn:E.
  - rewrite strip_padded; [|exact Hl|exact Hr|].
    + rewrite Hminus. f_equal. apply Z.ltb_lt in E. lia.
    + change ("-" +:+ ds) with (String "-"%char ds). cbn [all_chars]. now rewrite Hsolid.
  - rewrite strip_padded; [|exact Hl|exact Hr|exact Hsolid].
    rewrite Hplus. f_equal. apply Z.ltb_ge in E. lia.
Qed.

Lemma str_int_no_comma (n : Z) :
  all_chars (fun c => negb (Ascii.eqb c ","%char)) (str_int n) = true.
Proof.
  destruct (str_int_shape n) as (ds & _ & Hall & _ & ->).
  destruct (digits_solid ds Hall) as [_ Hc].
  destruct (n <? 0)%Z; [|exact Hc].
  change ("-" +:+ ds) with (String "-"%char ds). cbn [all_chars]. now rewrite Hc.
Qed.

End NumberFacts.

(** ** The command line *)

Lemma command_arguments_are_plain_args
    (to_cli_string : gmap string pyval -> string) (pa : PerfAnalyzer) :
  exists args,
    command_of to_cli_string pa = bin_path pa :: args
    /\ Forall plain_token args.
Proof.
  eexists. split; [reflexivity|].
  unfold plain_token, split.
  apply (TextFacts.split_go_tokens (fun c => negb (Ascii.eqb c "="%char))).
  - apply TextFacts.replace_char_clean.
  - exact I.
Qed.

(** X1.  Whatever the configuration renders to, the command line [run] builds
    is the executable followed by arguments none of which is empty, holds
    white space or holds an equals sign: [--flag=value] always goes out as two
    arguments, and a value that holds white space or an equals sign is cut
    there. *)
Theorem command_arguments_are_plain
    (to_cli_string : gmap string pyval -> string) (pa : PerfAnalyzer) :
  exists args,
    command_of to_cli_string pa = bin_path pa :: args
    /\ Forall plain_token args.
Proof. apply command_arguments_are_plain_args. Qed.

(** ** The list of batch sizes *)

Module BatchSizeFacts.

Import TextFacts NumberFacts.

Lemma comprehension_app {A B} (f : A -> result B) (l1 l2 : list A) :
  comprehension f (l1 ++ l2) =
  match comprehension f l1 with
  | Ok ys1 =>
      match comprehension f l2 with
      | Ok ys2 => Ok (ys1 ++ ys2)%list
      | Raise e => Raise e
      end
  | Raise e => Raise e
  end.
Proof.
  induction l1 as [|x l1 IH]; cbn [comprehension app].
  - now destruct (comprehension f l2).
  - destruct (f x); [|reflexivity]. rewrite IH.
    destruct (comprehension f l1); [|reflexivity].
    now destruct (comprehension f l2).
Qed.

Lemma int_of_string_raises (s : string) (e : exn) :
  int_of_string s = Raise e -> e = ValueError.
Proof.
  unfold int_of_string. destruct (parse_digits _ _ _); [discriminate|]. now intros [= <-].
Qed.

(** The only exception reading the pieces can raise is [ValueError]. *)
Lemma pieces_raise_value_error (l : list string) (e : exn) :
  comprehension (fun x => int (PStr (strip x))) l = Raise e -> e = ValueError.
Proof.
  induction l as [|x l IH]; cbn [comprehension]; [discriminate|].
  cbn [int]. destruct (int_of_string (strip x)) eqn:E.
  - destruct (comprehension _ l); [discriminate|]. intros [= <-]. now apply IH.
  - intros [= <-]. now apply int_of_string_raises in E.
Qed.

Lemma blank_no_comma (s : string) :
  blank s -> all_chars (fun c => negb (Ascii.eqb c ","%char)) s = true.
Proof.
  apply all_chars_impl. intros c Hc.
  destruct c as [[] [] [] [] [] [] [] []]; try reflexivity; discriminate Hc.
Qed.

Lemma written_no_comma (x : padded_number) :
  well_padded x -> all_chars (fun c => negb (Ascii.eqb c ","%char)) (written x) = true.
Proof.
  intros [Hb Ha]. unfold written.
  now rewrite !all_chars_append, (blank_no_comma _ Hb), (blank_no_comma _ Ha),
    str_int_no_comma.
Qed.

Lemma read_written (l : list padded_number) :
  Forall well_padded l ->
  comprehension (fun x => int (PStr (strip x))) (map written l) = Ok (map number l).
Proof.
  induction 1 as [|x l [Hb Ha] _ IH]; cbn [comprehension map]; [reflexivity|].
  unfold written at 1. rewrite (int_strip_str_int _ _ _ Hb Ha). now rewrite IH.
Qed.

End BatchSizeFacts.

(** X2.  Round trip of the batch-size list: a non-empty list of integers,
    each written in decimal with any white space around it and joined by
    commas, is parsed back to the same integers in the same order, duplicates
    and negative numbers included. *)
Theorem parse_batch_sizes_round_trip (x : padded_number) (l : list padded_number) :
  Forall well_padded (x :: l) ->
  _parse_batch_sizes (String.concat "," (map written (x :: l)))
  = Ok (map number (x :: l)).
Proof.
  intros H. unfold _parse_batch_sizes.
  change (map written (x :: l)) with (written x :: map written l).
  rewrite TextFacts.split_on_join.
  - apply (BatchSizeFacts.read_written (x :: l) H).
  - change (written x :: map written l) with (map written (x :: l)).
    apply Forall_map. eapply Forall_impl; [exact H|].
    intros y Hy. now apply BatchSizeFacts.written_no_comma.
Qed.

(** The list "8, 2 ,2,-4". *)
Lemma parse_batch_sizes_round_trip_witness :
  _parse_batch_sizes "8, 2 ,2,-4" = Ok [8; 2; 2; -4].
Proof.
  exact (parse_batch_sizes_round_trip
           {| before := ""; number := 8; after := "" |}
           [ {| before := " "; number := 2; after := " " |};
             {| before := ""; number := 2; after := "" |};
             {| before := ""; number := -4; after := "" |} ]
           ltac:(repeat constructor)).
Defined.

(** X3.  A list of batch sizes with an empty piece is refused: a text that
    ends or starts with a comma, and a text of white space alone (the empty
    text included), make [_parse_batch_sizes] raise [ValueError]. *)
Theorem parse_batch_sizes_rejects_empty_piece (s : string) :
  _parse_batch_sizes (s +:+ ",") = Raise ValueError
  /\ _parse_batch_sizes ("," +:+ s) = Raise ValueError
  /\ (blank s -> _parse_batch_sizes s = Raise ValueError).
Proof.
  unfold _parse_batch_sizes. split; [|split].
  - unfold split_on. rewrite TextFacts.split_on_go_trailing.
    rewrite BatchSizeFacts.comprehension_app.
    destruct (comprehension _ (split_on_go _ s "")) eqn:E; [reflexivity|].
    f_equal. now apply BatchSizeFacts.pieces_raise_value_error in E.
  - reflexivity.
  - intros Hs. unfold split_on.
    rewrite (proj1 (TextFacts.split_on_go_piece ","%char s ""
                      (BatchSizeFacts.blank_no_comma s Hs))).
    change ("" +:+ s) with s. cbn [comprehension int].
    assert (Hstrip : strip s = "").
    { pose proof (TextFacts.strip_padded s "" "" Hs eq_refl eq_refl) as H.
      change ("" +:+ "") with "" in H. now rewrite append_empty_r in H. }
    now rewrite Hstrip.
Qed.

(** The text of two spaces. *)
Lemma parse_batch_sizes_rejects_empty_piece_witness :
  blank "  " /\ _parse_batch_sizes "  " = Raise ValueError
  /\ _parse_batch_sizes "8,2," = Raise ValueError.
Proof.
  split; [reflexivity|]. split.
  - apply (proj2 (proj2 (parse_batch_sizes_rejects_empty_piece "  "))). reflexivity.
  - exact (proj1 (parse_batch_sizes_rejects_empty_piece "8,2")).
Defined.

(** ** What [run] changes *)

Module FrameFacts.

Lemma same_but_adapted_refl (c : gmap string pyval) : same_but_adapted c c.
Proof. now split. Qed.

Lemma adapted_key_not_mode (c : gmap string pyval) :
  adapted_key c <> "measurement-mode".
Proof. unfold adapted_key. destruct (count_based c); discriminate. Qed.

Lemma same_but_adapted_key (c c' : gmap string pyval) :
  same_but_adapted c c' -> adapted_key c' = adapted_key c.
Proof. intros [H _]. unfold adapted_key. now rewrite H. Qed.

Lemma same_but_adapted_trans (c1 c2 c3 : gmap string pyval) :
  same_but_adapted c1 c2 -> same_but_adapted c2 c3 -> same_but_adapted c1 c3.
Proof.
  intros H12 H23. pose proof (same_but_adapted_key _ _ H12) as Hk.
  destruct H12 as [Hm12 H12], H23 as [Hm23 H23]. split; [congruence|].
  intros key Hkey. rewrite H23 by congruence. now apply H12.
Qed.

Lemma same_setup_refl (pa : PerfAnalyzer) : same_setup pa pa.
Proof. repeat split. Qed.

Lemma same_setup_trans (p1 p2 p3 : PerfAnalyzer) :
  same_setup p1 p2 -> same_setup p2 p3 -> same_setup p1 p3.
Proof.
  intros (? & ? & ? & ?) (? & ? & ? & ?).
  repeat split; try congruence.
  all: eapply same_but_adapted_trans; eassumption.
Qed.

Lemma same_but_adapted_insert (c : gmap string pyval) (v : pyval) :
  same_but_adapted c (<[adapted_key c := v]> c).
Proof.
  split.
  - unfold count_based, getitem.
    now rewrite lookup_insert_ne by apply adapted_key_not_mode.
  - intros key Hkey. now rewrite lookup_insert_ne by congruence.
Qed.

(** [self._config[key] += delta] on the parameter the mode selects. *)
Lemma iadd_config_frame (delta : Z) (s : ctl) :
  let s' := snd (iadd_config (adapted_key (_config (self s))) delta s) in
  same_setup (self s) (self s')
  /\ env s' = env s /\ _output (self s') = _output (self s).
Proof.
  unfold iadd_config, bind, gets, lift_result.
  destruct (add_int _ _); cbn.
  - repeat split. all: apply same_but_adapted_insert.
  - repeat split.
Qed.

Lemma except_frame (rc : Z) (cmd : list string) (o : option string) (s : ctl) :
  same_setup (self s) (self (snd (except_CalledProcessError rc cmd o s))).
Proof.
  unfold except_CalledProcessError, bind, lift_result.
  destruct (_faild_with_measruement_inverval o) as [r|e]; [|apply same_setup_refl].
  destruct (truthy r); [|apply same_setup_refl].
  unfold gets. cbn [self].
  unfold _increase_request_count, _increase_time_interval.
  destruct (is_None _ || eq_str _ _) eqn:E.
  - pose proof (iadd_config_frame COUNT_INTERVAL_DELTA s) as [Hc _].
    unfold adapted_key, count_based in Hc. rewrite E in Hc.
    destruct (iadd_config _ _ s) as [[|] s']; exact Hc.
  - pose proof (iadd_config_frame TIME_INTERVAL_DELTA s) as [Ht _].
    unfold adapted_key, count_based in Ht. rewrite E in Ht.
    destruct (iadd_config _ _ s) as [[|] s']; exact Ht.
Qed.

Section Frame.

Variable tool : nat -> list string -> behaviour.
Variable to_cli_string : gmap string pyval -> string.

Lemma same_setup_with_output (o : option string) (pa : PerfAnalyzer) :
  same_setup pa (with_output o pa).
Proof. repeat split. Qed.

Lemma attempt_frame (pa : PerfAnalyzer) (w : world) :
  (_stream_output pa = true -> is_Some (_output pa)) ->
  same_setup pa (self (snd (attempt tool to_cli_string {| self := pa; env := w |}))).
Proof.
  intros Hready. destruct (_stream_output pa) eqn:Hs.
  - destruct (Hready eq_refl) as [acc Hacc].
    rewrite (attempt_stream_exec tool to_cli_string pa w acc Hs Hacc).
    destruct (exit_status _ =? 0)%Z; [apply same_setup_with_output|].
    match goal with |- context [except_CalledProcessError ?rc ?cmd ?o ?s] =>
      apply (same_setup_trans pa (self s));
        [apply same_setup_with_output | apply except_frame] end.
  - rewrite (attempt_buffered tool to_cli_string pa w Hs).
    destruct (b_ending _) as [c|]; [|apply same_setup_refl].
    destruct (c =? 0)%Z; [apply same_setup_with_output|].
    apply (except_frame c _ _ {| self := pa; env := _ |}).
Qed.

Lemma run_loop_frame (m : nat) (s : ctl) :
  (_stream_output (self s) = true -> is_Some (_output (self s))) ->
  same_setup (self s) (self (snd (run_loop tool to_cli_string m s))).
Proof.
  revert s. induction m as [|m IH]; intros [pa w] Hready; [apply same_setup_refl|].
  cbn [PerfAnalyzerPy.run_loop]. unfold bind.
  pose proof (attempt_frame pa w Hready) as Hframe.
  destruct (attempt_spawns tool to_cli_string pa w Hready) as (_ & Hst & Hout).
  cbn [self] in *.
  destruct (attempt tool to_cli_string {| self := pa; env := w |}) as [[[|]|e] s'];
    cbn [snd] in *; try exact Hframe.
  eapply same_setup_trans; [exact Hframe|]. apply IH. rewrite Hst. exact Hout.
Qed.

End Frame.

End FrameFacts.

(** X4.  Whatever the tool does and however the call ends, [run] leaves the
    executable, the timeout and the capture mode as they were and changes no
    parameter of the configuration other than the one the measurement mode
    selects (the request count when the mode is unset or count-based, the
    window otherwise); the measurement mode itself is never changed. *)
Theorem run_changes_one_parameter
    (tool : nat -> list string -> behaviour)
    (to_cli_string : gmap string pyval -> string) (s : ctl) :
  let after := self (snd (run tool to_cli_string s)) in
  bin_path after = bin_path (self s)
  /\ _timeout after = _timeout (self s)
  /\ _stream_output after = _stream_output (self s)
  /\ getitem (_config after) "measurement-mode"
     = getitem (_config (self s)) "measurement-mode"
  /\ forall key, key <> adapted_key (_config (self s)) ->
                 _config after !! key = _config (self s) !! key.
Proof.
  destruct s as [pa w]. cbv zeta. cbn [self]. rewrite run_eq.
  pose proof (FrameFacts.run_loop_frame tool to_cli_string
                (Z.to_nat MAX_INTERVAL_CHANGES)
                {| self := if _stream_output pa then with_output (Some "") pa else pa;
                   env := w |}) as H.
  cbn [self] in H.
  assert (Hsame : same_setup pa
            (self (snd (run_loop tool to_cli_string (Z.to_nat MAX_INTERVAL_CHANGES)
               {| self := if _stream_output pa then with_output (Some "") pa else pa;
                  env := w |})))).
  { destruct (_stream_output pa) eqn:Hs.
    - apply H. intros _. now exists "".
    - apply H. congruence. }
  destruct Hsame as (Hb & Ht & Hst & Hmode & Hkeys).
  repeat split; try assumption.
  unfold getitem. rewrite Hkeys; [reflexivity|].
  intros E. symmetry in E. now apply FrameFacts.adapted_key_not_mode in E.
Qed.

(** ** Retries, counted *)

Module RetryFacts.

Lemma iter_adapt_value (c : gmap string pyval) (v : Z) (k : nat) :
  getitem c (adapted_key c) = PInt v ->
  count_based (Nat.iter k adapt c) = count_based c
  /\ getitem (Nat.iter k adapt c) (adapted_key c)
     = PInt (v + Z.of_nat k * adapted_delta c).
Proof.
  intros Hv. induction k as [|k [IHm IHv]].
  - change (Nat.iter 0 adapt c) with c. split; [reflexivity|]. rewrite Hv. f_equal. lia.
  - change (Nat.iter (S k) adapt c) with (adapt (Nat.iter k adapt c)).
    set (c' := Nat.iter k adapt c) in *.
    assert (Hkey : adapted_key c' = adapted_key c)
      by (unfold adapted_key; now rewrite IHm).
    assert (Hdelta : adapted_delta c' = adapted_delta c)
      by (unfold adapted_delta; now rewrite IHm).
    unfold adapt. rewrite Hkey, IHv, Hdelta. split.
    + unfold count_based, getitem.
      now rewrite lookup_insert_ne by apply FrameFacts.adapted_key_not_mode.
    + rewrite getitem_insert. f_equal. lia.
Qed.

Section Retry.

Variable tool : nat -> list string -> behaviour.
Variable to_cli_string : gmap string pyval -> string.
Variable pa : PerfAnalyzer.

Local Abbreviation run_loop := (run_loop tool to_cli_string).
Local Abbreviation argv_of := (argv_of to_cli_string).
Local Abbreviation stream := (_stream_output pa).

(** A retryable failure uses up one pass and one process and hands the
    adapted configuration to the next pass. *)
Lemma retry_step (m : nat) (c : gmap string pyval) (o : option string) (w : world)
    (acc : string) :
  (stream = true -> o = Some acc) ->
  let b := exec tool (length (w_spawned w)) (argv_of (with_config c pa)) in
  let text := gathered stream acc b in
  fails stream b -> classified_retryable text -> adaptable c ->
  exists o' w',
    run_loop (S m) (at_state pa c o w) = run_loop m (at_state pa (adapt c) o' w')
    /\ length (w_spawned w') = S (length (w_spawned w))
    /\ (stream = true -> o' = Some text).
Proof.
  intros Ho b text Hfail Hcls Hadapt. subst text. unfold gathered in *.
  unfold at_state. cbn [PerfAnalyzerPy.run_loop]. unfold bind.
  destruct stream eqn:Hs.
  - rewrite (Ho eq_refl).
    rewrite (attempt_stream_exec tool to_cli_string
               (with_output (Some acc) (with_config c pa)) w acc Hs eq_refl).
    change (Spec.argv_of to_cli_string (with_output (Some acc) (with_config c pa)))
      with (argv_of (with_config c pa)).
    fold b.
    apply fails_exit_status in Hfail; [|reflexivity].
    apply Z.eqb_neq in Hfail. rewrite Hfail.
    rewrite (except_retry _ _ _
               (with_output (Some (acc +:+ stdout_text b)) (with_config c pa))
               _ Hcls Hadapt).
    exists (Some (acc +:+ stdout_text b)),
      (printed (echo b) (started (argv_of (with_config c pa)) (b_writes b) w)).
    split; [reflexivity|]. split; [|reflexivity].
    apply (proj1 (spawned_after_attempt _ _ _ _)).
  - rewrite (attempt_buffered tool to_cli_string (with_output o (with_config c pa)) w Hs).
    change (Spec.argv_of to_cli_string (with_output o (with_config c pa)))
      with (argv_of (with_config c pa)).
    fold b. unfold fails in Hfail.
    destruct (b_ending b) as [code|]; [|discriminate].
    apply Z.eqb_neq in Hfail. rewrite Hfail.
    rewrite (except_retry _ _ _ (with_output o (with_config c pa)) _ Hcls Hadapt).
    exists o, (started (argv_of (with_config c pa)) (b_writes b) w).
    split; [reflexivity|]. split; [|discriminate].
    apply (proj2 (spawned_after_attempt _ [] _ _)).
Qed.

(** A success ends the loop with the configuration of that attempt. *)
Lemma success_step (m : nat) (c : gmap string pyval) (o : option string) (w : world)
    (acc : string) :
  (stream = true -> o = Some acc) ->
  succeeds (exec tool (length (w_spawned w)) (argv_of (with_config c pa))) ->
  exists o' w',
    run_loop (S m) (at_state pa c o w) = (Ok tt, at_state pa c o' w')
    /\ length (w_spawned w') = S (length (w_spawned w)).
Proof.
  intros Ho Hok. unfold succeeds in Hok.
  unfold at_state. cbn [PerfAnalyzerPy.run_loop]. unfold bind.
  destruct stream eqn:Hs.
  - rewrite (Ho eq_refl).
    rewrite (attempt_stream_exec tool to_cli_string
               (with_output (Some acc) (with_config c pa)) w acc Hs eq_refl).
    change (Spec.argv_of to_cli_string (with_output (Some acc) (with_config c pa)))
      with (argv_of (with_config c pa)).
    unfold exit_status. rewrite Hok. cbn [Z.eqb].
    eexists _, _. split; [reflexivity|].
    apply (proj1 (spawned_after_attempt _ _ _ _)).
  - rewrite (attempt_buffered tool to_cli_string (with_output o (with_config c pa)) w Hs).
    change (Spec.argv_of to_cli_string (with_output o (with_config c pa)))
      with (argv_of (with_config c pa)).
    rewrite Hok. cbn [Z.eqb].
    eexists _, _. split; [reflexivity|].
    apply (proj2 (spawned_after_attempt _ [] _ _)).
Qed.

Lemma run_loop_fail_then_succeed (k : nat) :
  forall (m : nat) (c : gmap string pyval) (o : option string) (w : world) (acc : string),
    (stream = true -> o = Some acc) ->
    fail_then_succeed tool to_cli_string pa k c (length (w_spawned w)) acc ->
    exists s',
      run_loop (S k + m) (at_state pa c o w) = (Ok tt, s')
      /\ length (w_spawned (env s')) = (length (w_spawned w) + S k)%nat
      /\ _config (self s') = Nat.iter k adapt c.
Proof.
  induction k as [|k IH]; intros m c o w acc Ho H.
  - cbn [fail_then_succeed] in H.
    destruct (success_step m c o w acc Ho H) as (o' & w' & Hrun & Hlen).
    eexists. split; [exact Hrun|]. cbn [env self at_state]. split; [lia | reflexivity].
  - cbn [fail_then_succeed] in H. destruct H as (Hfail & Hcls & Hadapt & Hrest).
    destruct (retry_step (S k + m) c o w acc Ho Hfail Hcls Hadapt)
      as (o' & w' & Hrun & Hlen & Ho').
    rewrite <- Hlen in Hrest.
    destruct (IH m (adapt c) o' w' _ Ho' Hrest) as (s' & Hrun' & Hlen' & Hc').
    exists s'. change (S (S k) + m)%nat with (S (S k + m)).
    rewrite Hrun, Hrun'. split; [reflexivity|]. split; [lia|].
    rewrite Hc'. symmetry. apply Nat.iter_succ_r.
Qed.

Lemma run_loop_exhausts_config (m : nat) :
  forall (c : gmap string pyval) (o : option string) (w : world) (acc : string),
    (stream = true -> o = Some acc) ->
    all_fail_retryably tool to_cli_string pa m c (length (w_spawned w)) acc ->
    _config (self (snd (run_loop m (at_state pa c o w)))) = Nat.iter m adapt c.
Proof.
  induction m as [|m IH]; intros c o w acc Ho H; [reflexivity|].
  cbn [all_fail_retryably] in H. destruct H as (Hfail & Hcls & Hadapt & Hrest).
  destruct (retry_step m c o w acc Ho Hfail Hcls Hadapt) as (o' & w' & Hrun & Hlen & Ho').
  rewrite <- Hlen in Hrest.
  rewrite Hrun, (IH (adapt c) o' w' _ Ho' Hrest). symmetry. apply Nat.iter_succ_r.
Qed.

Lemma run_from_state (w : world) :
  run tool to_cli_string {| self := pa; env := w |} =
  run_loop 10 (at_state pa (_config pa) (if stream then Some "" else _output pa) w).
Proof.
  rewrite run_eq. change (Z.to_nat MAX_INTERVAL_CHANGES) with 10%nat.
  unfold at_state. f_equal. f_equal.
  destruct pa as [bp cf ou [|] tm]; reflexivity.
Qed.

End Retry.

End RetryFacts.

(** X5.  When the first [k] attempts of a call (with [k] below ten) fail in the
    way the code retries and the next attempt succeeds, [run] returns normally
    after exactly [k + 1] processes, and the parameter the measurement mode
    selects has grown by [k] times its step (50 requests or 2000 ms): every
    retry adapts once, a success adapts nothing. *)
Theorem run_succeeds_after_retries
    (tool : nat -> list string -> behaviour)
    (to_cli_string : gmap string pyval -> string) (s : ctl) (k : nat) (v : Z) :
  (k < 10)%nat ->
  getitem (_config (self s)) (adapted_key (_config (self s))) = PInt v ->
  fail_then_succeed tool to_cli_string (self s) k (_config (self s))
    (length (w_spawned (env s))) "" ->
  let out := run tool to_cli_string s in
  fst out = Ok tt
  /\ length (spawned_since (env s) (env (snd out))) = S k
  /\ getitem (_config (self (snd out))) (adapted_key (_config (self s)))
     = PInt (v + Z.of_nat k * adapted_delta (_config (self s))).
Proof.
  intros Hk Hv H. destruct s as [pa w]. cbn [self env] in *. cbv zeta.
  destruct (run_spawns tool to_cli_string {| self := pa; env := w |})
    as (new & Hnew & _). cbn [env] in Hnew.
  rewrite RetryFacts.run_from_state in *.
  replace 10%nat with (S k + (9 - k))%nat in * by lia.
  destruct (RetryFacts.run_loop_fail_then_succeed tool to_cli_string pa k (9 - k)
              (_config pa) (if _stream_output pa then Some "" else _output pa) w ""
              ltac:(intros ->; reflexivity) H) as (s' & Hrun & Hlen & Hc).
  rewrite Hrun in *. cbn [fst snd] in *. split; [reflexivity|]. split.
  - unfold spawned_since. rewrite Hnew, drop_app_length.
    rewrite Hnew, length_app in Hlen. lia.
  - rewrite Hc. apply (RetryFacts.iter_adapt_value _ _ _ Hv).
Qed.

(** One request for a larger window, then success, in buffered mode. *)
Lemma run_succeeds_after_retries_witness :
  let tool := scripted [says "Please use a larger time window" (Exited 1)]
                (says "ok" (Exited 0)) in
  let out := run tool cli (fresh window_config false) in
  fst out = Ok tt
  /\ length (spawned_since fresh_world (env (snd out))) = 2%nat
  /\ getitem (_config (self (snd out))) "measurement-interval" = PInt (10000 + 1 * 2000).
Proof.
  cbv zeta.
  apply (run_succeeds_after_retries
           (scripted [says "Please use a larger time window" (Exited 1)]
              (says "ok" (Exited 0)))
           cli (fresh window_config false) 1 10000).
  - lia.
  - reflexivity.
  - cbn [fail_then_succeed]. split; [vm_compute; discriminate|].
    split; [eexists; split; vm_compute; reflexivity|].
    split; [eexists; vm_compute; reflexivity|]. reflexivity.
Defined.

(** X6.  When all ten attempts fail in the way the code retries, the parameter
    the measurement mode selects ends ten steps above its initial value: the
    tenth failure adapts it once more although no eleventh attempt follows,
    so the last value was never tried. *)
Theorem exhaustion_adapts_ten_times
    (tool : nat -> list string -> behaviour)
    (to_cli_string : gmap string pyval -> string) (s : ctl) (v : Z) :
  getitem (_config (self s)) (adapted_key (_config (self s))) = PInt v ->
  all_fail_retryably tool to_cli_string (self s) 10 (_config (self s))
    (length (w_spawned (env s))) "" ->
  getitem (_config (self (snd (run tool to_cli_string s))))
    (adapted_key (_config (self s)))
  = PInt (v + 10 * adapted_delta (_config (self s))).
Proof.
  intros Hv H. destruct s as [pa w]. cbn [self env] in *.
  rewrite RetryFacts.run_from_state.
  rewrite (RetryFacts.run_loop_exhausts_config tool to_cli_string pa 10
             (_config pa) (if _stream_output pa then Some "" else _output pa) w ""
             ltac:(intros ->; reflexivity) H).
  apply (RetryFacts.iter_adapt_value _ _ 10 Hv).
Qed.

(** Ten requests for a larger window: the window ends at 30000 ms, and the
    last process ran with 28000. *)
Lemma exhaustion_adapts_ten_times_witness :
  let tool := always (says "Please use a larger time window" (Exited 1)) in
  let out := run tool cli (fresh window_config false) in
  getitem (_config (self (snd out))) "measurement-interval" = PInt (10000 + 10 * 2000)
  /\ nth 9 (w_spawned (env (snd out))) [] =
       ["perf_analyzer"; "-m"; "resnet"; "--measurement-mode"; "time_windows";
        "--measurement-interval"; "28000"].
Proof.
  cbv zeta. split.
  - apply (exhaustion_adapts_ten_times
             (always (says "Please use a larger time window" (Exited 1))) cli
             (fresh window_config false) 10000 eq_refl).
    cbn [all_fail_retryably].
    repeat (split; [vm_compute; discriminate|];
            split; [eexists; split; vm_compute; reflexivity|];
            split; [eexists; vm_compute; reflexivity|]).
    exact I.
  - vm_compute. reflexivity.
Defined.

(** ** Output and echo, by capture mode *)

Module CaptureFacts.

(** The [except] clause never ends the call normally. *)
Lemma except_not_return (rc : Z) (cmd : list string) (o : option string) (s : ctl) :
  fst (except_CalledProcessError rc cmd o s) <> Ok Return.
Proof.
  unfold except_CalledProcessError, bind, lift_result.
  destruct (_faild_with_measruement_inverval o) as [r|e]; [|discriminate].
  destruct (truthy r); [|discriminate].
  unfold gets. cbn [self].
  destruct (is_None _ || eq_str _ _);
    unfold _increase_request_count, _increase_time_interval, iadd_config, bind, gets,
      lift_result; cbn [self];
    destruct (add_int _ _); cbn; discriminate.
Qed.

Section Capture.

Variable tool : nat -> list string -> behaviour.
Variable to_cli_string : gmap string pyval -> string.

Lemma echoes_from_cons (n : nat) (argv : list string) (rest : list (list string)) :
  echoes_from tool n (argv :: rest) =
  (echo (exec tool n argv) ++ echoes_from tool (S n) rest)%list.
Proof.
  unfold echoes_from. rewrite imap_cons, Nat.add_0_r. cbn [List.concat]. do 2 f_equal.
  apply imap_ext. intros i x _. cbn. now rewrite Nat.add_succ_r.
Qed.

(** In buffered mode nothing is printed, a call that returns normally has
    stored the whole text of the last process, and a call that raises has
    stored nothing. *)
Lemma run_loop_buffered (m : nat) :
  forall (pa : PerfAnalyzer) (w : world),
    _stream_output pa = false ->
    let out := run_loop tool to_cli_string m {| self := pa; env := w |} in
    w_stdout (env (snd out)) = w_stdout w
    /\ (fst out = Ok tt ->
        exists argv,
          last (w_spawned (env (snd out))) = Some argv
          /\ _output (self (snd out))
             = Some (combined_text
                       (exec tool (length (w_spawned (env (snd out))) - 1) argv)))
    /\ (fst out <> Ok tt -> _output (self (snd out)) = _output pa).
Proof.
  induction m as [|m IH]; intros pa w Hs; cbv zeta.
  - cbn. split; [reflexivity|]. split; [discriminate | reflexivity].
  - cbn [PerfAnalyzerPy.run_loop]. unfold bind.
    rewrite (attempt_buffered tool to_cli_string pa w Hs).
    set (argv := argv_of to_cli_string pa).
    set (b := exec tool (length (w_spawned w)) argv).
    destruct (b_ending b) as [c|].
    + destruct (c =? 0)%Z.
      * unfold ret. cbn [fst snd env self _output with_output started w_spawned w_stdout].
        split; [reflexivity|]. split; [|congruence].
        intros _. exists argv. rewrite last_snoc. split; [reflexivity|].
        rewrite length_app. cbn [length].
        replace (length (w_spawned w) + 1 - 1)%nat with (length (w_spawned w)) by lia.
        reflexivity.
      * set (s1 := {| self := pa; env := started argv (b_writes b) w |}).
        destruct (except_env c argv (Some (combined_text b)) s1) as (Henv & Hout & Hst).
        pose proof (except_not_return c argv (Some (combined_text b)) s1) as Hnr.
        destruct (except_CalledProcessError c argv (Some (combined_text b)) s1)
          as [[[|]|e] s2]; subst s1; cbn [fst snd self env] in *.
        -- congruence.
        -- destruct s2 as [pa2 w2]. cbn [self env] in *.
           destruct (IH pa2 w2) as (Hstd & Hok & Herr); [congruence|].
           split; [rewrite Hstd, Henv; reflexivity|]. split; [exact Hok|].
           intros H. rewrite (Herr H). exact Hout.
        -- rewrite Henv, Hout. split; [reflexivity|]. split; [discriminate|reflexivity].
    + cbn. repeat split. discriminate.
Qed.

(** In streamed mode everything the processes write to standard output is
    echoed, line by line. *)
Lemma run_loop_echoes (m : nat) :
  forall (pa : PerfAnalyzer) (w : world) (acc : string),
    _stream_output pa = true -> _output pa = Some acc ->
    let out := run_loop tool to_cli_string m {| self := pa; env := w |} in
    exists new,
      w_spawned (env (snd out)) = (w_spawned w ++ new)%list
      /\ w_stdout (env (snd out))
         = (w_stdout w ++ echoes_from tool (length (w_spawned w)) new)%list.
Proof.
  induction m as [|m IH]; intros pa w acc Hs Hacc; cbv zeta.
  - exists []. cbn. now rewrite !app_nil_r.
  - cbn [PerfAnalyzerPy.run_loop]. unfold bind.
    rewrite (attempt_stream_exec tool to_cli_string pa w acc Hs Hacc).
    set (argv := argv_of to_cli_string pa).
    set (b := exec tool (length (w_spawned w)) argv).
    set (s1 := {| self := with_output (Some (acc +:+ stdout_text b)) pa;
                  env := printed (echo b) (started argv (b_writes b) w) |}).
    assert (Hone : echoes_from tool (length (w_spawned w)) [argv] = echo b).
    { rewrite echoes_from_cons. cbn. apply app_nil_r. }
    destruct (exit_status b =? 0)%Z.
    + exists [argv]. unfold ret. cbn [fst snd]. rewrite Hone. now cbn.
    + destruct (except_env (exit_status b) argv (Some (acc +:+ stdout_text b)) s1)
        as (Henv & Hout & Hst).
      destruct (except_CalledProcessError (exit_status b) argv
                  (Some (acc +:+ stdout_text b)) s1)
        as [[[|]|e] s2]; unfold ret; cbn [fst snd] in *.
      * exists [argv]. rewrite Henv, Hone. now cbn.
      * destruct s2 as [pa2 w2]. cbn [self env] in *.
        destruct (IH pa2 w2 (acc +:+ stdout_text b)) as (new & Hnew & Hstd).
        { rewrite Hst. exact Hs. }
        { exact Hout. }
        exists (argv :: new).
        assert (Hlen : length (w_spawned w2) = S (length (w_spawned w))).
        { rewrite Henv. cbn. rewrite length_app. cbn. lia. }
        rewrite Hlen in Hstd. rewrite echoes_from_cons. fold b.
        rewrite Hnew, Hstd, Henv. cbn. now rewrite <- !app_assoc.
      * exists [argv]. rewrite Henv, Hone. now cbn.
Qed.

End Capture.

End CaptureFacts.

(** X7.  In buffered mode every attempt overwrites rather than appends: after
    a call that returns normally the stored output is the complete text
    (standard output and standard error) of the last process started, with
    nothing of the failed attempts before it; a call that raises stores
    nothing, so the stored output is what it was before the call. *)
Theorem buffered_output_is_last_attempt
    (tool : nat -> list string -> behaviour)
    (to_cli_string : gmap string pyval -> string) (s : ctl) :
  _stream_output (self s) = false ->
  let out := run tool to_cli_string s in
  (fst out = Ok tt ->
   exists argv,
     last (w_spawned (env (snd out))) = Some argv
     /\ _output (self (snd out))
        = Some (combined_text
                  (exec tool (length (w_spawned (env (snd out))) - 1) argv)))
  /\ (fst out <> Ok tt -> _output (self (snd out)) = _output (self s)).
Proof.
  intros Hs. destruct s as [pa w]. cbn [self env] in *. cbv zeta.
  rewrite run_eq, Hs.
  apply (CaptureFacts.run_loop_buffered tool to_cli_string
           (Z.to_nat MAX_INTERVAL_CHANGES) pa w Hs).
Qed.

(** A buffered run of two attempts: only the text of the second is stored. *)
Lemma buffered_output_is_last_attempt_witness :
  let tool := scripted [says "Please use a larger time window" (Exited 1)]
                (says "ok" (Exited 0)) in
  let out := run tool cli (fresh window_config false) in
  _output (self (snd out)) = Some "ok"
  /\ _output (self (snd (run (always (says "Please use a larger time window" (Exited 1)))
                           cli (fresh window_config false)))) = None.
Proof.
  cbv zeta. split.
  - destruct (proj1 (buffered_output_is_last_attempt
                       (scripted [says "Please use a larger time window" (Exited 1)]
                          (says "ok" (Exited 0)))
                       cli (fresh window_config false) eq_refl))
      as (argv & Hlast & Hout).
    + vm_compute. reflexivity.
    + rewrite Hout. vm_compute in Hlast. injection Hlast as <-. vm_compute. reflexivity.
  - rewrite (proj2 (buffered_output_is_last_attempt
                      (always (says "Please use a larger time window" (Exited 1)))
                      cli (fresh window_config false) eq_refl)).
    + reflexivity.
    + vm_compute. discriminate.
Defined.

(** X8.  What a call of [run] prints: in streamed mode, for every process it
    started, oldest first, each line of the process's standard output with the
    white space at its end removed; in buffered mode nothing. *)
Theorem run_echoes_streamed_lines
    (tool : nat -> list string -> behaviour)
    (to_cli_string : gmap string pyval -> string) (s : ctl) :
  let out := run tool to_cli_string s in
  w_stdout (env (snd out)) =
  (w_stdout (env s)
   ++ (if _stream_output (self s)
       then echoes_from tool (length (w_spawned (env s)))
              (spawned_since (env s) (env (snd out)))
       else []))%list.
Proof.
  destruct s as [pa w]. cbn [self env]. cbv zeta. rewrite run_eq.
  destruct (_stream_output pa) eqn:Hs.
  - destruct (CaptureFacts.run_loop_echoes tool to_cli_string
                (Z.to_nat MAX_INTERVAL_CHANGES) (with_output (Some "") pa) w ""
                Hs eq_refl) as (new & Hnew & Hstd).
    unfold spawned_since. rewrite Hnew, drop_app_length. exact Hstd.
  - rewrite app_nil_r.
    apply (CaptureFacts.run_loop_buffered tool to_cli_string
             (Z.to_nat MAX_INTERVAL_CHANGES) pa w Hs).
Qed.

(** ** The decision of the [except] clause *)

Module DecisionFacts.

Lemma except_type_error (rc : Z) (cmd : list string) (text : string)
    (pa : PerfAnalyzer) (w : world) :
  classified_retryable text ->
  not_a_number (getitem (_config pa) (adapted_key (_config pa))) ->
  except_CalledProcessError rc cmd (Some text) {| self := pa; env := w |} =
  (Raise TypeError, {| self := pa; env := w |}).
Proof.
  intros (r & Hr & Ht) Hnan.
  unfold except_CalledProcessError. unfold bind at 1. unfold lift_result.
  rewrite Hr, Ht. unfold bind at 1. unfold gets at 1. cbn [self].
  unfold adapted_key, count_based in Hnan. unfold bind at 1.
  destruct (is_None _ || eq_str _ _);
    unfold _increase_request_count, _increase_time_interval, iadd_config, bind, gets,
      lift_result; cbn [self];
    destruct (getitem _ _); cbn in Hnan |- *; try contradiction; reflexivity.
Qed.

Section FirstAttempt.

Variable tool : nat -> list string -> behaviour.
Variable to_cli_string : gmap string pyval -> string.

(** The first pass of [run] when the process fails. *)
Lemma first_failure (pa : PerfAnalyzer) (w : world) :
  let stream := _stream_output pa in
  let argv := argv_of to_cli_string pa in
  let b := exec tool (length (w_spawned w)) argv in
  fails stream b ->
  exists o' w',
    w_spawned w' = (w_spawned w ++ [argv])%list
    /\ run tool to_cli_string {| self := pa; env := w |} =
       let '(r, s') :=
         except_CalledProcessError (exit_status b) argv (Some (gathered stream "" b))
           {| self := with_output o' pa; env := w' |} in
       match r with
       | Ok Return => (Ok tt, s')
       | Ok Continue => run_loop tool to_cli_string 9 s'
       | Raise e => (Raise e, s')
       end.
Proof.
  intros stream argv b Hfail. subst stream argv.
  rewrite run_eq. change (Z.to_nat MAX_INTERVAL_CHANGES) with 10%nat.
  cbn [PerfAnalyzerPy.run_loop]. unfold bind, gathered.
  destruct (_stream_output pa) eqn:Hs.
  - rewrite (attempt_stream_exec tool to_cli_string (with_output (Some "") pa) w ""
               Hs eq_refl).
    change (argv_of to_cli_string (with_output (Some "") pa))
      with (argv_of to_cli_string pa).
    fold b. apply fails_exit_status in Hfail; [|reflexivity].
    apply Z.eqb_neq in Hfail. rewrite Hfail.
    exists (Some ("" +:+ stdout_text b)),
      (printed (echo b) (started (argv_of to_cli_string pa) (b_writes b) w)).
    split; [reflexivity|].
    set (r := except_CalledProcessError _ _ _ _) at 1.
    change (except_CalledProcessError _ _ _ _) with r.
    now destruct r as [[[|]|e] s'].
  - rewrite (attempt_buffered tool to_cli_string pa w Hs). fold b.
    unfold fails in Hfail. unfold exit_status.
    destruct (b_ending b) as [code|]; [|discriminate].
    apply Z.eqb_neq in Hfail. rewrite Hfail.
    exists (_output pa), (started (argv_of to_cli_string pa) (b_writes b) w).
    split; [reflexivity|]. rewrite with_output_same.
    set (r := except_CalledProcessError _ _ _ _) at 1.
    change (except_CalledProcessError _ _ _ _) with r.
    now destruct r as [[[|]|e] s'].
Qed.

End FirstAttempt.

End DecisionFacts.

(** X9.  What the [except] clause of [run] does with the captured text of a
    failed process, for a configuration whose adapted parameter is an
    integer: it adapts the parameter and lets the loop go on exactly when the
    text does not begin with "Failed to obtain stable measurement" or contains
    "Please use a larger time window"; for a text that begins with the first
    message and lacks the second it raises the exception of a failed process
    and leaves object and world as they are. *)
Theorem except_clause_decision (rc : Z) (cmd : list string) (text : string)
    (pa : PerfAnalyzer) (w : world) :
  adaptable (_config pa) ->
  (startswith text UNSTABLE = false \/ contains text LARGER_WINDOW ->
   except_CalledProcessError rc cmd (Some text) {| self := pa; env := w |}
   = (Ok Continue, {| self := with_config (adapt (_config pa)) pa; env := w |}))
  /\ (startswith text UNSTABLE = true /\ ~ contains text LARGER_WINDOW ->
      except_CalledProcessError rc cmd (Some text) {| self := pa; env := w |}
      = (Raise (ModelNavigatorException (ProcessFailed cmd rc (Some text))),
         {| self := pa; env := w |})).
Proof.
  intros Hadapt. split.
  - intros H. apply except_retry; [|exact Hadapt].
    now apply classified_retryable_iff.
  - intros [Hp Hn]. apply except_fatal.
    now apply unstable_prefix_not_retryable.
Qed.

(** A text with the first message in the middle, and one with it at the
    start. *)
Lemma except_clause_decision_witness :
  let pa := analyzer count_config false in
  except_CalledProcessError 1 ["perf_analyzer"]
    (Some "Error: Failed to obtain stable measurement") {| self := pa; env := fresh_world |}
  = (Ok Continue, {| self := with_config (adapt count_config) pa; env := fresh_world |})
  /\ except_CalledProcessError 1 ["perf_analyzer"]
       (Some "Failed to obtain stable measurement") {| self := pa; env := fresh_world |}
     = (Raise (ModelNavigatorException
                 (ProcessFailed ["perf_analyzer"] 1
                    (Some "Failed to obtain stable measurement"))),
        {| self := pa; env := fresh_world |}).
Proof.
  cbv zeta. split.
  - apply (proj1 (except_clause_decision 1 ["perf_analyzer"]
                    "Error: Failed to obtain stable measurement"
                    (analyzer count_config false) fresh_world
                    ltac:(eexists; vm_compute; reflexivity))).
    left. reflexivity.
  - apply (proj2 (except_clause_decision 1 ["perf_analyzer"]
                    "Failed to obtain stable measurement"
                    (analyzer count_config false) fresh_world
                    ltac:(eexists; vm_compute; reflexivity))).
    split; [reflexivity|].
    intros H. apply find_contains in H. apply H. reflexivity.
Defined.

(** X10.  When the first process fails, its text is taken for retryable and
    the parameter to adapt holds no number (it was never set, or it holds a
    string or a list), the [+=] of the retry raises [TypeError]: [run] ends in
    that exception after this one process, with the configuration as it
    was. *)
Theorem retry_without_number_raises_type_error
    (tool : nat -> list string -> behaviour)
    (to_cli_string : gmap string pyval -> string) (s : ctl) :
  let stream := _stream_output (self s) in
  let argv := argv_of to_cli_string (self s) in
  let b := exec tool (length (w_spawned (env s))) argv in
  fails stream b ->
  classified_retryable (gathered stream "" b) ->
  not_a_number (getitem (_config (self s)) (adapted_key (_config (self s)))) ->
  let out := run tool to_cli_string s in
  fst out = Raise TypeError
  /\ spawned_since (env s) (env (snd out)) = [argv]
  /\ _config (self (snd out)) = _config (self s).
Proof.
  destruct s as [pa w]. cbv zeta. cbn [self env]. intros Hfail Hcls Hnan.
  destruct (DecisionFacts.first_failure tool to_cli_string pa w Hfail)
    as (o' & w' & Hsp & Hrun).
  rewrite Hrun.
  rewrite (DecisionFacts.except_type_error _ _ _ (with_output o' pa) w' Hcls Hnan).
  cbn [fst snd env self]. split; [reflexivity|]. split; [|reflexivity].
  unfold spawned_since. rewrite Hsp. now rewrite drop_app_length.
Qed.

(** The request count was never set and the tool asks for a larger window. *)
Lemma retry_without_number_raises_type_error_witness :
  let tool := always (says "Please use a larger time window" (Exited 1)) in
  let out := run tool cli (fresh ∅ false) in
  fst out = Raise TypeError
  /\ spawned_since fresh_world (env (snd out)) = [["perf_analyzer"; "-m"; "resnet"]]
  /\ _config (self (snd out)) = ∅.
Proof.
  cbv zeta.
  destruct (retry_without_number_raises_type_error
              (always (says "Please use a larger time window" (Exited 1))) cli
              (fresh ∅ false))
    as (H1 & H2 & H3).
  - vm_compute. discriminate.
  - eexists. split; vm_compute; reflexivity.
  - exact I.
  - split; [exact H1|]. split.
    + unfold fresh in H2 |- *. cbn [env] in H2. rewrite H2. vm_compute. reflexivity.
    + rewrite H3. reflexivity.
Defined.

(** X11.  An object as the constructor leaves it answers [output()] with the
    exception "... without calling run first", and in buffered mode it still
    does after a call of [run] that did not return normally: a failed
    buffered call stores no text. *)
Theorem output_needs_a_successful_run
    (tool : nat -> list string -> behaviour)
    (to_cli_string : gmap string pyval -> string)
    (config : gmap string pyval) (timeout : Z) (stream_output : option bool)
    (pa : PerfAnalyzer) (w : world) :
  __init__ (Some config) (Some timeout) stream_output = Ok pa ->
  fst (output {| self := pa; env := w |})
    = Raise (ModelNavigatorException OutputWithoutRun)
  /\ (_stream_output pa = false ->
      fst (run tool to_cli_string {| self := pa; env := w |}) <> Ok tt ->
      fst (output (snd (run tool to_cli_string {| self := pa; env := w |})))
        = Raise (ModelNavigatorException OutputWithoutRun)).
Proof.
  intros Hinit.
  assert (Hnone : _output pa = None) by (injection Hinit as <-; reflexivity).
  split.
  - unfold output, bind, gets. cbn [self]. now rewrite Hnone.
  - intros Hs Hfail.
    pose proof (CaptureFacts.run_loop_buffered tool to_cli_string
                  (Z.to_nat MAX_INTERVAL_CHANGES) pa w Hs) as (_ & _ & Hout).
    rewrite run_eq, Hs in Hfail |- *.
    specialize (Hout Hfail). unfold output, bind, gets. now rewrite Hout, Hnone.
Qed.

(** A fresh buffered object whose ten attempts all fail. *)
Lemma output_needs_a_successful_run_witness :
  let tool := always (says "Please use a larger time window" (Exited 1)) in
  let pa := analyzer window_config false in
  fst (output {| self := pa; env := fresh_world |})
    = Raise (ModelNavigatorException OutputWithoutRun)
  /\ fst (output (snd (run tool cli {| self := pa; env := fresh_world |})))
     = Raise (ModelNavigatorException OutputWithoutRun).
Proof.
  cbv zeta.
  destruct (output_needs_a_successful_run
              (always (says "Please use a larger time window" (Exited 1))) cli
              window_config 600 (Some false) (analyzer window_config false)
              fresh_world eq_refl) as [H1 H2].
  split; [exact H1|]. apply H2; [reflexivity|]. vm_compute. discriminate.
Defined.

(** ** Metrics rows, further *)

Module RowFacts.

Lemma comprehension_ext {A B} (f g : A -> result B) (l : list A) :
  (forall x, x ∈ l -> f x = g x) -> comprehension f l = comprehension g l.
Proof.
  induction l as [|x l IH]; intros H; [reflexivity|]. cbn [comprehension].
  rewrite (H x) by left. rewrite IH; [reflexivity|].
  intros y Hy. apply H. now right.
Qed.

(** A list comprehension raises as soon as one element does, and with the
    exception of an element. *)
Lemma comprehension_raises {A B} (f : A -> result B) (l : list A) (x : A) (e : exn) :
  x ∈ l -> f x = Raise e ->
  exists (y : A) (e' : exn), y ∈ l /\ f y = Raise e' /\ comprehension f l = Raise e'.
Proof.
  induction l as [|z l IH]; intros Hin Hx; [now apply elem_of_nil in Hin|].
  cbn [comprehension]. destruct (f z) as [v|e0] eqn:Ez.
  - apply elem_of_cons in Hin as [->|Hin]; [congruence|].
    destruct (IH Hin Hx) as (y & e' & Hy & Hfy & ->).
    exists y, e'. split; [now right|]. now split.
  - exists z, e0. split; [left|]. now split.
Qed.

Lemma int_raises (v : pyval) (e : exn) :
  int v = Raise e -> e = ValueError \/ e = TypeError.
Proof.
  destruct v; cbn [int]; try discriminate; try (intros [= <-]; now right).
  intros H. left. now apply BatchSizeFacts.int_of_string_raises in H.
Qed.

(** Folding the rows stops at the first one whose average cannot be
    computed. *)
Lemma fold_rows_raises (rows : list (gmap string pyval)) (r : gmap string pyval)
    (e : exn) :
  r ∈ rows -> calculate_average_latency r = Raise e ->
  forall row, exists r' e',
      r' ∈ rows /\ calculate_average_latency r' = Raise e'
      /\ fold_rows rows row = Raise e'.
Proof.
  induction rows as [|z rows IH]; intros Hin Hr row; [now apply elem_of_nil in Hin|].
  cbn [fold_rows]. destruct (calculate_average_latency z) as [a|e0] eqn:Ez.
  - apply elem_of_cons in Hin as [->|Hin]; [congruence|].
    destruct (IH Hin Hr (<["avg latency" := PInt a]> (z ∪ row)))
      as (r' & e' & Hr' & He' & ->).
    exists r', e'. split; [now right|]. now split.
  - exists z, e0. split; [left|]. now split.
Qed.

Lemma fold_rows_ok (rows : list (gmap string pyval)) :
  (forall r, r ∈ rows -> exists a, calculate_average_latency r = Ok a) ->
  forall row, exists row',
      fold_rows rows row = Ok row'
      /\ (rows <> [] -> "avg latency" ∈ dom row')
      /\ (rows = [] -> row' = row).
Proof.
  induction rows as [|r rows IH] using rev_ind; intros Havg row.
  - exists row. now repeat split.
  - rewrite fold_rows_app.
    destruct (IH (fun x Hx => Havg x ltac:(apply elem_of_app; now left)) row)
      as (row1 & -> & _).
    cbn [fold_rows].
    destruct (Havg r) as [a ->]; [apply elem_of_app; right; left|].
    eexists. split; [reflexivity|]. split.
    + intros _. rewrite dom_insert_L. set_solver.
    + intros H. now destruct rows.
Qed.

End RowFacts.

(** X12.  The average latency of a metrics row depends on its eight latency
    fields alone: two rows that agree on these have the same result (value or
    exception), whatever their other columns (throughput, percentiles, the
    batch size) hold. *)
Theorem average_latency_ignores_other_columns (r r' : gmap string pyval) :
  (forall field, field ∈ avg_sum_fields -> r !! field = r' !! field) ->
  calculate_average_latency r = calculate_average_latency r'.
Proof.
  intros H. unfold calculate_average_latency.
  rewrite (RowFacts.comprehension_ext _ (fun f => int (dict_get r' f (PInt 0)))
             avg_sum_fields); [reflexivity|].
  intros f Hf. unfold dict_get. now rewrite (H f Hf).
Qed.

(** The row of two fields, alone and with a throughput column beside it. *)
Lemma average_latency_ignores_other_columns_witness :
  calculate_average_latency (<[ "Inferences/Second" := PStr "1520.3" ]> two_fields_csv)
  = calculate_average_latency two_fields_csv.
Proof.
  apply average_latency_ignores_other_columns.
  intros field Hf. apply lookup_insert_ne.
  unfold avg_sum_fields in Hf.
  repeat (apply elem_of_cons in Hf as [->|Hf]; [discriminate|]).
  now apply elem_of_nil in Hf.
Defined.

(** X13.  A latency field that is present and is not an integer makes
    [calculate_average_latency] raise: [ValueError] for a text [int] does not
    read (a fraction such as "12.5", an empty cell), [TypeError] for a cell
    that is None.  No field is skipped or counted as zero. *)
Theorem average_latency_rejects_non_integer (r : gmap string pyval)
    (field : string) (v : pyval) (e : exn) :
  field ∈ avg_sum_fields ->
  r !! field = Some v ->
  int v = Raise e ->
  exists e', calculate_average_latency r = Raise e'
        /\ (e' = ValueError \/ e' = TypeError).
Proof.
  intros Hf Hv He. unfold calculate_average_latency.
  destruct (RowFacts.comprehension_raises
              (fun f => int (dict_get r f (PInt 0))) avg_sum_fields field e Hf)
    as (y & e' & _ & Hy & ->).
  { unfold dict_get. now rewrite Hv. }
  exists e'. split; [reflexivity|]. now apply RowFacts.int_raises in Hy.
Qed.

(** A row whose server queue time is a fraction. *)
Lemma average_latency_rejects_non_integer_witness :
  exists e', calculate_average_latency
          (<[ "Server Queue" := PStr "12.5" ]> two_fields_csv) = Raise e'
        /\ (e' = ValueError \/ e' = TypeError).
Proof.
  apply (average_latency_rejects_non_integer
           (<[ "Server Queue" := PStr "12.5" ]> two_fields_csv)
           "Server Queue" (PStr "12.5") ValueError).
  - unfold avg_sum_fields. do 2 right. left.
  - reflexivity.
  - reflexivity.
Defined.

(** X14.  [update_performance_data] appends nothing and leaves the world as
    it is when it fails, and it fails when the scratch file is missing
    ([FileNotFoundError]) and when any row of the file, not only the last one
    whose values are kept, has a latency field that is not an integer. *)
Theorem update_performance_data_failures
    (results : list (gmap string pyval)) (batch_size : Z) (file : string) (w : world) :
  (w_files w !! file = None ->
   update_performance_data results batch_size file w = (Raise FileNotFoundError, w))
  /\ (forall rows r e,
        w_files w !! file = Some rows ->
        r ∈ rows -> calculate_average_latency r = Raise e ->
        exists e', update_performance_data results batch_size file w = (Raise e', w)).
Proof.
  split.
  - intros H. unfold update_performance_data, bind, open_csv. now rewrite H.
  - intros rows r e Hfile Hin Hr.
    destruct (RowFacts.fold_rows_raises rows r e Hin Hr
                {[ "batch_size" := PInt batch_size ]}) as (_ & e' & _ & _ & Hfold).
    exists e'. unfold update_performance_data, bind, open_csv, lift_result.
    now rewrite Hfile, Hfold.
Qed.

(** No scratch file; and a scratch file whose first row has a fraction. *)
Lemma update_performance_data_failures_witness :
  update_performance_data [] 4 "triton_performance_partial_4.csv" fresh_world
    = (Raise FileNotFoundError, fresh_world)
  /\ exists e',
      update_performance_data [] 4 "f.csv"
        {| w_spawned := []; w_stdout := [];
           w_files := {[ "f.csv" := [ <[ "Server Queue" := PStr "12.5" ]> two_fields_csv;
                                      two_fields_csv ] ]};
           w_errors := []; w_saved := []; w_shown := [] |}
      = (Raise e',
         {| w_spawned := []; w_stdout := [];
            w_files := {[ "f.csv" := [ <[ "Server Queue" := PStr "12.5" ]> two_fields_csv;
                                       two_fields_csv ] ]};
            w_errors := []; w_saved := []; w_shown := [] |}).
Proof.
  split.
  - apply (proj1 (update_performance_data_failures [] 4
                    "triton_performance_partial_4.csv" fresh_world)).
    reflexivity.
  - eapply (proj2 (update_performance_data_failures [] 4 "f.csv" _)).
    + reflexivity.
    + left.
    + vm_compute. reflexivity.
Defined.

(** X15.  When every row of the scratch file has integer latency fields,
    [update_performance_data] leaves the world as it is and appends exactly
    one row behind the measurements gathered so far.  That row has an
    "avg latency" exactly when the file has at least one sample row: for a
    file with a header and no rows it is the batch size alone. *)
Theorem update_performance_data_appends_one
    (results : list (gmap string pyval)) (batch_size : Z) (file : string)
    (w : world) (rows : list (gmap string pyval)) :
  w_files w !! file = Some rows ->
  (forall r, r ∈ rows -> exists a, calculate_average_latency r = Ok a) ->
  exists row : gmap string pyval,
    update_performance_data results batch_size file w = (Ok (results ++ [row])%list, w)
    /\ ("avg latency" ∈ dom row <-> rows <> [])
    /\ (rows = [] -> row = {[ "batch_size" := PInt batch_size ]}).
Proof.
  intros Hfile Havg.
  destruct (RowFacts.fold_rows_ok rows Havg {[ "batch_size" := PInt batch_size ]})
    as (row & Hfold & Hsome & Hnone).
  exists row. split; [|split].
  - unfold update_performance_data, bind, open_csv, lift_result, ret.
    now rewrite Hfile, Hfold.
  - split; [|exact Hsome]. intros Hin ->. rewrite (Hnone eq_refl) in Hin.
    rewrite dom_singleton_L in Hin. apply elem_of_singleton in Hin. discriminate.
  - exact Hnone.
Qed.

(** A file with a header and no sample row. *)
Lemma update_performance_data_appends_one_witness :
  exists row : gmap string pyval,
    update_performance_data [two_fields] 4 "f.csv"
      {| w_spawned := []; w_stdout := []; w_files := {[ "f.csv" := [] ]};
         w_errors := []; w_saved := []; w_shown := [] |}
    = (Ok [two_fields; row],
       {| w_spawned := []; w_stdout := []; w_files := {[ "f.csv" := [] ]};
          w_errors := []; w_saved := []; w_shown := [] |})
    /\ ("avg latency" ∈ dom row <-> @nil (gmap string pyval) <> [])
    /\ (@nil (gmap string pyval) = [] -> row = {[ "batch_size" := PInt 4 ]}).
Proof.
  apply (update_performance_data_appends_one [two_fields] 4 "f.csv"
           {| w_spawned := []; w_stdout := []; w_files := {[ "f.csv" := [] ]};
              w_errors := []; w_saved := []; w_shown := [] |} []).
  - reflexivity.
  - intros r Hr. now apply elem_of_nil in Hr.
Defined.

(** ** The sweep, further *)


(** ** The processes a call starts *)

Module SpawnFacts.

Section Spawn.

Variable tool : nat -> list string -> behaviour.
Variable to_cli_string : gmap string pyval -> string.

Lemma argv_of_same_setup (pa pa' : PerfAnalyzer) :
  same_setup pa pa' ->
  argv_of to_cli_string pa' = argv_of to_cli_string (with_config (_config pa') pa).
Proof.
  intros (Hb & Ht & Hs & _). unfold argv_of, command_of.
  cbn [_stream_output _timeout bin_path _config with_config]. now rewrite Hb, Ht, Hs.
Qed.

(** Every process the loop starts runs the command line of the object at
    some configuration. *)
Lemma run_loop_spawned_shape (pa0 : PerfAnalyzer) (m : nat) :
  forall s : ctl,
    same_setup pa0 (self s) ->
    (_stream_output (self s) = true -> is_Some (_output (self s))) ->
    exists new,
      w_spawned (env (snd (run_loop tool to_cli_string m s)))
      = (w_spawned (env s) ++ new)%list
      /\ Forall (fun argv => exists c, argv = argv_of to_cli_string (with_config c pa0)) new.
Proof.
  induction m as [|m IH]; intros [pa w] Hsame Hready.
  - exists []. cbn. now rewrite app_nil_r.
  - cbn [PerfAnalyzerPy.run_loop]. unfold bind. cbn [self env] in *.
    destruct (attempt_spawns tool to_cli_string pa w Hready) as (Hsp & Hst & Hout).
    pose proof (FrameFacts.attempt_frame tool to_cli_string pa w Hready) as Hframe.
    assert (Hargv : exists c, argv_of to_cli_string pa
                              = argv_of to_cli_string (with_config c pa0))
      by (eexists; now apply argv_of_same_setup).
    destruct (attempt tool to_cli_string {| self := pa; env := w |}) as [[[|]|e] s'];
      cbn [snd] in *.
    + exists [argv_of to_cli_string pa]. split; [exact Hsp|]. now repeat constructor.
    + destruct (IH s') as (new & Hnew & Hall).
      { eapply FrameFacts.same_setup_trans; eassumption. }
      { rewrite Hst. exact Hout. }
      exists (argv_of to_cli_string pa :: new). split.
      * rewrite Hnew, Hsp, <- app_assoc. reflexivity.
      * now constructor.
    + exists [argv_of to_cli_string pa]. split; [exact Hsp|]. now repeat constructor.
Qed.

End Spawn.

End SpawnFacts.

(** X17.  [run] starts nothing but the tool: every command line it starts is
    the object's executable followed by plain arguments (none empty, none
    with white space or an equals sign), and in streamed mode, and only
    there, this is preceded by [timeout] and the object's timeout in
    decimal. *)
Theorem run_starts_only_the_tool
    (tool : nat -> list string -> behaviour)
    (to_cli_string : gmap string pyval -> string) (s : ctl) :
  Forall (fun argv =>
            exists args,
              Forall plain_token args
              /\ argv = ((if _stream_output (self s)
                          then ["timeout"; str_int (_timeout (self s))] else [])
                         ++ bin_path (self s) :: args)%list)
    (spawned_since (env s) (env (snd (run tool to_cli_string s)))).
Proof.
  destruct s as [pa w]. cbn [self env]. rewrite run_eq.
  destruct (SpawnFacts.run_loop_spawned_shape tool to_cli_string pa
              (Z.to_nat MAX_INTERVAL_CHANGES)
              {| self := if _stream_output pa then with_output (Some "") pa else pa;
                 env := w |}) as (new & Hnew & Hall).
  - cbn [self]. destruct (_stream_output pa); repeat split.
  - cbn [self]. destruct (_stream_output pa) eqn:Hs; cbn; [eauto | congruence].
  - cbn [env] in Hnew. unfold spawned_since. rewrite Hnew, drop_app_length.
    eapply Forall_impl; [exact Hall|]. intros argv [c ->].
    destruct (command_arguments_are_plain_args to_cli_string (with_config c pa))
      as (args & Hcmd & Hplain).
    exists args. split; [exact Hplain|].
    unfold argv_of. cbn [_stream_output _timeout with_config]. rewrite Hcmd.
    cbn [bin_path with_config]. now destruct (_stream_output pa).
Qed.
